(** * Finanças da Família

    A shallow embedding of [financas8.py] (and of the helpers it shares
    with [login.py] and [financas5.py]): the credential hash, the
    [transacoes] table with its five statements, the submit handler of
    the entry form, and the cash-flow projection of
    [render_detailed_analysis_section]; further the [users] table with
    the two login pages, the frame the main script builds from the
    listing, and the projection loop of [financas5.py].

    Conventions.
    - A Python [float] amount is an exact rational ([Q]) wherever a
      statement does not depend on how sums round; the module [Binary64]
      has the projection on binary64 floats, as the program adds them.
    - A Python [str] is the string of its UTF-8 bytes.
    - A call that can raise returns a [Py.result]; [datetime.now()] is
      the parameter [today] of whatever reads the clock. *)

From Stdlib Require Import ZArith QArith List String Ascii Bool Permutation Lia.
From Stdlib Require Import Sorted.
From Stdlib Require Import Floats.PrimFloat.
Import ListNotations.

Local Open Scope Z_scope.

(** ** Python values that raise *)

Module Py.

Inductive exn : Set :=
| AttributeError
| TypeError
| ValueError
| JSONDecodeError
| IntegrityError
| OperationalError
| OverflowError.

Inductive result (A : Type) : Type :=
| Ok (a : A)
| Raise (e : exn).

Arguments Ok {A} a.
Arguments Raise {A} e.

Definition bind {A B : Type} (c : result A) (k : A -> result B) : result B :=
  match c with
  | Ok a => k a
  | Raise e => Raise e
  end.

(** [for x in l: s = body x s], leaving at the first exception. *)
Fixpoint for_each {A S : Type} (body : A -> S -> result S) (l : list A) (s : S)
  : result S :=
  match l with
  | [] => Ok s
  | x :: l' => bind (body x s) (for_each body l')
  end.

(** What is left of a computation once the kind of exception is forgotten. *)
Definition returned {A : Type} (c : result A) : option A :=
  match c with
  | Ok a => Some a
  | Raise _ => None
  end.

(** Truth value of a nullable text cell: [None] and [''] are false. *)
Definition truthy (o : option string) : bool :=
  match o with
  | None => false
  | Some s => negb (String.eqb s EmptyString)
  end.

(** [cell == lit] for a nullable text cell. *)
Definition eq_str (o : option string) (lit : string) : bool :=
  match o with
  | None => false
  | Some s => String.eqb s lit
  end.

(** [cell not in lits]. *)
Definition not_in (o : option string) (lits : list string) : bool :=
  negb (existsb (eq_str o) lits).

End Py.

Import Py.

Declare Scope py_scope.
Delimit Scope py_scope with py.
Notation "x <- c ;; k" := (Py.bind c (fun x => k))
  (at level 61, c at next level, right associativity) : py_scope.
Local Open Scope py_scope.

(** ** Calendar dates ([datetime.date]) *)

Module Dates.

Record date : Set := Date { year : Z; month : Z; day : Z }.

Definition is_leap (y : Z) : bool :=
  ((y mod 4 =? 0) && negb (y mod 100 =? 0)) || (y mod 400 =? 0).

Definition days_in_month (y m : Z) : Z :=
  if m =? 2 then (if is_leap y then 29 else 28)
  else if (m =? 4) || (m =? 6) || (m =? 9) || (m =? 11) then 30
  else 31.

(** The dates [datetime.date] can hold. *)
Definition valid_date (d : date) : bool :=
  (1 <=? year d) && (year d <=? 9999)
  && (1 <=? month d) && (month d <=? 12)
  && (1 <=? day d) && (day d <=? days_in_month (year d) (month d)).

(** [d1 < d2] and [d1 <= d2] on dates. *)
Definition date_ltb (d1 d2 : date) : bool :=
  (year d1 <? year d2)
  || ((year d1 =? year d2)
      && ((month d1 <? month d2)
          || ((month d1 =? month d2) && (day d1 <? day d2)))).

Definition date_leb (d1 d2 : date) : bool := negb (date_ltb d2 d1).

(** [d.replace(day=n)]. *)
Definition replace_day (d : date) (n : Z) : date :=
  Date (year d) (month d) n.

(** The text [d.strftime("%Y-%m")] is the year and the zero-padded month
    around a dash: it is kept as the pair it prints. *)
Definition month_key : Set := (Z * Z)%type.

Definition strftime_Ym (d : date) : month_key := (year d, month d).

Definition month_key_eqb (k1 k2 : month_key) : bool :=
  (fst k1 =? fst k2) && (snd k1 =? snd k2).

(** [d + pd.DateOffset(months=i)]: the month moves, the day is cut back to
    the length of the month reached. *)
Definition add_months (d : date) (i : Z) : date :=
  let t := year d * 12 + (month d - 1) + i in
  let y := t / 12 in
  let m := t mod 12 + 1 in
  Date y m (Z.min (day d) (days_in_month y m)).

(** *** [datetime.strptime(s, "%Y-%m-%d").date()], on ASCII digits *)

Definition digit_of (c : ascii) : option Z :=
  let n := Z.of_N (N_of_ascii c) in
  if (48 <=? n) && (n <=? 57) then Some (n - 48) else None.

Fixpoint number_of (acc : Z) (s : string) : option Z :=
  match s with
  | EmptyString => Some acc
  | String c s' =>
      match digit_of c with
      | Some n => number_of (acc * 10 + n) s'
      | None => None
      end
  end.

(** Cut a text at every dash. *)
Fixpoint split_dash (cur : string) (s : string) : list string :=
  match s with
  | EmptyString => [cur]
  | String c s' =>
      if Ascii.eqb c "-"%char then cur :: split_dash EmptyString s'
      else split_dash (cur ++ String c EmptyString)%string s'
  end.

(** [%Y]: four digits. *)
Definition field_Y (s : string) : option Z :=
  if Nat.eqb (String.length s) 4 then number_of 0 s else None.

(** [%m]: [1[0-2]|0[1-9]|[1-9]]. *)
Definition field_m (s : string) : option Z :=
  if Nat.leb 1 (String.length s) && Nat.leb (String.length s) 2 then
    match number_of 0 s with
    | Some n => if (1 <=? n) && (n <=? 12) then Some n else None
    | None => None
    end
  else None.

(** [%d]: [3[01]|[12]\d|0[1-9]|[1-9]| [1-9]]. *)
Definition field_d (s : string) : option Z :=
  let digits :=
    match s with
    | String " " (String c EmptyString) => String c EmptyString
    | _ => s
    end in
  if Nat.leb 1 (String.length digits) && Nat.leb (String.length digits) 2 then
    match number_of 0 digits with
    | Some n => if (1 <=? n) && (n <=? 31) then Some n else None
    | None => None
    end
  else None.

Definition strptime_Ymd (s : string) : result date :=
  match split_dash EmptyString s with
  | [fy; fm; fd] =>
      match field_Y fy, field_m fm, field_d fd with
      | Some y, Some m, Some d =>
          if valid_date (Date y m d) then Ok (Date y m d) else Raise ValueError
      | _, _, _ => Raise ValueError
      end
  | _ => Raise ValueError
  end.

(** *** [d.strftime("%Y-%m-%d")] *)

Definition digit_char (n : Z) : ascii := ascii_of_N (Z.to_N (48 + n)).

Definition two_digits (n : Z) : string :=
  String (digit_char (n / 10 mod 10))
         (String (digit_char (n mod 10)) EmptyString).

(** The year on four digits, the month and the day on two. *)
Definition strftime_Ymd (d : date) : string :=
  (two_digits (year d / 100) ++ two_digits (year d) ++ "-"
   ++ two_digits (month d) ++ "-" ++ two_digits (day d))%string.

End Dates.

Import Dates.

(** ** The installment dates column ([json.loads]) *)

Module Json.

(** [json.loads] on the texts the entry form stores, [json.dumps] of a list
    of date strings: an array of string literals, with the white space JSON
    allows around the tokens.  Text that is no JSON document is refused with
    [JSONDecodeError].  Arrays holding escapes or other kinds of values, and
    documents that are no array, are outside this fragment and refused the
    same way. *)

Inductive state : Set :=
| Start
| AfterOpen
| InString (acc : string)
| AfterString
| AfterComma
| Done.

Definition is_ws (c : ascii) : bool :=
  Ascii.eqb c " "%char || Ascii.eqb c "009"%char
  || Ascii.eqb c "010"%char || Ascii.eqb c "013"%char.

(** The double quote, character 34. *)
Definition dquote : ascii := "034"%char.

Definition is_control (c : ascii) : bool := (N_of_ascii c <? 32)%N.

Fixpoint scan (st : state) (out : list string) (s : string)
  : result (list string) :=
  match s with
  | EmptyString =>
      match st with
      | Done => Ok (rev out)
      | _ => Raise JSONDecodeError
      end
  | String c s' =>
      match st with
      | Start =>
          if is_ws c then scan Start out s'
          else if Ascii.eqb c "["%char then scan AfterOpen out s'
          else Raise JSONDecodeError
      | AfterOpen =>
          if is_ws c then scan AfterOpen out s'
          else if Ascii.eqb c "]"%char then scan Done out s'
          else if Ascii.eqb c dquote then scan (InString EmptyString) out s'
          else Raise JSONDecodeError
      | InString acc =>
          if Ascii.eqb c dquote then scan AfterString (acc :: out) s'
          else if Ascii.eqb c "\"%char || is_control c then Raise JSONDecodeError
          else scan (InString (acc ++ String c EmptyString)%string) out s'
      | AfterString =>
          if is_ws c then scan AfterString out s'
          else if Ascii.eqb c ","%char then scan AfterComma out s'
          else if Ascii.eqb c "]"%char then scan Done out s'
          else Raise JSONDecodeError
      | AfterComma =>
          if is_ws c then scan AfterComma out s'
          else if Ascii.eqb c dquote then scan (InString EmptyString) out s'
          else Raise JSONDecodeError
      | Done =>
          if is_ws c then scan Done out s'
          else Raise JSONDecodeError
      end
  end.

Definition loads (s : string) : result (list string) := scan Start [] s.

(** [json.dumps] of a list of texts that need no escape, as the dates
    written by [strftime] are. *)
Definition quoted (s : string) : string :=
  (String dquote s ++ String dquote EmptyString)%string.

Fixpoint items (l : list string) : string :=
  match l with
  | [] => EmptyString
  | [s] => quoted s
  | s :: l' => (quoted s ++ ", " ++ items l')%string
  end.

Definition dumps (l : list string) : string := ("[" ++ items l ++ "]")%string.

(** The texts [json.dumps] writes as they are: printable ASCII without
    quote and backslash. *)
Definition is_plain (c : ascii) : bool :=
  let n := N_of_ascii c in
  (32 <=? n)%N && (n <? 128)%N && negb (n =? 34)%N && negb (n =? 92)%N.

Fixpoint plain (s : string) : bool :=
  match s with
  | EmptyString => true
  | String c s' => is_plain c && plain s'
  end.

End Json.


(** ** The data frame of the owner's transactions *)

Module Frame.

(** One row of [df_all_transactions]: the thirteen columns selected by
    [get_transactions], [Data] already a date ([pd.to_datetime]). *)
Record linha : Type := Linha {
  ID : Z;
  Data : date;
  Descricao : string;
  Valor : Q;
  Tipo : string;
  Categoria : option string;
  Responsavel : option string;
  Banco : option string;
  Forma_Recebimento : option string;
  Datas_Parcelas_Receita : option string;
  Recorrente : option string;
  Vezes_Recorrencia : option Z;
  Status : option string
}.

(** The type pandas gives the column [Vezes Recorrencia] of a frame built
    from the fetched tuples: [object] when every entry is NULL, [int64]
    when none is, [float64] (NULL read as NaN) otherwise. *)
Inductive dtype : Set := object | int64 | float64.

Definition is_null (r : linha) : bool :=
  match Vezes_Recorrencia r with
  | None => true
  | Some _ => false
  end.

Definition vezes_dtype (df : list linha) : dtype :=
  if forallb is_null df then object
  else if forallb (fun r => negb (is_null r)) df then int64
  else float64.

(** What [row['Vezes Recorrencia']] evaluates to. *)
Inductive cell : Set :=
| PyNone
| NaN
| PyFloat (z : Z)
| PyInt (z : Z).

Definition vezes_cell (ty : dtype) (v : option Z) : cell :=
  match v, ty with
  | None, object => PyNone
  | None, _ => NaN
  | Some z, float64 => PyFloat z
  | Some z, _ => PyInt z
  end.

(** [c > 1]: [None > 1] is a [TypeError], NaN compares false. *)
Definition gt_one (c : cell) : result bool :=
  match c with
  | PyNone => Raise TypeError
  | NaN => Ok false
  | PyFloat z => Ok (1 <? z)
  | PyInt z => Ok (1 <? z)
  end.

(** [range(1, c)]: only an integer is a bound. *)
Definition range_from_1 (c : cell) : result (list Z) :=
  match c with
  | PyInt z => Ok (map Z.of_nat (seq 1 (Z.to_nat z - 1)))
  | _ => Raise TypeError
  end.

(** [pd.DateOffset(months=i).date()]: a [DateOffset] has no attribute
    [date]; the lookup raises and nothing is returned. *)
Definition DateOffset_date (i : Z) : result Empty_set := Raise AttributeError.

End Frame.

Import Frame.

(** ** The cash-flow projection, [render_detailed_analysis_section] *)

Module Projection.

(** One value of [projection_data]. *)
Record bucket : Set := Bucket { Receitas : Q; Despesas : Q; Saldo : Q }.

(** A Python [dict] from month keys to buckets, in insertion order. *)
Definition dict : Set := list (month_key * bucket).

Definition keys (d : dict) : list month_key := map fst d.

(** [k in d]. *)
Definition contains (k : month_key) (d : dict) : bool :=
  existsb (month_key_eqb k) (keys d).

(** The value stored under a key the dict holds is rewritten in place. *)
Definition update (k : month_key) (f : bucket -> bucket) (d : dict) : dict :=
  map (fun e => if month_key_eqb k (fst e) then (fst e, f (snd e)) else e) d.

(** [d[k] = v]: a new key goes to the end. *)
Definition setitem (k : month_key) (v : bucket) (d : dict) : dict :=
  if contains k d then update k (fun _ => v) d else d ++ [(k, v)].

(** [d[k]['Receitas'] += v] and [d[k]['Despesas'] += v]. *)
Definition iadd_Receitas (k : month_key) (v : Q) (d : dict) : dict :=
  update k (fun b => Bucket (Receitas b + v) (Despesas b) (Saldo b)) d.

Definition iadd_Despesas (k : month_key) (v : Q) (d : dict) : dict :=
  update k (fun b => Bucket (Receitas b) (Despesas b + v) (Saldo b)) d.

(** [d[k]['Saldo'] = d[k]['Receitas'] - d[k]['Despesas']]. *)
Definition set_Saldo (k : month_key) (d : dict) : dict :=
  update k (fun b => Bucket (Receitas b) (Despesas b) (Receitas b - Despesas b)) d.

(** The current month and the three that follow. *)
Definition future_months (today : date) : list date :=
  map (add_months today) [0; 1; 2; 3].

Definition initial (today : date) : dict :=
  fold_left (fun d month_date => setitem (strftime_Ym month_date) (Bucket 0 0 0) d)
            (future_months today) [].

(** The text of the installment dates, once the cell is known to be true. *)
Definition text_of (o : option string) : string :=
  match o with
  | Some s => s
  | None => EmptyString
  end.

Section Row.

Variable today : date.
Variable ty : dtype.
Variable row : linha.

Definition trans_date : date := Data row.
Definition trans_month_key : month_key := strftime_Ym trans_date.

(** Body of [for p_date_str in parcel_dates]; [n] is [len(parcel_dates)]. *)
Definition parcela (n : nat) (p_date_str : string) (projection_data : dict)
  : result dict :=
  p_date <- strptime_Ymd p_date_str ;;
  let p_month_key := strftime_Ym p_date in
  if contains p_month_key projection_data && date_ltb today p_date
  then Ok (iadd_Receitas p_month_key (Valor row / inject_Z (Z.of_nat n))
                         projection_data)
  else Ok projection_data.

(** The branch [row['Tipo'] == 'receita']. *)
Definition receita (projection_data : dict) : result dict :=
  let projection_data :=
    if contains trans_month_key projection_data
    then iadd_Receitas trans_month_key (Valor row) projection_data
    else projection_data in
  if not_in (Forma_Recebimento row) ["Parcela Única"; "Mais de 6x"]%string
     && truthy (Datas_Parcelas_Receita row)
  then
    parcel_dates <- Json.loads (text_of (Datas_Parcelas_Receita row)) ;;
    for_each (parcela (List.length parcel_dates)) parcel_dates projection_data
  else Ok projection_data.

(** Body of [for i in range(1, row['Vezes Recorrencia'])]: the offset is
    asked for its [date] before anything is added. *)
Definition ocorrencia (i : Z) (projection_data : dict) : result dict :=
  offset <- DateOffset_date i ;;
  match offset : Empty_set with end.

(** The branch [row['Tipo'] == 'despesa']. *)
Definition despesa (projection_data : dict) : result dict :=
  let projection_data :=
    if eq_str (Status row) "A Pagar" && contains trans_month_key projection_data
    then iadd_Despesas trans_month_key (Valor row) projection_data
    else if eq_str (Status row) "Pago"
            && date_leb (replace_day today 1) trans_date
            && contains trans_month_key projection_data
    then iadd_Despesas trans_month_key (Valor row) projection_data
    else projection_data in
  let vezes := vezes_cell ty (Vezes_Recorrencia row) in
  recorrente <- (if eq_str (Recorrente row) "Sim" then gt_one vezes else Ok false) ;;
  if recorrente : bool
  then
    r <- range_from_1 vezes ;;
    for_each ocorrencia r projection_data
  else Ok projection_data.

(** Body of [for index, row in df_all_transactions.iterrows()]. *)
Definition process_row (projection_data : dict) : result dict :=
  if String.eqb (Tipo row) "receita" then receita projection_data
  else if String.eqb (Tipo row) "despesa" then despesa projection_data
  else Ok projection_data.

End Row.

(** [for month_key in projection_data: ... ['Saldo'] = ...]. *)
Definition compute_saldos (projection_data : dict) : dict :=
  fold_left (fun d month_key => set_Saldo month_key d)
            (keys projection_data) projection_data.

(** Lines 583 to 638: the series handed to the table and the chart. *)
Definition projection (today : date) (df : list linha) : result dict :=
  projection_data <-
    for_each (process_row today (vezes_dtype df)) df (initial today) ;;
  Ok (compute_saldos projection_data).

(** What the section shows: nothing but a notice for an empty frame. *)
Inductive shown : Set :=
| NoData
| Table (proj_df : dict).

Definition render_detailed_analysis_section (today : date) (df : list linha)
  : result shown :=
  match df with
  | [] => Ok NoData
  | _ => proj_df <- projection today df ;; Ok (Table proj_df)
  end.

End Projection.

Import Projection.


(** ** Credentials: [make_hashes] and [check_hashes] *)

Module SHA256.

(** [hashlib.sha256], after FIPS 180-4, on 32-bit words kept in [Z]. *)

Definition mask32 : Z := 2 ^ 32 - 1.

Definition add32 (x y : Z) : Z := Z.land (x + y) mask32.

Definition not32 (x : Z) : Z := Z.lxor x mask32.

Definition shr (n x : Z) : Z := Z.shiftr x n.

Definition rotr (n x : Z) : Z :=
  Z.lor (Z.shiftr x n) (Z.land (Z.shiftl x (32 - n)) mask32).

Definition xor3 (a b c : Z) : Z := Z.lxor (Z.lxor a b) c.

Definition Ch (x y z : Z) : Z := Z.lxor (Z.land x y) (Z.land (not32 x) z).

Definition Maj (x y z : Z) : Z :=
  xor3 (Z.land x y) (Z.land x z) (Z.land y z).

Definition big_sigma0 (x : Z) : Z := xor3 (rotr 2 x) (rotr 13 x) (rotr 22 x).
Definition big_sigma1 (x : Z) : Z := xor3 (rotr 6 x) (rotr 11 x) (rotr 25 x).
Definition small_sigma0 (x : Z) : Z := xor3 (rotr 7 x) (rotr 18 x) (shr 3 x).
Definition small_sigma1 (x : Z) : Z := xor3 (rotr 17 x) (rotr 19 x) (shr 10 x).

(** The first sixty-four primes. *)
Definition primes : list Z :=
  [2; 3; 5; 7; 11; 13; 17; 19; 23; 29; 31; 37; 41; 43; 47; 53;
   59; 61; 67; 71; 73; 79; 83; 89; 97; 101; 103; 107; 109; 113; 127; 131;
   137; 139; 149; 151; 157; 163; 167; 173; 179; 181; 191; 193; 197; 199;
   211; 223; 227; 229; 233; 239; 241; 251; 257; 263; 269; 271; 277; 281;
   283; 293; 307; 311].

(** Integer cube root, one bit at a time from bit [b] down. *)
Fixpoint cube_root_from (b : nat) (n r : Z) : Z :=
  let try_bit (k : nat) (r : Z) :=
    let c := r + 2 ^ Z.of_nat k in
    if c * c * c <=? n then c else r in
  match b with
  | O => try_bit O r
  | S b' => cube_root_from b' n (try_bit b r)
  end.

(** The round constants: the first 32 bits of the fractional parts of the
    cube roots of the primes; the initial hash value: the same of the
    square roots of the first eight. *)
Definition K : list Z :=
  Eval vm_compute in
    map (fun p => Z.land (cube_root_from 40 (p * 2 ^ 96) 0) mask32) primes.

Definition H0 : list Z :=
  Eval vm_compute in
    map (fun p => Z.land (Z.sqrt (p * 2 ^ 64)) mask32) (firstn 8 primes).

(** Padding: a one bit, zeros up to 56 modulo 64 bytes, the bit length on
    eight bytes. *)
Definition be_bytes (n : nat) (x : Z) : list Z :=
  map (fun i => Z.land (Z.shiftr x (8 * Z.of_nat (n - 1 - i))) 255) (seq 0 n).

Definition pad (msg : list Z) : list Z :=
  let len := Z.of_nat (List.length msg) in
  let zeros := Z.to_nat ((55 - len) mod 64) in
  msg ++ [128] ++ repeat 0 zeros ++ be_bytes 8 (8 * len).

Fixpoint words_of (fuel : nat) (bytes : list Z) : list Z :=
  match fuel, bytes with
  | S fuel', a :: b :: c :: d :: rest =>
      (((a * 256 + b) * 256 + c) * 256 + d) :: words_of fuel' rest
  | _, _ => []
  end.

Fixpoint blocks_of (fuel : nat) (ws : list Z) : list (list Z) :=
  match fuel, ws with
  | S fuel', _ :: _ => firstn 16 ws :: blocks_of fuel' (skipn 16 ws)
  | _, _ => []
  end.

(** The message schedule: [w] holds the last sixteen words, oldest first. *)
Fixpoint schedule (n : nat) (w : list Z) : list Z :=
  match n with
  | O => []
  | S n' =>
      let next :=
        add32 (add32 (small_sigma1 (nth 14 w 0)) (nth 9 w 0))
              (add32 (small_sigma0 (nth 1 w 0)) (nth 0 w 0)) in
      next :: schedule n' (tl w ++ [next])
  end.

Definition round (st : list Z) (kw : Z * Z) : list Z :=
  match st with
  | [a; b; c; d; e; f; g; h] =>
      let t1 := add32 (add32 (add32 h (big_sigma1 e)) (Ch e f g))
                      (add32 (fst kw) (snd kw)) in
      let t2 := add32 (big_sigma0 a) (Maj a b c) in
      [add32 t1 t2; a; b; c; add32 d t1; e; f; g]
  | _ => st
  end.

Definition compress (h : list Z) (block : list Z) : list Z :=
  let w := block ++ schedule 48 block in
  let st := fold_left round (combine K w) h in
  map (fun p => add32 (fst p) (snd p)) (combine h st).

Definition digest (msg : list Z) : list Z :=
  let bytes := pad msg in
  let ws := words_of (List.length bytes) bytes in
  fold_left compress (blocks_of (List.length ws) ws) H0.

Definition hex_digit (n : Z) : ascii :=
  if n <? 10 then ascii_of_N (Z.to_N (48 + n)) else ascii_of_N (Z.to_N (87 + n)).

Definition hex_word (x : Z) : string :=
  fold_right (fun i s => String (hex_digit (Z.land (Z.shiftr x (4 * Z.of_nat (7 - i))) 15)) s)
             EmptyString (seq 0 8).

(** [str.encode(s)]: the bytes of the text. *)
Fixpoint encode (s : string) : list Z :=
  match s with
  | EmptyString => []
  | String c s' => Z.of_N (N_of_ascii c) :: encode s'
  end.

Definition hexdigest (msg : list Z) : string :=
  fold_right (fun w s => (hex_word w ++ s)%string) EmptyString (digest msg).

End SHA256.

Module Credentials.

Definition make_hashes (password : string) : string :=
  SHA256.hexdigest (SHA256.encode password).

Definition check_hashes (password hashed_text : string) : bool :=
  String.eqb (make_hashes password) hashed_text.

End Credentials.

Import Credentials.


(** ** The table [transacoes] and its statements *)

Module Store.

(** A stored row.  [id] is the [INTEGER PRIMARY KEY AUTOINCREMENT];
    [data], [descricao], [valor], [tipo] and [username] are [NOT NULL]. *)
Record transacao : Type := Transacao {
  id : Z;
  data : string;
  descricao : string;
  valor : Q;
  tipo : string;
  categoria : option string;
  username : string;
  responsavel : option string;
  banco : option string;
  forma_recebimento : option string;
  datas_parcelas_receita : option string;
  recorrente : option string;
  vezes_recorrencia : option Z;
  status : option string
}.

(** The table and the largest key handed out so far ([sqlite_sequence]). *)
Record database : Type := Database { rows : list transacao; seq : Z }.

(** The arguments of [add_transaction]; any of them may be [None]. *)
Record campos : Type := Campos {
  a_username : option string;
  a_data : option string;
  a_descricao : option string;
  a_valor : option Q;
  a_tipo : option string;
  a_categoria : option string;
  a_responsavel : option string;
  a_banco : option string;
  a_forma_recebimento : option string;
  a_datas_parcelas_receita : option string;
  a_recorrente : option string;
  a_vezes_recorrencia : option Z;
  a_status : option string
}.

Definition next_id (db : database) : Z :=
  fold_left Z.max (map id (rows db)) (seq db) + 1.

(** [INSERT INTO transacoes (...) VALUES (?, ..., ?)]: the row is stored as
    given, unless a [NOT NULL] column would hold NULL. *)
Definition add_transaction (args : campos) (db : database) : result database :=
  match a_username args, a_data args, a_descricao args, a_valor args, a_tipo args with
  | Some u, Some d, Some de, Some v, Some t =>
      let row :=
        Transacao (next_id db) d de v t (a_categoria args) u
                  (a_responsavel args) (a_banco args) (a_forma_recebimento args)
                  (a_datas_parcelas_receita args) (a_recorrente args)
                  (a_vezes_recorrencia args) (a_status args) in
      Ok (Database (rows db ++ [row]) (next_id db))
  | _, _, _, _, _ => Raise IntegrityError
  end.

(** [WHERE id = ? AND username = ?]. *)
Definition matches (transaction_id : Z) (user : string) (r : transacao) : bool :=
  (id r =? transaction_id) && String.eqb (username r) user.

Definition rowcount (transaction_id : Z) (user : string) (db : database) : Z :=
  Z.of_nat (List.length (filter (matches transaction_id user) (rows db))).

(** [DELETE FROM transacoes WHERE id = ? AND username = ?]. *)
Definition delete_transaction (transaction_id : Z) (user : string) (db : database)
  : database * bool :=
  (Database (filter (fun r => negb (matches transaction_id user r)) (rows db)) (seq db),
   0 <? rowcount transaction_id user db).

(** One keyword argument of [update_transaction].

    [set_c v] is the keyword [c=v] for a column [c] of [transacoes], spelled
    as in [CREATE TABLE], with a value of the column's type or [None]; the
    column [id] is one of them.  [kw_username] and [kw_transaction_id] are
    the keywords [username=...] and [transaction_id=...], whatever their
    value: these are the names of the two parameters of the function.

    Line 142 splices the name of every keyword into the text of the
    statement ([f"{k} = ?"]).  A keyword that is no column name puts other
    text there; what SQLite makes of that text is not modelled, and such
    keywords are no values of this type.  A Python call has no keyword
    twice; on a list that repeats one the assignments are made from left to
    right. *)
Inductive atribuicao : Type :=
| set_id (v : option Z)
| set_data (v : option string)
| set_descricao (v : option string)
| set_valor (v : option Q)
| set_tipo (v : option string)
| set_categoria (v : option string)
| set_responsavel (v : option string)
| set_banco (v : option string)
| set_forma_recebimento (v : option string)
| set_datas_parcelas_receita (v : option string)
| set_recorrente (v : option string)
| set_vezes_recorrencia (v : option Z)
| set_status (v : option string)
| kw_username
| kw_transaction_id.

(** Python binds [username=...] and [transaction_id=...] to the parameters
    that the positional arguments have filled already. *)
Definition is_parameter (a : atribuicao) : bool :=
  match a with
  | kw_username | kw_transaction_id => true
  | _ => false
  end.

Definition sets_id (a : atribuicao) : bool :=
  match a with
  | set_id _ => true
  | _ => false
  end.

(** The integers SQLite stores: [sqlite3] refuses to bind any other
    ([OverflowError]). *)
Definition in_int64 (z : Z) : bool :=
  (- 2 ^ 63 <=? z) && (z <? 2 ^ 63).

Definition binds (a : atribuicao) : bool :=
  match a with
  | set_id (Some z) => in_int64 z
  | set_vezes_recorrencia (Some z) => in_int64 z
  | _ => true
  end.

Definition not_null {A : Type} (v : option A) (k : A -> transacao) : result transacao :=
  match v with
  | Some x => Ok (k x)
  | None => Raise IntegrityError
  end.

(** [SET k = ?] on one row.  [id] is the rowid of the table: NULL is no
    rowid (datatype mismatch, an [IntegrityError]). *)
Definition assign (a : atribuicao) (r : transacao) : result transacao :=
  let '(Transacao i d de v t c u re b f dp rc vz s) := r in
  match a with
  | set_id x => not_null x (fun x => Transacao x d de v t c u re b f dp rc vz s)
  | set_data x => not_null x (fun x => Transacao i x de v t c u re b f dp rc vz s)
  | set_descricao x => not_null x (fun x => Transacao i d x v t c u re b f dp rc vz s)
  | set_valor x => not_null x (fun x => Transacao i d de x t c u re b f dp rc vz s)
  | set_tipo x => not_null x (fun x => Transacao i d de v x c u re b f dp rc vz s)
  | set_categoria x => Ok (Transacao i d de v t x u re b f dp rc vz s)
  | set_responsavel x => Ok (Transacao i d de v t c u x b f dp rc vz s)
  | set_banco x => Ok (Transacao i d de v t c u re x f dp rc vz s)
  | set_forma_recebimento x => Ok (Transacao i d de v t c u re b x dp rc vz s)
  | set_datas_parcelas_receita x => Ok (Transacao i d de v t c u re b f x rc vz s)
  | set_recorrente x => Ok (Transacao i d de v t c u re b f dp x vz s)
  | set_vezes_recorrencia x => Ok (Transacao i d de v t c u re b f dp rc x s)
  | set_status x => Ok (Transacao i d de v t c u re b f dp rc vz x)
  | kw_username | kw_transaction_id => Raise TypeError
  end.

(** The rows after [UPDATE ... WHERE id = ? AND username = ?]. *)
Fixpoint update_rows (transaction_id : Z) (user : string) (kwargs : list atribuicao)
  (l : list transacao) : result (list transacao) :=
  match l with
  | [] => Ok []
  | r :: l' =>
      r' <- (if matches transaction_id user r then for_each assign kwargs r else Ok r) ;;
      l'' <- update_rows transaction_id user kwargs l' ;;
      Ok (r' :: l'')
  end.

(** [PRIMARY KEY]: no id twice. *)
Fixpoint unique (ids : list Z) : bool :=
  match ids with
  | [] => true
  | i :: ids' => negb (existsb (Z.eqb i) ids') && unique ids'
  end.

(** [cursor.execute(f"UPDATE transacoes SET {set_clause} WHERE ...", values)]
    for keywords that name columns.  An empty [SET] clause is no statement
    ([OperationalError]); an integer outside 64 bits is not bound
    ([OverflowError]); a NULL in a [NOT NULL] column, a NULL id and an id
    that another row holds undo the statement ([IntegrityError]). *)
Definition execute_update (transaction_id : Z) (user : string)
  (kwargs : list atribuicao) (db : database) : result database :=
  match kwargs with
  | [] => Raise OperationalError
  | _ =>
      if forallb binds kwargs then
        l <- update_rows transaction_id user kwargs (rows db) ;;
        if existsb sets_id kwargs && negb (unique (map id l))
        then Raise IntegrityError
        else Ok (Database l (seq db))
      else Raise OverflowError
  end.

(** [update_transaction(transaction_id, username, **kwargs)].  A keyword
    named like a parameter is refused when the call is made
    ([TypeError], nothing has run); whatever the statement raises is
    caught ([except Exception]) and answered [False]. *)
Definition update_transaction (transaction_id : Z) (user : string)
  (kwargs : list atribuicao) (db : database) : database * result bool :=
  if existsb is_parameter kwargs then (db, Raise TypeError)
  else
    match execute_update transaction_id user kwargs db with
    | Ok db' => (db', Ok (0 <? rowcount transaction_id user db))
    | Raise _ => (db, Ok false)
    end.

(** [SELECT SUM(valor) FROM transacoes WHERE ...]: NULL over no row. *)
Definition sql_sum (where_ : transacao -> bool) (l : list transacao) : option Q :=
  fold_left
    (fun acc r =>
       if where_ r then
         Some (match acc with
               | None => valor r
               | Some total => (total + valor r)%Q
               end)
       else acc)
    l None.

(** [cursor.fetchone()[0] or 0.0]. *)
Definition or_zero (o : option Q) : Q :=
  match o with
  | None => 0%Q
  | Some q => if Qeq_bool q 0 then 0%Q else q
  end.

Definition is_receita (user : string) (r : transacao) : bool :=
  String.eqb (username r) user && String.eqb (tipo r) "receita".

Definition is_despesa (user : string) (st : string) (r : transacao) : bool :=
  String.eqb (username r) user && String.eqb (tipo r) "despesa"
  && eq_str (status r) st.

(** [(total_receitas, total_despesas_pagas, total_despesas_apagar)]. *)
Definition get_summary (user : string) (db : database) : Q * Q * Q :=
  let total_receitas := or_zero (sql_sum (is_receita user) (rows db)) in
  let total_despesas_pagas := or_zero (sql_sum (is_despesa user "Pago") (rows db)) in
  let total_despesas_apagar := or_zero (sql_sum (is_despesa user "A Pagar") (rows db)) in
  (total_receitas, total_despesas_pagas, total_despesas_apagar).

(** [saldo_projetado] of [render_overview_dashboard]. *)
Definition saldo_projetado (user : string) (db : database) : Q :=
  let '(total_receitas, total_despesas_pagas, total_despesas_apagar) :=
    get_summary user db in
  (total_receitas - (total_despesas_pagas + total_despesas_apagar))%Q.

End Store.

(** ** The entry form, from [if submitted:] on *)

Module Form.

Import Store.

Inductive transaction_type : Set := Receita | Despesa.

(** [transaction_type.lower()]. *)
Definition lower (t : transaction_type) : string :=
  match t with
  | Receita => "receita"
  | Despesa => "despesa"
  end.

(** What the widgets hold when the button is pressed. *)
Record widgets : Type := Widgets {
  data_transacao : date;
  w_valor : Q;
  w_descricao : string;
  w_type : transaction_type;
  categoria_selecionada : option string;
  w_responsavel : option string;
  w_banco : option string;
  w_forma_recebimento : option string;
  datas_parcelas_receita_json : option string;
  w_recorrente : option string;
  w_vezes_recorrencia : option Z;
  w_status : option string
}.

Inductive feedback : Set :=
| preencha_descricao_e_valor
| adicionada_com_sucesso
| erro_ao_adicionar (e : exn).

(** [not descricao or not valor]. *)
Definition incomplete (w : widgets) : bool :=
  String.eqb (w_descricao w) EmptyString || Qeq_bool (w_valor w) 0.

Definition submitted (current_username : string) (w : widgets) (db : database)
  : feedback * database :=
  if incomplete w then (preencha_descricao_e_valor, db)
  else
    let data_str := strftime_Ymd (data_transacao w) in
    match add_transaction
            (Campos (Some current_username) (Some data_str) (Some (w_descricao w))
                    (Some (w_valor w)) (Some (lower (w_type w)))
                    (categoria_selecionada w) (w_responsavel w) (w_banco w)
                    (w_forma_recebimento w) (datas_parcelas_receita_json w)
                    (w_recorrente w) (w_vezes_recorrencia w) (w_status w))
            db with
    | Ok db' => (adicionada_com_sucesso, db')
    | Raise e => (erro_ao_adicionar e, db)
    end.

(** [int(forma_recebimento.replace('x', ''))] on the labels of the select
    box: the digits that are left once every [x] is gone. *)
Fixpoint replace_x (s : string) : string :=
  match s with
  | EmptyString => EmptyString
  | String c s' => if Ascii.eqb c "x"%char then replace_x s' else String c (replace_x s')
  end.

Definition int (s : string) : result Z :=
  match s with
  | EmptyString => Raise ValueError
  | _ =>
      match number_of 0 s with
      | Some n => Ok n
      | None => Raise ValueError
      end
  end.

Definition num_parcelas (forma_recebimento : string) : result Z :=
  int (replace_x forma_recebimento).

(** The dates column as the income part of the form fills it:
    [parcel_date i] is what the [i]-th date input holds.  A plan that is
    no count leaves the column NULL ([except ValueError]). *)
Definition datas_parcelas_json (forma_recebimento : string) (parcel_date : Z -> date)
  : option string :=
  if not_in (Some forma_recebimento) ["Parcela Única"; "Mais de 6x"]%string then
    match num_parcelas forma_recebimento with
    | Ok n =>
        let datas_parcelas :=
          map (fun i => strftime_Ymd (parcel_date (Z.of_nat i)))
              (List.seq 1 (Z.to_nat n)) in
        Some (Json.dumps datas_parcelas)
    | Raise _ => None
    end
  else None.

End Form.


(** ** The projection read as contributions *)

Module Expander.

(** What one row adds to the series: an amount, under a month of the
    window, on the income or on the expense side. *)
Inductive lado : Set := em_Receitas | em_Despesas.

Record contribution : Set := Contribution {
  side : lado;
  month_of : month_key;
  amount : Q
}.

Definition post (c : contribution) (d : dict) : dict :=
  match side c with
  | em_Receitas => iadd_Receitas (month_of c) (amount c) d
  | em_Despesas => iadd_Despesas (month_of c) (amount c) d
  end.

Definition post_all (cs : list contribution) (d : dict) : dict :=
  fold_left (fun d c => post c d) cs d.

Definition in_window (window : list month_key) (k : month_key) : bool :=
  existsb (month_key_eqb k) window.

(** The posting of a row to the month of its own date. *)
Definition own_month (today : date) (window : list month_key) (row : linha)
  : list contribution :=
  let k := strftime_Ym (Data row) in
  if String.eqb (Tipo row) "receita" then
    if in_window window k then [Contribution em_Receitas k (Valor row)] else []
  else if String.eqb (Tipo row) "despesa" then
    if (eq_str (Status row) "A Pagar"
        || (eq_str (Status row) "Pago" && date_leb (replace_day today 1) (Data row)))
       && in_window window k
    then [Contribution em_Despesas k (Valor row)] else []
  else [].

(** The installments of an income that are still to come. *)
Definition to_come (today : date) (window : list month_key) (p : date) : bool :=
  in_window window (strftime_Ym p) && date_ltb today p.

Definition installment (row : linha) (n : Z) (p : date) : contribution :=
  Contribution em_Receitas (strftime_Ym p) (Valor row / inject_Z n).

Fixpoint parse_dates (l : list string) : result (list date) :=
  match l with
  | [] => Ok []
  | s :: l' =>
      p <- strptime_Ymd s ;;
      ps <- parse_dates l' ;;
      Ok (p :: ps)
  end.

Definition installments (today : date) (window : list month_key) (row : linha)
  : result (list contribution) :=
  if String.eqb (Tipo row) "receita"
     && not_in (Forma_Recebimento row) ["Parcela Única"; "Mais de 6x"]%string
     && truthy (Datas_Parcelas_Receita row)
  then
    parcel_dates <- Json.loads (text_of (Datas_Parcelas_Receita row)) ;;
    ps <- parse_dates parcel_dates ;;
    Ok (map (installment row (Z.of_nat (List.length parcel_dates)))
            (filter (to_come today window) ps))
  else Ok [].

(** A recurring expense never gets as far as a contribution. *)
Definition occurrences (ty : dtype) (row : linha) : result (list contribution) :=
  if String.eqb (Tipo row) "receita" then Ok []
  else if String.eqb (Tipo row) "despesa" then
    let vezes := vezes_cell ty (Vezes_Recorrencia row) in
    recorrente <- (if eq_str (Recorrente row) "Sim" then gt_one vezes else Ok false) ;;
    if recorrente : bool then
      r <- range_from_1 vezes ;;
      match r with
      | [] => Ok []
      | _ :: _ => Raise AttributeError
      end
    else Ok []
  else Ok [].

Definition expand (today : date) (ty : dtype) (window : list month_key) (row : linha)
  : result (list contribution) :=
  ps <- installments today window row ;;
  os <- occurrences ty row ;;
  Ok (own_month today window row ++ ps ++ os).

(** The contributions of a whole frame, when no row raises. *)
Definition contributions (today : date) (ty : dtype) (window : list month_key)
  (df : list linha) : list contribution :=
  flat_map (fun row => match expand today ty window row with
                       | Ok cs => cs
                       | Raise _ => []
                       end) df.

Definition raises (today : date) (ty : dtype) (window : list month_key) (row : linha)
  : bool :=
  match expand today ty window row with
  | Ok _ => false
  | Raise _ => true
  end.

End Expander.

Import Expander.

(** ** Totals as the specification words them *)

Module Totals.

Import Store.

(** The sum of [valor] over a list of rows. *)
Definition sum_of_amounts (l : list transacao) : Q :=
  fold_right (fun r acc => (valor r + acc)%Q) 0%Q l.

(** The rows of [user] of kind expense whose status is [st]. *)
Definition expenses_with_status (user st : string) (l : list transacao)
  : list transacao :=
  filter (fun r => String.eqb (tipo r) "despesa"
                   && eq_str (status r) st
                   && String.eqb (username r) user) l.

Definition incomes (user : string) (l : list transacao) : list transacao :=
  filter (fun r => String.eqb (tipo r) "receita" && String.eqb (username r) user) l.

(** [SUM ... or 0.0] over amounts taken one after the other. *)
Definition total (amounts : list Q) : Q :=
  or_zero
    (fold_left
       (fun acc v => Some (match acc with
                           | None => v
                           | Some t => (t + v)%Q
                           end))
       amounts None).

End Totals.

(** ** Sample data *)

Module Samples.

Import Store Form.

Definition today0 : date := Date 2024 1 10.

Definition receita_de (d : date) (v : Q) (forma : string) (datas : option string)
  : linha :=
  Linha 1 d "entrada" v "receita" (Some "Salário"%string) (Some "Higo"%string)
        (Some "Outro"%string) (Some forma) datas None None None.

Definition despesa_de (d : date) (v : Q) (rec : string) (vezes : option Z)
  (st : string) : linha :=
  Linha 2 d "saída" v "despesa" (Some "Moradia"%string) None None None None
        (Some rec) vezes (Some st).

(** An income of 1000 in one payment and a paid expense of 300, both in
    the month of [today0]. *)
Definition salario : linha := receita_de (Date 2024 1 5) 1000 "Parcela Única" None.
Definition aluguel : linha := despesa_de (Date 2024 1 3) 300 "Não" None "Pago".

(** An income of 600 in two installments, both still to come. *)
Definition venda : linha :=
  receita_de (Date 2024 1 8) 600 "2x"
             (Some (Json.dumps ["2024-02-05"; "2024-03-05"]%string)).

(** An expense of 100 that repeats three times. *)
Definition academia : linha := despesa_de (Date 2024 1 10) 100 "Sim" (Some 3) "A Pagar".

(** An income whose installment dates are no JSON text. *)
Definition ilegivel : linha := receita_de (Date 2024 1 8) 600 "2x" (Some "oops"%string).

(** An income whose plan is no count, with one date still to come. *)
Definition sem_numero : linha :=
  receita_de (Date 2024 1 8) 600 "Outro" (Some (Json.dumps ["2024-02-05"]%string)).

Definition empty_db : database := Database [] 0.

(** Arguments with an empty description and a negative amount. *)
Definition sem_descricao : campos :=
  Campos (Some "alice"%string) (Some "2024-01-10"%string) (Some EmptyString)
         (Some (-5)%Q) (Some "despesa"%string) None None None None None None None
         (Some "Pago"%string).

Definition linha_de (i : Z) (user tipo_ : string) (v : Q) (st : option string)
  : transacao :=
  Transacao i "2024-01-10" "x" v tipo_ None user None None None None None None st.

(** A table with rows of two owners. *)
Definition db0 : database :=
  Database [linha_de 1 "alice" "receita" 1000 None;
            linha_de 2 "alice" "despesa" 300 (Some "Pago"%string);
            linha_de 3 "bob" "despesa" 50 (Some "Pago"%string);
            linha_de 4 "alice" "despesa" 70 (Some "A Pagar"%string);
            linha_de 5 "alice" "despesa" 20 (Some "Pago"%string)] 5.

(** Rows of three dates, stored out of order. *)
Definition agenda : database :=
  Database [Transacao 1 "2024-01-10" "x" 10 "receita" None "alice" None None
                      None None None None None;
            Transacao 2 "2024-03-02" "y" 20 "despesa" None "alice" None None
                      None None None None (Some "Pago"%string);
            Transacao 3 "2023-12-31" "z" 30 "despesa" None "alice" None None
                      None None None None (Some "A Pagar"%string)] 3.

Definition formulario (descr : string) (v : Q) : widgets :=
  Widgets today0 v descr Despesa (Some "Moradia"%string) None None None None
          (Some "Não"%string) None (Some "Pago"%string).

End Samples.

(** ** The table [users] and the login page *)

Module Users.

(** The rows of [users]: the name, a [TEXT PRIMARY KEY], and the hash of
    the password. *)
Definition tabela : Type := list (string * string).

Definition named (username : string) (r : string * string) : bool :=
  String.eqb (fst r) username.

(** [SELECT password FROM users WHERE username = ?], then [fetchone()]. *)
Definition select_password (username : string) (t : tabela) : option string :=
  match find (named username) t with
  | Some r => Some (snd r)
  | None => None
  end.

(** [INSERT INTO users (username, password) VALUES (?, ?)]: the key
    refuses a name that is there. *)
Definition insert_user (username hashed_password : string) (t : tabela)
  : result tabela :=
  if existsb (named username) t then Raise IntegrityError
  else Ok (t ++ [(username, hashed_password)]).

(** [add_user]: [except sqlite3.IntegrityError] answers [False]. *)
Definition add_user (username password : string) (t : tabela) : tabela * bool :=
  let hashed_password := make_hashes password in
  match insert_user username hashed_password t with
  | Ok t' => (t', true)
  | Raise _ => (t, false)
  end.

Definition verify_user (username password : string) (t : tabela) : bool :=
  match select_password username t with
  | Some hashed_password_db => check_hashes password hashed_password_db
  | None => false
  end.

(** [st.session_state]. *)
Record session : Set := Session { logged_in : bool; session_user : option string }.

Inductive aviso : Set :=
| login_bem_sucedido
| usuario_ou_senha_incorretos
| preencha_todos_os_campos
| senhas_nao_coincidem
| conta_criada
| usuario_ja_existe.

Definition vazio (s : string) : bool := String.eqb s EmptyString.

(** The button [Entrar] of [login_page]. *)
Definition entrar (username password : string) (t : tabela) (s : session)
  : aviso * session :=
  if verify_user username password t
  then (login_bem_sucedido, Session true (Some username))
  else (usuario_ou_senha_incorretos, s).

(** The button [Registrar Nova Conta] of [login_page]. *)
Definition registrar (new_username new_password confirm_password : string)
  (t : tabela) : aviso * tabela :=
  if vazio new_username || vazio new_password || vazio confirm_password
  then (preencha_todos_os_campos, t)
  else if negb (String.eqb new_password confirm_password)
  then (senhas_nao_coincidem, t)
  else
    let '(t', created) := add_user new_username new_password t in
    if created then (conta_criada, t') else (usuario_ja_existe, t').

(** The button [Sair] of the side bar. *)
Definition sair (s : session) : session := Session false None.

(** A table with one account; the text is the hash of the password [x]. *)
Definition contas0 : tabela :=
  [("bob"%string,
    "2d711642b726b04401627ca9fbac32f5c8530fb1903cc4db02258717921a4881"%string)].

End Users.

(** ** The page of [login.py] *)

Module LoginPy.

(** [users_db], a [dict] from names to hashes. *)
Definition dict : Type := list (string * string).

(** [k in d], [d[k]] and [d[k] = v]. *)
Definition contains (k : string) (d : dict) : bool :=
  existsb (fun e => String.eqb (fst e) k) d.

Definition getitem (k : string) (d : dict) : option string :=
  match find (fun e => String.eqb (fst e) k) d with
  | Some e => Some (snd e)
  | None => None
  end.

Definition setitem (k v : string) (d : dict) : dict :=
  if contains k d
  then map (fun e => if String.eqb (fst e) k then (fst e, v) else e) d
  else d ++ [(k, v)].

Inductive menu : Set := Login | Registrar.

Inductive aviso : Set :=
| bem_vindo (username : string)
| usuario_ou_senha_incorretos
| preencha_todos_os_campos
| senhas_nao_coincidem
| usuario_ja_existe
| conta_criada.

(** What the visitor has chosen and typed, and whether the button of the
    section was pressed. *)
Record entrada : Set := Entrada {
  choice : menu;
  campo_usuario : string;
  campo_senha : string;
  campo_confirma : string;
  botao : bool
}.

(** Lines 29 to 72, for the [users_db] they find. *)
Definition pagina (users_db : dict) (e : entrada) : option aviso * dict :=
  match choice e with
  | Login =>
      if botao e then
        if contains (campo_usuario e) users_db then
          match getitem (campo_usuario e) users_db with
          | Some hashed_password =>
              if check_hashes (campo_senha e) hashed_password
              then (Some (bem_vindo (campo_usuario e)), users_db)
              else (Some usuario_ou_senha_incorretos, users_db)
          | None => (Some usuario_ou_senha_incorretos, users_db)
          end
        else (Some usuario_ou_senha_incorretos, users_db)
      else (None, users_db)
  | Registrar =>
      if botao e then
        if Users.vazio (campo_usuario e) || Users.vazio (campo_senha e)
           || Users.vazio (campo_confirma e)
        then (Some preencha_todos_os_campos, users_db)
        else if negb (String.eqb (campo_senha e) (campo_confirma e))
        then (Some senhas_nao_coincidem, users_db)
        else if contains (campo_usuario e) users_db
        then (Some usuario_ja_existe, users_db)
        else (Some conta_criada,
              setitem (campo_usuario e) (make_hashes (campo_senha e)) users_db)
      else (None, users_db)
  end.

(** One run of the script: line 16, [users_db = {}], comes first, and
    Streamlit runs the script from its first line at every press of a
    button. *)
Definition script (e : entrada) : option aviso * dict := pagina [] e.

End LoginPy.

(** ** The two login pages side by side *)

Module Pages.

(** The notice of [login.py] that says what a notice of [financas8.py]
    says; [username] is the name that was typed. *)
Definition notice (username : string) (a : Users.aviso) : LoginPy.aviso :=
  match a with
  | Users.login_bem_sucedido => LoginPy.bem_vindo username
  | Users.usuario_ou_senha_incorretos => LoginPy.usuario_ou_senha_incorretos
  | Users.preencha_todos_os_campos => LoginPy.preencha_todos_os_campos
  | Users.senhas_nao_coincidem => LoginPy.senhas_nao_coincidem
  | Users.conta_criada => LoginPy.conta_criada
  | Users.usuario_ja_existe => LoginPy.usuario_ja_existe
  end.

End Pages.

(** ** Listing the rows of an owner and loading them into the frame *)

Module Listing.

Import Store.

(** [ORDER BY data DESC] compares the texts of the dates byte by byte.
    Rows of one date are left in the order of the table here; SQL leaves
    their order open. *)
Fixpoint insert_desc (r : transacao) (l : list transacao) : list transacao :=
  match l with
  | [] => [r]
  | x :: l' =>
      if String.leb (data x) (data r) then r :: l else x :: insert_desc r l'
  end.

Definition order_by_data_desc (l : list transacao) : list transacao :=
  fold_right insert_desc [] l.

Definition owned_by (user : string) (r : transacao) : bool :=
  String.eqb (username r) user.

(** [get_transactions]; the tuples it fetches are the rows without the
    column [username]. *)
Definition get_transactions (user : string) (db : database) : list transacao :=
  order_by_data_desc (filter (owned_by user) (rows db)).

(** The dates a [Timestamp] of nanoseconds holds. *)
Definition in_ns_bounds (d : date) : bool :=
  date_leb (Date 1677 9 22) d && date_leb d (Date 2262 4 11).

(** [pd.to_datetime] on a date as the forms store it, [YYYY-MM-DD].  Other
    texts are refused here; pandas reads more than this. *)
Definition to_datetime (s : string) : result date :=
  d <- strptime_Ymd s ;;
  if String.eqb (strftime_Ymd d) s && in_ns_bounds d then Ok d
  else Raise ValueError.

Definition to_linha (r : transacao) : result linha :=
  d <- to_datetime (data r) ;;
  Ok (Linha (id r) d (descricao r) (valor r) (tipo r) (categoria r)
            (responsavel r) (banco r) (forma_recebimento r)
            (datas_parcelas_receita r) (recorrente r) (vezes_recorrencia r)
            (status r)).

(** [pd.DataFrame(all_transactions_data, columns=[...])] with [Data]
    turned into dates; no tuple gives the empty frame. *)
Fixpoint data_frame (l : list transacao) : result (list linha) :=
  match l with
  | [] => Ok []
  | r :: l' =>
      x <- to_linha r ;;
      df <- data_frame l' ;;
      Ok (x :: df)
  end.

(** [df_all_transactions] of the main script. *)
Definition df_all_transactions (user : string) (db : database)
  : result (list linha) :=
  data_frame (get_transactions user db).

(** Later dates first. *)
Definition later_first (a b : transacao) : Prop :=
  String.leb (data b) (data a) = true.

(** The frame has the later dates first. *)
Definition newer_first (a b : linha) : Prop :=
  date_leb (Data b) (Data a) = true.

(** [df_all_transactions.head(10)] of the overview. *)
Definition ultimas (df : list linha) : list linha := firstn 10 df.

(** The key of the table: no id twice, none above the counter. *)
Definition well_keyed (db : database) : Prop :=
  NoDup (map id (rows db)) /\ Forall (fun r => id r <= seq db) (rows db).

End Listing.

(** ** Words for the statements about the projection *)

Module Window.

(** The month after a month. *)
Definition next_month (k : month_key) : month_key :=
  if snd k =? 12 then (fst k + 1, 1) else (fst k, snd k + 1).

(** [d[k]], when the dict has the key. *)
Definition getitem (k : month_key) (d : dict) : option bucket :=
  option_map snd (find (fun e => month_key_eqb k (fst e)) d).

(** What a posting does to the bucket of its month. *)
Definition credit (b : bucket) (c : contribution) : bucket :=
  match side c with
  | em_Receitas => Bucket (Receitas b + amount c) (Despesas b) (Saldo b)
  | em_Despesas => Bucket (Receitas b) (Despesas b + amount c) (Saldo b)
  end.

(** [x + v + ... + v]: [v] added [c] times, one addition after the other. *)
Definition add_times (c : nat) (v x : Q) : Q :=
  Nat.iter c (fun y => (y + v)%Q) x.

(** The installment dates that count for the month [k]: after today and of
    that month. *)
Definition due_in (today : date) (k : month_key) (ps : list date) : list date :=
  filter (fun p => month_key_eqb (strftime_Ym p) k && date_ltb today p) ps.

(** The bucket of the month [k] after an income of [valor] dated [data]
    with installments of [parte] at the dates [ps]: the amount once when
    [k] is the month of [data], then [parte] once for every date that
    counts for [k]; the expenses and the balance untouched. *)
Definition credited (today : date) (k : month_key) (data : date)
  (valor parte : Q) (ps : list date) (b : bucket) : bucket :=
  Bucket (add_times (List.length (due_in today k ps)) parte
            (if month_key_eqb (strftime_Ym data) k
             then (Receitas b + valor)%Q else Receitas b))
         (Despesas b) (Saldo b).

(** The sum of the incomes of a series. *)
Definition total_Receitas (d : dict) : Q :=
  fold_right (fun e acc => (Receitas (snd e) + acc)%Q) 0%Q d.

(** The row with another status. *)
Definition with_status (st : option string) (row : linha) : linha :=
  Linha (ID row) (Data row) (Descricao row) (Valor row) (Tipo row)
        (Categoria row) (Responsavel row) (Banco row) (Forma_Recebimento row)
        (Datas_Parcelas_Receita row) (Recorrente row) (Vezes_Recorrencia row) st.

(** Rows as the entry form makes them: an income has no dates or the dates
    of its date inputs, an expense is marked ['Sim'] or not. *)
Definition form_income (row : linha) : Prop :=
  Tipo row = "receita"%string
  /\ (Datas_Parcelas_Receita row = None
      \/ exists dates,
           Forall (fun d => valid_date d = true) dates
           /\ Datas_Parcelas_Receita row
              = Some (Json.dumps (map strftime_Ymd dates))).

(** An expense that does not repeat: not marked ['Sim'], or marked with a
    count of one at most. *)
Definition single_expense (row : linha) : Prop :=
  Tipo row = "despesa"%string
  /\ (eq_str (Recorrente row) "Sim" = false
      \/ exists n, Vezes_Recorrencia row = Some n /\ n <= 1).

End Window.

(** ** The projection of [financas5.py] *)

Module Projection5.

(** [render_analysis_dashboard], lines 401 to 443: the window, the dict and
    the last loop are those of [financas8.py]; the body of the loop over
    the rows differs. *)

Section Row.

Variable today : date.
Variable ty : dtype.
Variable row : linha.

(** [row['Forma Recebimento'] in ["2x", "3x"]]. *)
Definition in_list (o : option string) (lits : list string) : bool :=
  existsb (eq_str o) lits.

Definition receita (projection_data : dict) : result dict :=
  let projection_data :=
    if contains (trans_month_key row) projection_data
    then iadd_Receitas (trans_month_key row) (Valor row) projection_data
    else projection_data in
  if in_list (Forma_Recebimento row) ["2x"; "3x"]%string
     && truthy (Datas_Parcelas_Receita row)
  then
    parcel_dates <- Json.loads (text_of (Datas_Parcelas_Receita row)) ;;
    for_each (parcela today row (List.length parcel_dates)) parcel_dates
             projection_data
  else Ok projection_data.

(** The expense goes to its month whatever its status; the occurrences
    that follow are asked of a [DateOffset] as in [financas8.py]. *)
Definition despesa (projection_data : dict) : result dict :=
  let projection_data :=
    if contains (trans_month_key row) projection_data
    then iadd_Despesas (trans_month_key row) (Valor row) projection_data
    else projection_data in
  let vezes := vezes_cell ty (Vezes_Recorrencia row) in
  recorrente <- (if eq_str (Recorrente row) "Sim" then gt_one vezes else Ok false) ;;
  if recorrente : bool
  then
    r <- range_from_1 vezes ;;
    for_each ocorrencia r projection_data
  else Ok projection_data.

Definition process_row (projection_data : dict) : result dict :=
  if String.eqb (Tipo row) "receita" then receita projection_data
  else if String.eqb (Tipo row) "despesa" then despesa projection_data
  else Ok projection_data.

End Row.

Definition projection (today : date) (df : list linha) : result dict :=
  projection_data <-
    for_each (process_row today (vezes_dtype df)) df (initial today) ;;
  Ok (compute_saldos projection_data).

End Projection5.

(** ** Words for the comparison of the two versions *)

Module Versions.

(** Rows on which the loops of [financas5.py] and of [financas8.py] have
    nothing to tell apart: a date of the calendar; for an income no dates,
    or a plan among the four that both versions name; for an expense one
    of the two statuses of the form. *)
Definition common (row : linha) : bool :=
  valid_date (Data row)
  && (if String.eqb (Tipo row) "receita"
      then negb (truthy (Datas_Parcelas_Receita row))
           || Projection5.in_list (Forma_Recebimento row)
                ["2x"; "3x"; "Parcela Única"; "Mais de 6x"]%string
      else if String.eqb (Tipo row) "despesa"
      then eq_str (Status row) "A Pagar" || eq_str (Status row) "Pago"
      else true).

(** An income as the form stores it: the plan of the select box and the
    dates column the date inputs gave. *)
Definition form_receita (d : date) (v : Q) (forma : string) (parcel_date : Z -> date)
  : linha :=
  Linha 1 d "entrada" v "receita" (Some "Salário"%string) (Some "Higo"%string)
        (Some "Outro"%string) (Some forma)
        (Form.datas_parcelas_json forma parcel_date) None None None.

(** Date inputs of the twentieth of January, February and March 2024. *)
Definition monthly (i : Z) : date :=
  if i =? 1 then Date 2024 1 20
  else if i =? 2 then Date 2024 2 20
  else Date 2024 3 20.

End Versions.

(** ** The projection on Python floats *)

Module Binary64.

(** The loop of lines 585 to 638 once more, with the amounts as the
    program holds them.  A Python [float] and the [float64] of pandas are
    IEEE 754 binary64 numbers, here [PrimFloat.float]: [+], [-] and [/]
    round to the nearest, ties to even.  Everything but the amounts is
    as in [Projection]. *)

Record linha : Type := Linha {
  ID : Z;
  Data : date;
  Descricao : string;
  Valor : float;
  Tipo : string;
  Categoria : option string;
  Responsavel : option string;
  Banco : option string;
  Forma_Recebimento : option string;
  Datas_Parcelas_Receita : option string;
  Recorrente : option string;
  Vezes_Recorrencia : option Z;
  Status : option string
}.

Definition is_null (r : linha) : bool :=
  match Vezes_Recorrencia r with
  | None => true
  | Some _ => false
  end.

Definition vezes_dtype (df : list linha) : dtype :=
  if forallb is_null df then object
  else if forallb (fun r => negb (is_null r)) df then int64
  else float64.

Record bucket : Set := Bucket { Receitas : float; Despesas : float; Saldo : float }.

Definition dict : Set := list (month_key * bucket).

Definition keys (d : dict) : list month_key := map fst d.

Definition contains (k : month_key) (d : dict) : bool :=
  existsb (month_key_eqb k) (keys d).

Definition update (k : month_key) (f : bucket -> bucket) (d : dict) : dict :=
  map (fun e => if month_key_eqb k (fst e) then (fst e, f (snd e)) else e) d.

Definition setitem (k : month_key) (v : bucket) (d : dict) : dict :=
  if contains k d then update k (fun _ => v) d else d ++ [(k, v)].

(** [d[k]['Receitas'] += v] and [d[k]['Despesas'] += v]. *)
Definition iadd_Receitas (k : month_key) (v : float) (d : dict) : dict :=
  update k (fun b => Bucket (Receitas b + v)%float (Despesas b) (Saldo b)) d.

Definition iadd_Despesas (k : month_key) (v : float) (d : dict) : dict :=
  update k (fun b => Bucket (Receitas b) (Despesas b + v)%float (Saldo b)) d.

(** [d[k]['Saldo'] = d[k]['Receitas'] - d[k]['Despesas']]. *)
Definition set_Saldo (k : month_key) (d : dict) : dict :=
  update k (fun b => Bucket (Receitas b) (Despesas b)
                            (Receitas b - Despesas b)%float) d.

(** [{'Receitas': 0.0, 'Despesas': 0.0, 'Saldo': 0.0}] under each month. *)
Definition initial (today : date) : dict :=
  fold_left (fun d month_date =>
               setitem (strftime_Ym month_date) (Bucket 0 0 0) d)
            (future_months today) [].

(** [float(n)] for the length of a list: exact below [2 ^ 53], and no list
    is that long. *)
Definition of_len (n : nat) : float :=
  Nat.iter n (fun x => (x + 1)%float) 0%float.

Section Row.

Variable today : date.
Variable ty : dtype.
Variable row : linha.

Definition trans_date : date := Data row.
Definition trans_month_key : month_key := strftime_Ym trans_date.

(** Body of [for p_date_str in parcel_dates]; [n] is [len(parcel_dates)]. *)
Definition parcela (n : nat) (p_date_str : string) (projection_data : dict)
  : result dict :=
  p_date <- strptime_Ymd p_date_str ;;
  let p_month_key := strftime_Ym p_date in
  if contains p_month_key projection_data && date_ltb today p_date
  then Ok (iadd_Receitas p_month_key (Valor row / of_len n)%float projection_data)
  else Ok projection_data.

(** The branch [row['Tipo'] == 'receita']. *)
Definition receita (projection_data : dict) : result dict :=
  let projection_data :=
    if contains trans_month_key projection_data
    then iadd_Receitas trans_month_key (Valor row) projection_data
    else projection_data in
  if not_in (Forma_Recebimento row) ["Parcela Única"; "Mais de 6x"]%string
     && truthy (Datas_Parcelas_Receita row)
  then
    parcel_dates <- Json.loads (text_of (Datas_Parcelas_Receita row)) ;;
    for_each (parcela (List.length parcel_dates)) parcel_dates projection_data
  else Ok projection_data.

(** Body of [for i in range(1, row['Vezes Recorrencia'])]. *)
Definition ocorrencia (i : Z) (projection_data : dict) : result dict :=
  offset <- DateOffset_date i ;;
  match offset : Empty_set with end.

(** The branch [row['Tipo'] == 'despesa']. *)
Definition despesa (projection_data : dict) : result dict :=
  let projection_data :=
    if eq_str (Status row) "A Pagar" && contains trans_month_key projection_data
    then iadd_Despesas trans_month_key (Valor row) projection_data
    else if eq_str (Status row) "Pago"
            && date_leb (replace_day today 1) trans_date
            && contains trans_month_key projection_data
    then iadd_Despesas trans_month_key (Valor row) projection_data
    else projection_data in
  let vezes := vezes_cell ty (Vezes_Recorrencia row) in
  recorrente <- (if eq_str (Recorrente row) "Sim" then gt_one vezes else Ok false) ;;
  if recorrente : bool
  then
    r <- range_from_1 vezes ;;
    for_each ocorrencia r projection_data
  else Ok projection_data.

(** Body of [for index, row in df_all_transactions.iterrows()]. *)
Definition process_row (projection_data : dict) : result dict :=
  if String.eqb (Tipo row) "receita" then receita projection_data
  else if String.eqb (Tipo row) "despesa" then despesa projection_data
  else Ok projection_data.

End Row.

Definition compute_saldos (projection_data : dict) : dict :=
  fold_left (fun d month_key => set_Saldo month_key d)
            (keys projection_data) projection_data.

Definition projection (today : date) (df : list linha) : result dict :=
  projection_data <-
    for_each (process_row today (vezes_dtype df)) df (initial today) ;;
  Ok (compute_saldos projection_data).

(** *** The contributions of a row, for the statements *)

Record contribution : Set := Contribution {
  side : lado;
  month_of : month_key;
  amount : float
}.

Definition post (c : contribution) (d : dict) : dict :=
  match side c with
  | em_Receitas => iadd_Receitas (month_of c) (amount c) d
  | em_Despesas => iadd_Despesas (month_of c) (amount c) d
  end.

Definition post_all (cs : list contribution) (d : dict) : dict :=
  fold_left (fun d c => post c d) cs d.

Definition own_month (today : date) (window : list month_key) (row : linha)
  : list contribution :=
  let k := strftime_Ym (Data row) in
  if String.eqb (Tipo row) "receita" then
    if in_window window k then [Contribution em_Receitas k (Valor row)] else []
  else if String.eqb (Tipo row) "despesa" then
    if (eq_str (Status row) "A Pagar"
        || (eq_str (Status row) "Pago" && date_leb (replace_day today 1) (Data row)))
       && in_window window k
    then [Contribution em_Despesas k (Valor row)] else []
  else [].

Definition installment (row : linha) (n : nat) (p : date) : contribution :=
  Contribution em_Receitas (strftime_Ym p) (Valor row / of_len n)%float.

Definition installments (today : date) (window : list month_key) (row : linha)
  : result (list contribution) :=
  if String.eqb (Tipo row) "receita"
     && not_in (Forma_Recebimento row) ["Parcela Única"; "Mais de 6x"]%string
     && truthy (Datas_Parcelas_Receita row)
  then
    parcel_dates <- Json.loads (text_of (Datas_Parcelas_Receita row)) ;;
    ps <- parse_dates parcel_dates ;;
    Ok (map (installment row (List.length parcel_dates))
            (filter (to_come today window) ps))
  else Ok [].

Definition occurrences (ty : dtype) (row : linha) : result (list contribution) :=
  if String.eqb (Tipo row) "receita" then Ok []
  else if String.eqb (Tipo row) "despesa" then
    let vezes := vezes_cell ty (Vezes_Recorrencia row) in
    recorrente <- (if eq_str (Recorrente row) "Sim" then gt_one vezes else Ok false) ;;
    if recorrente : bool then
      r <- range_from_1 vezes ;;
      match r with
      | [] => Ok []
      | _ :: _ => Raise AttributeError
      end
    else Ok []
  else Ok [].

Definition expand (today : date) (ty : dtype) (window : list month_key) (row : linha)
  : result (list contribution) :=
  ps <- installments today window row ;;
  os <- occurrences ty row ;;
  Ok (own_month today window row ++ ps ++ os).

Definition contributions (today : date) (ty : dtype) (window : list month_key)
  (df : list linha) : list contribution :=
  flat_map (fun row => match expand today ty window row with
                       | Ok cs => cs
                       | Raise _ => []
                       end) df.

Definition raises (today : date) (ty : dtype) (window : list month_key) (row : linha)
  : bool :=
  match expand today ty window row with
  | Ok _ => false
  | Raise _ => true
  end.

(** [d[k]], when the dict has the key. *)
Definition getitem (k : month_key) (d : dict) : option bucket :=
  option_map snd (find (fun e => month_key_eqb k (fst e)) d).

(** What a posting does to the bucket of its month. *)
Definition credit (b : bucket) (c : contribution) : bucket :=
  match side c with
  | em_Receitas => Bucket (Receitas b + amount c)%float (Despesas b) (Saldo b)
  | em_Despesas => Bucket (Receitas b) (Despesas b + amount c)%float (Saldo b)
  end.

Definition same_side (a b : lado) : bool :=
  match a, b with
  | em_Receitas, em_Receitas | em_Despesas, em_Despesas => true
  | _, _ => false
  end.

(** The amounts that go to one side of the bucket of the month [k], in
    the order of the contributions. *)
Definition amounts (sd : lado) (k : month_key) (cs : list contribution)
  : list float :=
  map amount
      (filter (fun c => same_side (side c) sd && month_key_eqb (month_of c) k) cs).

(** [0.0 + x1 + x2 + ...], one addition after the other. *)
Definition sum (l : list float) : float :=
  fold_left PrimFloat.add l 0%float.

(** *** Three incomes of 0.1, 0.2 and 0.3 in the month of [today0] *)

(** The doubles that Python prints as [0.1], [0.2] and [0.3]. *)
Definition f0_1 : float := 0x1.999999999999ap-4.
Definition f0_2 : float := 0x1.999999999999ap-3.
Definition f0_3 : float := 0x1.3333333333333p-2.

Definition entrada (i : Z) (v : float) : linha :=
  Linha i (Date 2024 1 5) "entrada" v "receita" (Some "Outros"%string)
        (Some "Higo"%string) (Some "Outro"%string) (Some "Parcela Única"%string)
        None None None None.

Definition crescente : list linha := [entrada 1 f0_1; entrada 2 f0_2; entrada 3 f0_3].
Definition decrescente : list linha := [entrada 3 f0_3; entrada 2 f0_2; entrada 1 f0_1].

End Binary64.

(** * Facts *)

(** ** Exceptions and loops *)

Module PyFacts.

Lemma bind_Ok {A B : Type} (c : result A) (k : A -> result B) (b : B) :
  Py.bind c k = Ok b -> exists a, c = Ok a /\ k a = Ok b.
Proof.
  destruct c as [a|e]; simpl; intros H; [eauto | discriminate].
Qed.

Lemma existsb_Permutation {A : Type} (f : A -> bool) (l l' : list A) :
  Permutation l l' -> existsb f l = existsb f l'.
Proof.
  induction 1 as [|x l l' _ IH|x y l|l l' l'' _ IH1 _ IH2]; simpl.
  - reflexivity.
  - now rewrite IH.
  - now destruct (f x), (f y).
  - congruence.
Qed.

Lemma forallb_Permutation {A : Type} (f : A -> bool) (l l' : list A) :
  Permutation l l' -> forallb f l = forallb f l'.
Proof.
  induction 1 as [|x l l' _ IH|x y l|l l' l'' _ IH1 _ IH2]; simpl.
  - reflexivity.
  - now rewrite IH.
  - now destruct (f x), (f y).
  - congruence.
Qed.

End PyFacts.

(** ** What the form stores is read back *)

Module TextFacts.

Lemma append_assoc (a b c : string) : ((a ++ b) ++ c = a ++ (b ++ c))%string.
Proof. induction a as [|x a IH]; simpl; [reflexivity | now rewrite IH]. Qed.

Lemma is_plain_char c :
  Json.is_plain c = true ->
  Ascii.eqb c Json.dquote = false
  /\ Ascii.eqb c "\"%char || Json.is_control c = false.
Proof.
  unfold Json.is_plain, Json.is_control, Json.dquote.
  intros H.
  repeat (apply andb_prop in H; destruct H as [H ?]).
  apply N.leb_le in H.
  repeat match goal with
         | Hn : negb _ = true |- _ => apply negb_true_iff, N.eqb_neq in Hn
         | Hl : (_ <? _)%N = true |- _ => apply N.ltb_lt in Hl
         end.
  assert (Hne : forall k, (N_of_ascii c <> k)%N -> (k < 256)%N ->
                          Ascii.eqb c (ascii_of_N k) = false).
  { intros k Hk Hlt. apply Ascii.eqb_neq. intros ->.
    apply Hk. now apply N_ascii_embedding. }
  assert (Hb : Ascii.eqb c "\"%char = false)
    by (apply (Hne 92%N); [assumption | reflexivity]).
  split.
  - apply (Hne 34%N); [assumption | reflexivity].
  - rewrite Hb. simpl. apply N.ltb_ge. lia.
Qed.

Lemma scan_string s acc out rest :
  Json.plain s = true ->
  Json.scan (Json.InString acc) out (s ++ String Json.dquote rest)
  = Json.scan Json.AfterString ((acc ++ s)%string :: out) rest.
Proof.
  revert acc; induction s as [|c s IH]; intros acc H; simpl.
  - f_equal. f_equal.
    induction acc as [|x acc IHa]; simpl; [reflexivity | now rewrite <- IHa].
  - simpl in H. apply andb_prop in H. destruct H as [Hc Hs].
    destruct (is_plain_char c Hc) as (Hq & Hb).
    rewrite Hq, Hb, IH by assumption.
    now rewrite append_assoc.
Qed.

Lemma scan_items l out st :
  l <> [] -> forallb Json.plain l = true ->
  st = Json.AfterOpen \/ st = Json.AfterComma ->
  Json.scan st out (Json.items l ++ "]") = Ok (rev out ++ l).
Proof.
  revert out st; induction l as [|s l IH]; intros out st Hne Hp Hst;
    [now elim Hne|].
  simpl in Hp. apply andb_prop in Hp. destruct Hp as [Hs Hl].
  assert (Hopen : forall rest,
             Json.scan st out (Json.quoted s ++ rest)
             = Json.scan Json.AfterString (s :: out) rest).
  { intros rest. unfold Json.quoted. simpl. rewrite append_assoc. simpl.
    destruct Hst as [-> | ->]; simpl; now rewrite scan_string. }
  destruct l as [|s2 l].
  - simpl Json.items. rewrite Hopen. reflexivity.
  - change (Json.items (s :: s2 :: l))
      with (Json.quoted s ++ ", " ++ Json.items (s2 :: l))%string.
    rewrite !append_assoc, Hopen.
    change ((", " ++ Json.items (s2 :: l) ++ "]")%string)
      with (String "," (String " " (Json.items (s2 :: l) ++ "]")%string)).
    cbn [Json.scan Json.is_ws Ascii.eqb Bool.eqb orb andb].
    rewrite IH; [|discriminate|assumption|now right].
    simpl. now rewrite <- app_assoc.
Qed.

(** [json.loads(json.dumps(l)) == l] for a list of plain texts. *)
Lemma loads_dumps l :
  forallb Json.plain l = true -> Json.loads (Json.dumps l) = Ok l.
Proof.
  intros H. unfold Json.loads, Json.dumps.
  destruct l as [|s l]; [reflexivity|].
  change (Json.scan Json.Start [] ("[" ++ Json.items (s :: l) ++ "]"))
    with (Json.scan Json.AfterOpen [] (Json.items (s :: l) ++ "]")).
  rewrite scan_items; [reflexivity|discriminate|assumption|now left].
Qed.

(** A date written by [strftime] is read back by [strptime]. *)

Lemma each_digit (P : Z -> Prop) :
  (forall k : nat, (k < 10)%nat -> P (Z.of_nat k)) ->
  forall n, 0 <= n <= 9 -> P n.
Proof.
  intros H n Hn. rewrite <- (Z2Nat.id n) by lia. apply H. lia.
Qed.

Lemma digit_char_digit n :
  0 <= n <= 9 ->
  digit_of (digit_char n) = Some n /\ Ascii.eqb (digit_char n) "-" = false.
Proof.
  revert n. apply each_digit. intros k Hk.
  do 10 (destruct k as [|k]; [split; reflexivity|]). lia.
Qed.

Lemma strptime_strftime d :
  valid_date d = true -> strptime_Ymd (strftime_Ymd d) = Ok d.
Proof.
  intros Hv. pose proof Hv as Hb. unfold valid_date in Hb.
  repeat (apply andb_prop in Hb; destruct Hb as [Hb ?]).
  repeat match goal with
         | Hl : (_ <=? _) = true |- _ => apply Z.leb_le in Hl
         end.
  assert (Hd31 : day d <= 31).
  { unfold days_in_month in *.
    destruct (month d =? 2); [destruct (is_leap (year d)); lia|].
    destruct ((month d =? 4) || (month d =? 6) || (month d =? 9) || (month d =? 11));
      lia. }
  unfold strptime_Ymd, strftime_Ymd, two_digits.
  set (y1 := year d / 100 / 10 mod 10). set (y2 := year d / 100 mod 10).
  set (y3 := year d / 10 mod 10). set (y4 := year d mod 10).
  set (m1 := month d / 10 mod 10). set (m2 := month d mod 10).
  set (d1 := day d / 10 mod 10). set (d2 := day d mod 10).
  assert (Hy : ((((0 * 10 + y1) * 10 + y2) * 10 + y3) * 10 + y4) = year d)
    by (subst y1 y2 y3 y4; Z.div_mod_to_equations; lia).
  assert (Hm : (0 * 10 + m1) * 10 + m2 = month d) by (subst m1 m2; Z.div_mod_to_equations; lia).
  assert (Hd : (0 * 10 + d1) * 10 + d2 = day d) by (subst d1 d2; Z.div_mod_to_equations; lia).
  destruct (digit_char_digit y1 ltac:(subst y1; Z.div_mod_to_equations; lia)) as [Ey1 Ny1].
  destruct (digit_char_digit y2 ltac:(subst y2; Z.div_mod_to_equations; lia)) as [Ey2 Ny2].
  destruct (digit_char_digit y3 ltac:(subst y3; Z.div_mod_to_equations; lia)) as [Ey3 Ny3].
  destruct (digit_char_digit y4 ltac:(subst y4; Z.div_mod_to_equations; lia)) as [Ey4 Ny4].
  destruct (digit_char_digit m1 ltac:(subst m1; Z.div_mod_to_equations; lia)) as [Em1 Nm1].
  destruct (digit_char_digit m2 ltac:(subst m2; Z.div_mod_to_equations; lia)) as [Em2 Nm2].
  destruct (digit_char_digit d1 ltac:(subst d1; Z.div_mod_to_equations; lia)) as [Ed1 Nd1].
  destruct (digit_char_digit d2 ltac:(subst d2; Z.div_mod_to_equations; lia)) as [Ed2 Nd2].
  clearbody y1 y2 y3 y4 m1 m2 d1 d2.
  cbn [String.append split_dash].
  rewrite Ny1, Ny2, Ny3, Ny4, Nm1, Nm2, Nd1, Nd2.
  cbn [String.append split_dash Ascii.eqb Bool.eqb].
  unfold field_Y, field_m, field_d.
  cbn [String.length Nat.eqb Nat.leb andb number_of].
  rewrite Ey1, Ey2, Ey3, Ey4, Em1, Em2. rewrite Hy, Hm.
  replace ((1 <=? month d) && (month d <=? 12)) with true
    by (symmetry; apply andb_true_intro; split; apply Z.leb_le; lia).
  assert (Hsp : forall s,
             match String (digit_char d1) (String (digit_char d2) EmptyString) with
             | String " " (String c EmptyString) => String c EmptyString
             | _ => s
             end = s).
  { intros s. destruct (digit_char d1) as [[] [] [] [] [] [] [] []];
      try reflexivity; discriminate Ed1. }
  rewrite Hsp.
  cbn [String.length Nat.eqb Nat.leb andb number_of].
  rewrite Ed1, Ed2, Hd.
  replace ((1 <=? day d) && (day d <=? 31)) with true
    by (symmetry; apply andb_true_intro; split; apply Z.leb_le; lia).
  destruct d as [y m dd]; simpl in *. now rewrite Hv.
Qed.

Lemma digit_char_plain n : 0 <= n <= 9 -> Json.is_plain (digit_char n) = true.
Proof.
  revert n. apply each_digit. intros k Hk.
  do 10 (destruct k as [|k]; [reflexivity|]). lia.
Qed.

Lemma strftime_Ymd_plain d : Json.plain (strftime_Ymd d) = true.
Proof.
  unfold strftime_Ymd, two_digits. cbn [String.append Json.plain].
  rewrite !digit_char_plain by (Z.div_mod_to_equations; lia).
  reflexivity.
Qed.

(** The dates the form writes into the column come out of it again, as
    many as the plan counts. *)
Lemma form_dates_are_read_back forma parcel_date n :
  Form.num_parcelas forma = Ok n ->
  (forall i, valid_date (parcel_date i) = true) ->
  exists s strs,
    Form.datas_parcelas_json forma parcel_date = Some s
    /\ Json.loads s = Ok strs
    /\ parse_dates strs
       = Ok (map (fun i => parcel_date (Z.of_nat i)) (List.seq 1 (Z.to_nat n)))
    /\ List.length strs = Z.to_nat n.
Proof.
  intros Hn Hv. unfold Form.datas_parcelas_json.
  assert (Hl : not_in (Some forma) ["Parcela Única"; "Mais de 6x"]%string = true).
  { unfold not_in; simpl.
    destruct (String.eqb_spec forma "Parcela Única") as [->|_]; [discriminate Hn|].
    destruct (String.eqb_spec forma "Mais de 6x") as [->|_]; [discriminate Hn|].
    reflexivity. }
  rewrite Hl, Hn. eexists. eexists. split; [reflexivity|].
  split; [|split].
  - apply loads_dumps. apply forallb_forall. intros s Hs.
    apply in_map_iff in Hs. destruct Hs as (i & <- & _).
    apply strftime_Ymd_plain.
  - generalize (List.seq 1 (Z.to_nat n)). intros l.
    induction l as [|i l IH]; simpl; [reflexivity|].
    now rewrite strptime_strftime, IH by apply Hv.
  - now rewrite length_map, length_seq.
Qed.

End TextFacts.

(** ** The dictionary of buckets *)

Module DictFacts.

Lemma Qplus_swap (x a b : Q) : (x + a + b)%Q = (x + b + a)%Q.
Proof.
  destruct x as [xn xd], a as [an ad], b as [bn bd].
  unfold Qplus; simpl. f_equal.
  - rewrite !Pos2Z.inj_mul. ring.
  - rewrite <- !Pos.mul_assoc. f_equal. apply Pos.mul_comm.
Qed.

Lemma keys_update k f d : keys (update k f d) = keys d.
Proof.
  unfold keys, update. rewrite map_map. apply map_ext.
  intros [k' b]; simpl. now destruct (month_key_eqb k k').
Qed.

Lemma keys_post c d : keys (post c d) = keys d.
Proof.
  unfold post, iadd_Receitas, iadd_Despesas.
  destruct (side c); apply keys_update.
Qed.

Lemma keys_post_all cs d : keys (post_all cs d) = keys d.
Proof.
  revert d; induction cs as [|c cs IH]; intros d; simpl; [reflexivity|].
  unfold post_all in *; simpl. rewrite IH. apply keys_post.
Qed.

Lemma post_all_app cs1 cs2 d :
  post_all (cs1 ++ cs2) d = post_all cs2 (post_all cs1 d).
Proof. unfold post_all. apply fold_left_app. Qed.

(** Two postings can be made in either order. *)
Lemma post_comm c1 c2 d : post c1 (post c2 d) = post c2 (post c1 d).
Proof.
  unfold post, iadd_Receitas, iadd_Despesas, update.
  destruct (side c1), (side c2); rewrite !map_map; apply map_ext;
    intros [k b]; simpl;
    destruct (month_key_eqb (month_of c1) k) eqn:E1,
             (month_key_eqb (month_of c2) k) eqn:E2;
    simpl; rewrite ?E1, ?E2; try reflexivity;
    f_equal; f_equal; apply Qplus_swap.
Qed.

Lemma post_all_Permutation cs cs' d :
  Permutation cs cs' -> post_all cs d = post_all cs' d.
Proof.
  intros H; revert d.
  induction H as [|c l l' _ IH|c1 c2 l|l l' l'' _ IH1 _ IH2]; intros d.
  - reflexivity.
  - unfold post_all in *; simpl. apply IH.
  - unfold post_all; simpl. now rewrite post_comm.
  - now rewrite IH1.
Qed.

End DictFacts.

(** ** Each row of the loop posts the contributions of [expand] *)

Module RowFacts.

Import PyFacts DictFacts.

Section Row.

Variable today : date.
Variable ty : dtype.
Variable row : linha.

Lemma for_each_parcela n strs d :
  for_each (parcela today row n) strs d =
  match parse_dates strs with
  | Ok ps => Ok (post_all (map (installment row (Z.of_nat n))
                               (filter (to_come today (keys d)) ps)) d)
  | Raise e => Raise e
  end.
Proof.
  revert d; induction strs as [|s strs IH]; intros d; simpl; [reflexivity|].
  unfold parcela at 1.
  destruct (strptime_Ymd s) as [p|e]; simpl; [|reflexivity].
  assert (Hc : contains (strftime_Ym p) d && date_ltb today p
               = to_come today (keys d) p) by reflexivity.
  rewrite Hc; clear Hc.
  destruct (to_come today (keys d) p) eqn:Ep; simpl; rewrite IH.
  - unfold iadd_Receitas at 1. rewrite keys_update.
    destruct (parse_dates strs) as [ps|e]; simpl; [|reflexivity].
    now rewrite Ep.
  - destruct (parse_dates strs) as [ps|e]; simpl; [|reflexivity].
    now rewrite Ep.
Qed.

Lemma for_each_ocorrencia r d :
  for_each ocorrencia r d =
  match r with
  | [] => Ok d
  | _ :: _ => Raise AttributeError
  end.
Proof. destruct r; reflexivity. Qed.

Lemma own_month_posted d :
  post_all (own_month today (keys d) row) d =
  if String.eqb (Tipo row) "receita" then
    if contains (trans_month_key row) d
    then iadd_Receitas (trans_month_key row) (Valor row) d else d
  else if String.eqb (Tipo row) "despesa" then
    if eq_str (Status row) "A Pagar" && contains (trans_month_key row) d
    then iadd_Despesas (trans_month_key row) (Valor row) d
    else if eq_str (Status row) "Pago"
            && date_leb (replace_day today 1) (trans_date row)
            && contains (trans_month_key row) d
    then iadd_Despesas (trans_month_key row) (Valor row) d
    else d
  else d.
Proof.
  unfold own_month, trans_month_key, trans_date.
  change (contains (strftime_Ym (Data row)) d)
    with (in_window (keys d) (strftime_Ym (Data row))).
  destruct (String.eqb (Tipo row) "receita").
  - destruct (in_window (keys d) (strftime_Ym (Data row))); reflexivity.
  - destruct (String.eqb (Tipo row) "despesa"); [|reflexivity].
    destruct (eq_str (Status row) "A Pagar"), (eq_str (Status row) "Pago"),
      (date_leb (replace_day today 1) (Data row)),
      (in_window (keys d) (strftime_Ym (Data row))); reflexivity.
Qed.

(** The body of the loop and the contributions of the row agree, also on
    the exception that leaves the loop. *)
Lemma process_row_expand d :
  process_row today ty row d =
  match expand today ty (keys d) row with
  | Ok cs => Ok (post_all cs d)
  | Raise e => Raise e
  end.
Proof.
  unfold process_row, expand, installments, occurrences.
  pose proof (own_month_posted d) as Hown.
  destruct (String.eqb (Tipo row) "receita") eqn:Er; simpl.
  - unfold receita. rewrite <- Hown.
    destruct (not_in (Forma_Recebimento row) ["Parcela Única"; "Mais de 6x"]%string
              && truthy (Datas_Parcelas_Receita row)); simpl.
    + destruct (Json.loads (text_of (Datas_Parcelas_Receita row))) as [strs|e];
        simpl; [|reflexivity].
      rewrite for_each_parcela, keys_post_all.
      destruct (parse_dates strs) as [ps|e]; simpl; [|reflexivity].
      now rewrite app_nil_r, post_all_app.
    + now rewrite app_nil_r.
  - destruct (String.eqb (Tipo row) "despesa") eqn:Ed; simpl.
    + unfold despesa. rewrite <- Hown.
      destruct (if eq_str (Recorrente row) "Sim"
                then gt_one (vezes_cell ty (Vezes_Recorrencia row))
                else Ok false) as [[|]|e]; simpl.
      * destruct (range_from_1 (vezes_cell ty (Vezes_Recorrencia row))) as [r|e];
          simpl; [|reflexivity].
        rewrite for_each_ocorrencia. destruct r; [|reflexivity].
        simpl. now rewrite app_nil_r.
      * now rewrite app_nil_r.
      * reflexivity.
    + now rewrite app_nil_r, Hown.
Qed.

End Row.

(** The whole loop: it returns when no row raises, and then it has posted
    the contributions of every row. *)
Lemma for_each_process_row today ty df d :
  returned (for_each (process_row today ty) df d) =
  if existsb (raises today ty (keys d)) df then None
  else Some (post_all (contributions today ty (keys d) df) d).
Proof.
  revert d; induction df as [|row df IH]; intros d; simpl; [reflexivity|].
  rewrite process_row_expand. unfold raises at 1, contributions. simpl.
  destruct (expand today ty (keys d) row) as [cs|e]; simpl; [|reflexivity].
  rewrite IH, keys_post_all, post_all_app. reflexivity.
Qed.

Lemma vezes_dtype_Permutation df df' :
  Permutation df df' -> vezes_dtype df = vezes_dtype df'.
Proof.
  intros H. unfold vezes_dtype.
  rewrite (forallb_Permutation is_null df df' H).
  now rewrite (forallb_Permutation (fun r => negb (is_null r)) df df' H).
Qed.

End RowFacts.

(** ** The value of one bucket *)

Module BucketFacts.

Import PyFacts DictFacts RowFacts Window.

Lemma month_key_eqb_true k k' : month_key_eqb k k' = true -> k = k'.
Proof.
  destruct k, k'. unfold month_key_eqb; simpl. intros H.
  apply andb_prop in H. destruct H as [H1 H2].
  apply Z.eqb_eq in H1, H2. now subst.
Qed.

Lemma month_key_eqb_same k : month_key_eqb k k = true.
Proof. unfold month_key_eqb. now rewrite !Z.eqb_refl. Qed.

Lemma getitem_update k k' f d :
  getitem k (update k' f d)
  = if month_key_eqb k' k then option_map f (getitem k d) else getitem k d.
Proof.
  unfold getitem, update.
  induction d as [|[k0 b] d IH]; simpl; [now destruct (month_key_eqb k' k)|].
  destruct (month_key_eqb k' k0) eqn:E0; simpl.
  - destruct (month_key_eqb k k0) eqn:E; simpl.
    + apply month_key_eqb_true in E0, E. subst.
      now rewrite month_key_eqb_same.
    + exact IH.
  - destruct (month_key_eqb k k0) eqn:E; simpl; [|exact IH].
    apply month_key_eqb_true in E. subst k0. now rewrite E0.
Qed.

Lemma getitem_post k c d :
  getitem k (post c d)
  = if month_key_eqb (month_of c) k
    then option_map (fun b => credit b c) (getitem k d)
    else getitem k d.
Proof.
  unfold post, credit, iadd_Receitas, iadd_Despesas.
  destruct (side c); apply getitem_update.
Qed.

(** A bucket after any postings: its own postings, in their order. *)
Lemma getitem_post_all k cs d :
  getitem k (post_all cs d)
  = option_map
      (fun b => fold_left credit (filter (fun c => month_key_eqb (month_of c) k) cs) b)
      (getitem k d).
Proof.
  revert d; induction cs as [|c cs IH]; intros d.
  - simpl. now destruct (getitem k d).
  - change (post_all (c :: cs) d) with (post_all cs (post c d)).
    rewrite IH, getitem_post. simpl.
    destruct (month_key_eqb (month_of c) k); [|reflexivity].
    now destruct (getitem k d).
Qed.

Lemma getitem_contains k d b : getitem k d = Some b -> contains k d = true.
Proof.
  unfold getitem, contains, keys.
  induction d as [|[k0 b0] d IH]; simpl; [discriminate|].
  destruct (month_key_eqb k k0); [reflexivity|]. exact IH.
Qed.

Lemma credit_installments row n l b :
  fold_left credit (map (installment row n) l) b
  = Bucket (add_times (List.length l) (Valor row / inject_Z n) (Receitas b))
           (Despesas b) (Saldo b).
Proof.
  revert b; induction l as [|p l IH]; intros b; simpl; [now destruct b|].
  rewrite IH. unfold credit; simpl. f_equal.
  unfold add_times. change (S (List.length l)) with (1 + List.length l)%nat.
  generalize (List.length l) as c. intros c.
  induction c as [|c IHc]; simpl; [reflexivity|]. now rewrite <- IHc.
Qed.

Lemma due_of_those_to_come today row n k d ps :
  contains k d = true ->
  filter (fun c => month_key_eqb (month_of c) k)
         (map (installment row n) (filter (to_come today (keys d)) ps))
  = map (installment row n) (due_in today k ps).
Proof.
  intros Hk. unfold due_in, to_come.
  induction ps as [|p ps IH]; simpl; [reflexivity|].
  destruct (month_key_eqb (strftime_Ym p) k) eqn:E.
  - apply month_key_eqb_true in E. subst k.
    change (in_window (keys d) (strftime_Ym p)) with (contains (strftime_Ym p) d).
    rewrite Hk. simpl. destruct (date_ltb today p); simpl.
    + rewrite month_key_eqb_same. now rewrite IH.
    + exact IH.
  - simpl. destruct (in_window (keys d) (strftime_Ym p) && date_ltb today p);
      simpl; [rewrite E|]; exact IH.
Qed.

(** The bucket of a month after an income with installments has been
    posted. *)
Lemma getitem_income today row n ps d k b :
  Tipo row = "receita"%string ->
  getitem k d = Some b ->
  getitem k (post_all (own_month today (keys d) row
                       ++ map (installment row n)
                              (filter (to_come today (keys d)) ps)) d)
  = Some (credited today k (Data row) (Valor row) (Valor row / inject_Z n) ps b).
Proof.
  intros Ht Hb. pose proof (getitem_contains k d b Hb) as Hk.
  rewrite getitem_post_all, Hb. cbn [option_map]. f_equal.
  rewrite filter_app, fold_left_app, (due_of_those_to_come _ _ _ _ _ _ Hk).
  rewrite credit_installments. unfold credited, own_month. rewrite Ht.
  cbn [String.eqb Ascii.eqb Bool.eqb].
  destruct (month_key_eqb (strftime_Ym (Data row)) k) eqn:E.
  - pose proof (month_key_eqb_true _ _ E) as Ek. rewrite Ek.
    change (in_window (keys d) k) with (contains k d). rewrite Hk.
    cbn [filter month_of]. rewrite month_key_eqb_same. reflexivity.
  - destruct (in_window (keys d) (strftime_Ym (Data row)));
      cbn [filter month_of]; rewrite ?E; reflexivity.
Qed.

End BucketFacts.

(** ** The projection *)

Module ProjectionFacts.

Import PyFacts DictFacts RowFacts Samples.

Lemma returned_projection today df :
  returned (projection today df) =
  if existsb (raises today (vezes_dtype df) (keys (initial today))) df then None
  else Some (compute_saldos
               (post_all (contributions today (vezes_dtype df)
                                        (keys (initial today)) df)
                         (initial today))).
Proof.
  unfold projection.
  pose proof (for_each_process_row today (vezes_dtype df) df (initial today)) as H.
  destruct (for_each (process_row today (vezes_dtype df)) df (initial today));
    simpl in *;
    destruct (existsb (raises today (vezes_dtype df) (keys (initial today))) df);
    congruence.
Qed.

Lemma returned_render today df :
  returned (render_detailed_analysis_section today df) =
  match df with
  | [] => Some NoData
  | _ => option_map Table (returned (projection today df))
  end.
Proof.
  unfold render_detailed_analysis_section.
  destruct df; [reflexivity|].
  destruct (projection today (l :: df)); reflexivity.
Qed.

(** On exact rationals the postings commute: there the projection of a
    permutation of the frame returns exactly when the projection of the
    frame does, and with the same series.  The program adds binary64
    floats, for which see [Binary64]. *)
Lemma exact_sums_do_not_depend_on_the_order (today : date) (df df' : list linha) :
  Permutation df df' ->
  returned (projection today df) = returned (projection today df')
  /\ returned (render_detailed_analysis_section today df)
     = returned (render_detailed_analysis_section today df').
Proof.
  intros H.
  assert (Hp : returned (projection today df) = returned (projection today df')).
  { rewrite !returned_projection.
    rewrite <- (vezes_dtype_Permutation df df' H).
    rewrite <- (existsb_Permutation _ df df' H).
    destruct (existsb _ df); [reflexivity|].
    f_equal. f_equal. apply post_all_Permutation.
    unfold contributions. now apply Permutation_flat_map. }
  split; [exact Hp|].
  rewrite !returned_render, Hp.
  destruct df as [|r df].
  - apply Permutation_nil in H. now subst.
  - destruct df' as [|r' df']; [|reflexivity].
    apply Permutation_sym, Permutation_nil in H. discriminate.
Qed.

Lemma range_from_1_nonempty n :
  1 < n -> exists i r, range_from_1 (PyInt n) = Ok (i :: r).
Proof.
  intros H. unfold range_from_1.
  destruct (Z.to_nat n - 1)%nat as [|k] eqn:E; [lia|].
  simpl. eauto.
Qed.

Lemma recurring_expense_raises today ty window row n :
  Tipo row = "despesa"%string ->
  Recorrente row = Some "Sim"%string ->
  Vezes_Recorrencia row = Some n ->
  1 < n ->
  expand today ty window row
  = Raise (match ty with float64 => TypeError | _ => AttributeError end).
Proof.
  intros Ht Hr Hv Hn.
  unfold expand, installments, occurrences.
  rewrite Ht, Hr, Hv. simpl.
  assert (Hgt : (1 <? n) = true) by now apply Z.ltb_lt.
  destruct (range_from_1_nonempty n Hn) as (i & r & Hrange).
  unfold range_from_1 in Hrange. injection Hrange as Hrange.
  destruct ty; simpl; rewrite Hgt; simpl; rewrite ?Hrange; reflexivity.
Qed.

Lemma existsb_In {A : Type} (f : A -> bool) (x : A) (l : list A) :
  In x l -> f x = true -> existsb f l = true.
Proof. intros Hin Hf. apply existsb_exists. eauto. Qed.

(** C1, as the code has it.  The loop over the occurrences of a recurring
    expense asks a [DateOffset] for its [date] (and takes the bound of
    [range] from a column that pandas reads as floats once a count is
    missing): an expense marked ['Sim'] with a count above one adds no
    contribution for the months that follow, the projection of any frame
    that holds it raises, and no series is shown. *)
Theorem recurring_expense_aborts_projection
  (today : date) (df : list linha) (row : linha) (n : Z) :
  In row df ->
  Tipo row = "despesa"%string ->
  Recorrente row = Some "Sim"%string ->
  Vezes_Recorrencia row = Some n ->
  1 < n ->
  (exists e, projection today df = Raise e)
  /\ (exists e, render_detailed_analysis_section today df = Raise e)
  /\ projection today [row] = Raise AttributeError.
Proof.
  intros Hin Ht Hr Hv Hn.
  assert (Hp : exists e, projection today df = Raise e).
  { pose proof (returned_projection today df) as H.
    rewrite (existsb_In _ row df Hin) in H.
    - destruct (projection today df) as [s|e]; [discriminate | eauto].
    - unfold raises.
      now rewrite (recurring_expense_raises _ _ _ _ n Ht Hr Hv Hn). }
  split; [exact Hp|]. split.
  - destruct Hp as [e He]. exists e.
    unfold render_detailed_analysis_section.
    destruct df; [contradiction|]. now rewrite He.
  - unfold projection. simpl for_each.
    rewrite process_row_expand.
    rewrite (recurring_expense_raises _ _ _ _ n Ht Hr Hv Hn).
    unfold vezes_dtype, is_null; simpl. now rewrite Hv.
Qed.

Lemma recurring_expense_aborts_projection_witness :
  projection today0 [academia] = Raise AttributeError
  /\ (exists e, projection today0 [salario; academia; aluguel] = Raise e).
Proof.
  split.
  - apply (recurring_expense_aborts_projection today0 [academia] academia 3);
      [now left | reflexivity | reflexivity | reflexivity | lia].
  - apply (recurring_expense_aborts_projection
             today0 [salario; academia; aluguel] academia 3);
      [right; now left | reflexivity | reflexivity | reflexivity | lia].
Defined.

(** *** An income paid in installments *)

Lemma parse_dates_length strs ps :
  parse_dates strs = Ok ps -> List.length ps = List.length strs.
Proof.
  revert ps; induction strs as [|s strs IH]; intros ps; simpl.
  - intros [= <-]. reflexivity.
  - destruct (strptime_Ymd s); simpl; [|discriminate].
    destruct (parse_dates strs) as [ps'|]; simpl; [|discriminate].
    intros [= <-]. simpl. f_equal. now apply IH.
Qed.

Lemma counted_plan_is_listed label n :
  Form.num_parcelas label = Ok n ->
  not_in (Some label) ["Parcela Única"; "Mais de 6x"]%string = true.
Proof.
  intros H. unfold not_in; simpl.
  destruct (String.eqb_spec label "Parcela Única") as [->|_]; [discriminate H|].
  destruct (String.eqb_spec label "Mais de 6x") as [->|_]; [discriminate H|].
  reflexivity.
Qed.

Lemma loads_not_empty s strs : Json.loads s = Ok strs -> truthy (Some s) = true.
Proof. destruct s; [discriminate | reflexivity]. Qed.

(** The loop body on an income with a counted plan and dates that parse:
    the posting of its own month, then one posting for each date that is
    still to come. *)
Lemma process_row_installments today ty row label n s strs ps d :
  Tipo row = "receita"%string ->
  Forma_Recebimento row = Some label ->
  Form.num_parcelas label = Ok n ->
  Datas_Parcelas_Receita row = Some s ->
  Json.loads s = Ok strs ->
  parse_dates strs = Ok ps ->
  Z.of_nat (List.length ps) = n ->
  process_row today ty row d =
  Ok (post_all (own_month today (keys d) row
                ++ map (installment row n) (filter (to_come today (keys d)) ps))
               d).
Proof.
  intros Ht Hf Hn Hd Hl Hp Hlen.
  rewrite process_row_expand.
  unfold expand, installments, occurrences.
  rewrite Ht, Hf, Hd. simpl String.eqb. cbn [andb].
  rewrite (counted_plan_is_listed label n Hn), (loads_not_empty s strs Hl).
  cbn [andb text_of]. rewrite Hl. cbn [Py.bind]. rewrite Hp. cbn [Py.bind].
  rewrite app_nil_r.
  rewrite <- (parse_dates_length strs ps Hp), Hlen.
  reflexivity.
Qed.

(** C2. An income whose plan counts [n > 1] installments and whose dates
    column holds [n] dates posts its full amount under the month of its
    own date (when that month is in the window) and, on top of it,
    [amount / n] under the month of every installment date that lies
    after today and in the window; nothing else.  Bucket by bucket: the
    months of the series stay, and the bucket of a month [k] has
    afterwards the income it had, plus the amount when [k] is the month
    of the date of the row, plus [amount / n] once for every installment
    date of the month [k] that lies after today; its expenses and its
    balance are as they were. *)
Theorem installments_add_to_the_month_of_record
  (today : date) (ty : dtype) (row : linha) (label : string) (n : Z)
  (s : string) (strs : list string) (ps : list date) (d : dict) :
  Tipo row = "receita"%string ->
  Forma_Recebimento row = Some label ->
  Form.num_parcelas label = Ok n ->
  1 < n ->
  Datas_Parcelas_Receita row = Some s ->
  Json.loads s = Ok strs ->
  parse_dates strs = Ok ps ->
  Z.of_nat (List.length ps) = n ->
  exists d',
    process_row today ty row d = Ok d'
    /\ d' = post_all
              ((if contains (strftime_Ym (Data row)) d
                then [Contribution em_Receitas (strftime_Ym (Data row)) (Valor row)]
                else [])
               ++ map (fun p => Contribution em_Receitas (strftime_Ym p)
                                             (Valor row / inject_Z n))
                      (filter (fun p => contains (strftime_Ym p) d && date_ltb today p)
                              ps))
              d
    /\ keys d' = keys d
    /\ forall k b,
         Window.getitem k d = Some b ->
         Window.getitem k d'
         = Some (Bucket
                   (Window.add_times
                      (List.length (Window.due_in today k ps))
                      (Valor row / inject_Z n)
                      (if month_key_eqb (strftime_Ym (Data row)) k
                       then (Receitas b + Valor row)%Q else Receitas b))
                   (Despesas b) (Saldo b)).
Proof.
  intros Ht Hf Hn Hgt Hd Hl Hp Hlen.
  eexists. split;
    [exact (process_row_installments today ty row label n s strs ps d
              Ht Hf Hn Hd Hl Hp Hlen)|].
  split; [|split].
  - unfold own_month. rewrite Ht. reflexivity.
  - apply keys_post_all.
  - intros k b Hb.
    exact (BucketFacts.getitem_income today row n ps d k b Ht Hb).
Qed.

Lemma installments_add_to_the_month_of_record_witness :
  exists d',
    process_row today0 object venda (initial today0) = Ok d'
    /\ Window.getitem (2024, 1) d' = Some (Bucket 600 0 0)
    /\ Window.getitem (2024, 2) d' = Some (Bucket (600 / 2) 0 0)
    /\ Window.getitem (2024, 3) d' = Some (Bucket (600 / 2) 0 0)
    /\ Window.getitem (2024, 4) d' = Some (Bucket 0 0 0).
Proof.
  destruct (installments_add_to_the_month_of_record
              today0 object venda "2x" 2
              (Json.dumps ["2024-02-05"; "2024-03-05"]%string)
              ["2024-02-05"; "2024-03-05"]%string
              [Date 2024 2 5; Date 2024 3 5] (initial today0)
              eq_refl eq_refl eq_refl eq_refl eq_refl eq_refl eq_refl eq_refl)
    as (d' & Hrun & _ & _ & Hb).
  exists d'. split; [exact Hrun|].
  split; [exact (Hb (2024, 1) (Bucket 0 0 0) eq_refl)|].
  split; [exact (Hb (2024, 2) (Bucket 0 0 0) eq_refl)|].
  split; [exact (Hb (2024, 3) (Bucket 0 0 0) eq_refl)|].
  exact (Hb (2024, 4) (Bucket 0 0 0) eq_refl).
Defined.

(** *** Incomes that are not expanded *)

Lemma receita_not_expanded today ty row d :
  Tipo row = "receita"%string ->
  Forma_Recebimento row = Some "Parcela Única"%string
  \/ Forma_Recebimento row = Some "Mais de 6x"%string
  \/ truthy (Datas_Parcelas_Receita row) = false ->
  process_row today ty row d =
  Ok (post_all (if contains (strftime_Ym (Data row)) d
                then [Contribution em_Receitas (strftime_Ym (Data row)) (Valor row)]
                else []) d).
Proof.
  intros Ht Hcase.
  rewrite process_row_expand.
  unfold expand, installments, occurrences, own_month.
  rewrite Ht. simpl String.eqb. cbn [andb].
  assert (Hg : not_in (Forma_Recebimento row) ["Parcela Única"; "Mais de 6x"]%string
               && truthy (Datas_Parcelas_Receita row) = false).
  { destruct Hcase as [-> | [-> | ->]];
      [reflexivity | reflexivity | apply andb_false_r]. }
  rewrite Hg. cbn [Py.bind]. now rewrite app_nil_r.
Qed.

(** An expense that does not repeat posts its own month at most. *)
Lemma despesa_not_repeated today ty row d :
  Tipo row = "despesa"%string ->
  eq_str (Recorrente row) "Sim" = false ->
  process_row today ty row d =
  Ok (post_all (own_month today (keys d) row) d).
Proof.
  intros Ht Hr.
  rewrite process_row_expand.
  unfold expand, installments, occurrences.
  rewrite Ht, Hr. simpl. now rewrite app_nil_r.
Qed.

(** C4, as the code has it.  An income whose plan is ['Parcela Única'] or
    ['Mais de 6x'], or whose dates column is NULL or empty, posts its own
    month and no installment, and the loop goes on with the rows that
    follow. *)
Theorem unexpanded_income_posts_its_month_only
  (today : date) (ty : dtype) (row : linha) (rest : list linha) (d : dict) :
  Tipo row = "receita"%string ->
  Forma_Recebimento row = Some "Parcela Única"%string
  \/ Forma_Recebimento row = Some "Mais de 6x"%string
  \/ truthy (Datas_Parcelas_Receita row) = false ->
  let d' :=
    post_all (if contains (strftime_Ym (Data row)) d
              then [Contribution em_Receitas (strftime_Ym (Data row)) (Valor row)]
              else []) d in
  process_row today ty row d = Ok d'
  /\ for_each (process_row today ty) (row :: rest) d
     = for_each (process_row today ty) rest d'.
Proof.
  intros Ht Hcase d'.
  assert (H : process_row today ty row d = Ok d')
    by now apply receita_not_expanded.
  split; [exact H|]. simpl. now rewrite H.
Qed.

Lemma unexpanded_income_posts_its_month_only_witness :
  process_row today0 object salario (initial today0)
  = Ok (post_all [Contribution em_Receitas (2024, 1) 1000] (initial today0)).
Proof.
  exact (proj1 (unexpanded_income_posts_its_month_only
                  today0 object salario [] (initial today0)
                  eq_refl (or_introl eq_refl))).
Defined.

(** C4, as the claim has it, fails twice on the code: dates that are no
    JSON text raise out of the loop, so that a frame which is projected
    without the row is not projected with it; and a plan that is no count
    is still expanded, one installment for each date of the column. *)
Lemma malformed_installments_are_not_ignored :
  Json.loads (text_of (Datas_Parcelas_Receita ilegivel)) = Raise JSONDecodeError
  /\ projection today0 [ilegivel; salario] = Raise JSONDecodeError
  /\ (exists series, projection today0 [salario] = Ok series)
  /\ Form.num_parcelas (text_of (Forma_Recebimento sem_numero)) = Raise ValueError
  /\ process_row today0 object sem_numero (initial today0)
     = Ok (post_all [Contribution em_Receitas (2024, 1) 600;
                     Contribution em_Receitas (2024, 2) 600]
                    (initial today0)).
Proof.
  repeat split; try reflexivity.
  eexists. vm_compute. reflexivity.
Qed.

(** *** The window and the balances *)

Lemma month_key_eqb_refl k : month_key_eqb k k = true.
Proof. unfold month_key_eqb. now rewrite !Z.eqb_refl. Qed.

(** The months of the window are told apart by their keys. *)
Lemma month_key_eqb_add_months d a b :
  month_key_eqb (strftime_Ym (add_months d a)) (strftime_Ym (add_months d b))
  = (a =? b).
Proof.
  unfold month_key_eqb, strftime_Ym, add_months; simpl.
  set (t := year d * 12 + (month d - 1)).
  pose proof (Z.div_mod (t + a) 12 ltac:(lia)) as Ha.
  pose proof (Z.div_mod (t + b) 12 ltac:(lia)) as Hb.
  destruct (Z.eqb_spec a b) as [->|Hne].
  - now rewrite !Z.eqb_refl.
  - destruct (Z.eqb_spec ((t + a) / 12) ((t + b) / 12)) as [E1|_]; [|reflexivity].
    destruct (Z.eqb_spec ((t + a) mod 12 + 1) ((t + b) mod 12 + 1)) as [E2|_];
      [|reflexivity].
    exfalso. lia.
Qed.

Lemma strftime_Ym_this_month today d :
  valid_date today = true ->
  year d = year today -> month d = month today ->
  strftime_Ym d = strftime_Ym (add_months today 0).
Proof.
  unfold valid_date. intros Hv Hy Hm.
  repeat (apply andb_prop in Hv; destruct Hv as [Hv ?]).
  unfold strftime_Ym, add_months; simpl. rewrite Hy, Hm. f_equal.
  - apply (Z.div_unique _ 12 (year today) (month today - 1)); lia.
  - rewrite Z.add_0_r.
    rewrite <- (Z.mod_unique (year today * 12 + (month today - 1)) 12
                             (year today) (month today - 1)); lia.
Qed.

Lemma initial_window today :
  initial today =
  map (fun j => (strftime_Ym (add_months today j), Bucket 0 0 0)) [0; 1; 2; 3].
Proof.
  unfold initial, future_months, setitem, contains, keys, update.
  repeat first
    [ rewrite !month_key_eqb_add_months
    | progress cbn [map fold_left existsb fst snd app orb Z.eqb Pos.eqb] ].
  reflexivity.
Qed.

(** The last loop writes the balance of every bucket. *)
Lemma set_Saldo_fold ks d :
  fold_left (fun d k => set_Saldo k d) ks d =
  map (fun e => if existsb (fun k => month_key_eqb k (fst e)) ks
                then (fst e, Bucket (Receitas (snd e)) (Despesas (snd e))
                                    (Receitas (snd e) - Despesas (snd e)))
                else e) d.
Proof.
  revert d; induction ks as [|k ks IH]; intros d; simpl.
  - rewrite <- (map_id d) at 1. apply map_ext. now intros [k b].
  - rewrite IH. unfold set_Saldo, update. rewrite map_map. apply map_ext.
    intros [k' b]; simpl.
    destruct (month_key_eqb k k'); simpl; [|reflexivity].
    now destruct (existsb (fun k0 => month_key_eqb k0 k') ks).
Qed.

Lemma compute_saldos_map d :
  compute_saldos d =
  map (fun e => (fst e, Bucket (Receitas (snd e)) (Despesas (snd e))
                               (Receitas (snd e) - Despesas (snd e)))) d.
Proof.
  unfold compute_saldos. rewrite set_Saldo_fold.
  apply map_ext_in. intros [k b] Hin; simpl.
  replace (existsb (fun k0 => month_key_eqb k0 k) (keys d)) with true; [reflexivity|].
  symmetry. apply existsb_exists. exists k. split.
  - unfold keys. now apply (in_map fst) in Hin.
  - apply month_key_eqb_refl.
Qed.

Lemma balance_of_every_bucket today df series :
  projection today df = Ok series ->
  Forall (fun e => Saldo (snd e) = (Receitas (snd e) - Despesas (snd e))%Q) series.
Proof.
  unfold projection. intros H.
  apply bind_Ok in H. destruct H as (d & _ & H).
  injection H as <-. rewrite compute_saldos_map.
  apply Forall_forall. intros e Hin.
  apply in_map_iff in Hin. destruct Hin as (e0 & <- & _). reflexivity.
Qed.

(** *** The scenario of one income and one paid expense *)

Ltac window_eval :=
  repeat first
    [ rewrite !month_key_eqb_add_months
    | progress cbn [post_all post side month_of amount fold_left
                    iadd_Receitas iadd_Despesas update contains keys in_window
                    map existsb fst snd orb andb negb Z.eqb Pos.eqb
                    Receitas Despesas Saldo] ].

Lemma paid_this_month today d :
  valid_date d = true ->
  year d = year today -> month d = month today ->
  date_leb (replace_day today 1) d = true.
Proof.
  unfold valid_date. intros Hv Hy Hm.
  repeat (apply andb_prop in Hv; destruct Hv as [Hv ?]).
  unfold date_leb, date_ltb, replace_day; simpl. rewrite Hy, Hm.
  rewrite !Z.ltb_irrefl, !Z.eqb_refl. simpl.
  apply negb_true_iff. apply Z.ltb_ge. lia.
Qed.

(** C3. With one income of 1000 in a single payment and one paid expense
    of 300, both dated in the month of [today], in either order, the
    series has 1000, 300 and 700 under the current month and nothing under
    the three months that follow; and whatever the frame, the balance of a
    bucket of the series is its income less its expense. *)
Theorem scenario_income_1000_expense_300
  (today : date) (i e : linha) (df : list linha) :
  valid_date today = true ->
  Tipo i = "receita"%string ->
  Valor i = 1000%Q ->
  Forma_Recebimento i = Some "Parcela Única"%string ->
  year (Data i) = year today -> month (Data i) = month today ->
  Tipo e = "despesa"%string ->
  Valor e = 300%Q ->
  Status e = Some "Pago"%string ->
  eq_str (Recorrente e) "Sim" = false ->
  valid_date (Data e) = true ->
  year (Data e) = year today -> month (Data e) = month today ->
  Permutation [i; e] df ->
  projection today df =
  Ok [(strftime_Ym today, Bucket 1000 300 700);
      (strftime_Ym (add_months today 1), Bucket 0 0 0);
      (strftime_Ym (add_months today 2), Bucket 0 0 0);
      (strftime_Ym (add_months today 3), Bucket 0 0 0)]
  /\ forall (df' : list linha) (series : dict),
       projection today df' = Ok series ->
       Forall (fun b => Saldo (snd b) = (Receitas (snd b) - Despesas (snd b))%Q)
              series.
Proof.
  intros Hv Hti Hvi Hfi Hyi Hmi Hte Hve Hse Hre Hde Hye Hme Hperm.
  split; [|intros df' series; apply balance_of_every_bucket].
  pose proof (strftime_Ym_this_month today (Data i) Hv Hyi Hmi) as Hki.
  pose proof (strftime_Ym_this_month today (Data e) Hv Hye Hme) as Hke.
  pose proof (strftime_Ym_this_month today today Hv eq_refl eq_refl) as Hk0.
  pose proof (paid_this_month today (Data e) Hde Hye Hme) as Hpaid.
  assert (Hi : forall ty d,
             process_row today ty i d =
             Ok (post_all (if contains (strftime_Ym (add_months today 0)) d
                           then [Contribution em_Receitas
                                   (strftime_Ym (add_months today 0)) 1000]
                           else []) d)).
  { intros ty d. rewrite (receita_not_expanded today ty i d Hti (or_introl Hfi)).
    now rewrite Hki, Hvi. }
  assert (He : forall ty d,
             process_row today ty e d =
             Ok (post_all (if contains (strftime_Ym (add_months today 0)) d
                           then [Contribution em_Despesas
                                   (strftime_Ym (add_months today 0)) 300]
                           else []) d)).
  { intros ty d. rewrite (despesa_not_repeated today ty e d Hte Hre).
    unfold own_month. rewrite Hte, Hse, Hpaid, Hke, Hve. reflexivity. }
  rewrite Hk0.
  apply Permutation_length_2_inv in Hperm.
  destruct Hperm as [-> | ->]; unfold projection; cbn [for_each];
    rewrite ?Hi, ?He; cbn [Py.bind]; rewrite ?Hi, ?He; cbn [Py.bind];
    rewrite compute_saldos_map, initial_window; window_eval; reflexivity.
Qed.

Lemma scenario_income_1000_expense_300_witness :
  projection today0 [aluguel; salario] =
  Ok [((2024, 1), Bucket 1000 300 700); ((2024, 2), Bucket 0 0 0);
      ((2024, 3), Bucket 0 0 0); ((2024, 4), Bucket 0 0 0)].
Proof.
  exact (proj1 (scenario_income_1000_expense_300
                  today0 salario aluguel [aluguel; salario]
                  eq_refl eq_refl eq_refl eq_refl eq_refl eq_refl
                  eq_refl eq_refl eq_refl eq_refl eq_refl eq_refl eq_refl
                  (perm_swap aluguel salario []))).
Defined.

End ProjectionFacts.

(** ** The table *)

Module StoreFacts.

Import Store Form Totals Samples.


Lemma filter_all {A : Type} (f : A -> bool) (l : list A) :
  (forall x, In x l -> f x = true) -> filter f l = l.
Proof.
  induction l as [|x l IH]; intros H; simpl; [reflexivity|].
  rewrite (H x (or_introl eq_refl)). f_equal. apply IH.
  intros y Hy. apply H. now right.
Qed.

Lemma filter_none {A : Type} (f : A -> bool) (l : list A) :
  (forall x, In x l -> f x = false) -> filter f l = [].
Proof.
  induction l as [|x l IH]; intros H; simpl; [reflexivity|].
  rewrite (H x (or_introl eq_refl)). apply IH.
  intros y Hy. apply H. now right.
Qed.




Lemma update_rows_no_match i user kwargs l :
  (forall r, In r l -> matches i user r = false) ->
  update_rows i user kwargs l = Ok l.
Proof.
  induction l as [|x l IH]; intros H; simpl; [reflexivity|].
  rewrite (H x (or_introl eq_refl)). simpl.
  rewrite IH; [reflexivity|]. intros y Hy. apply H. now right.
Qed.






(** *** The totals of [get_summary] *)

Lemma or_zero_Some q : (or_zero (Some q) == q)%Q.
Proof.
  unfold or_zero. destruct (Qeq_bool q 0) eqn:E; [|reflexivity].
  apply Qeq_bool_iff in E. now rewrite E.
Qed.

(** The scan of [SUM] from any running total. *)
Lemma sum_scan where_ l acc :
  (or_zero
     (fold_left
        (fun acc r =>
           if where_ r : bool then
             Some (match acc with
                   | None => valor r
                   | Some total => (total + valor r)%Q
                   end)
           else acc) l acc)
   == or_zero acc + sum_of_amounts (filter where_ l))%Q.
Proof.
  revert acc; induction l as [|r l IH]; intros acc; simpl.
  - ring.
  - destruct (where_ r); simpl; [|apply IH].
    rewrite IH. destruct acc as [total|].
    + rewrite !or_zero_Some. ring.
    + rewrite or_zero_Some. simpl. ring.
Qed.

Lemma sql_sum_total where_ l :
  (or_zero (sql_sum where_ l) == sum_of_amounts (filter where_ l))%Q.
Proof. unfold sql_sum. rewrite sum_scan. simpl. ring. Qed.

Lemma sql_sum_no_row where_ l : filter where_ l = [] -> sql_sum where_ l = None.
Proof.
  unfold sql_sum. generalize (@None Q).
  induction l as [|r l IH]; intros acc H; simpl; [reflexivity|].
  simpl in H. destruct (where_ r); [discriminate|]. now apply IH.
Qed.

Lemma is_despesa_filter user st l :
  filter (is_despesa user st) l = expenses_with_status user st l.
Proof.
  unfold expenses_with_status. apply filter_ext. intros r. unfold is_despesa.
  now destruct (String.eqb (username r) user), (String.eqb (tipo r) "despesa"),
    (eq_str (status r) st).
Qed.

Lemma is_receita_filter user l : filter (is_receita user) l = incomes user l.
Proof.
  unfold incomes. apply filter_ext. intros r. unfold is_receita.
  apply andb_comm.
Qed.

(** C7. The second total of [get_summary] is the sum of [valor] over
    exactly the rows of the owner that are expenses with status ['Pago'];
    and each of the three totals is the number 0, not NULL, when the
    owner has no row of its kind and status. *)
Theorem paid_expenses_are_summed (user : string) (db : database) (r p a : Q) :
  get_summary user db = (r, p, a) ->
  (p == sum_of_amounts (expenses_with_status user "Pago" (rows db)))%Q
  /\ (expenses_with_status user "Pago" (rows db) = [] -> p = 0%Q)
  /\ (expenses_with_status user "A Pagar" (rows db) = [] -> a = 0%Q)
  /\ (incomes user (rows db) = [] -> r = 0%Q).
Proof.
  unfold get_summary. intros [= <- <- <-].
  repeat split.
  - rewrite sql_sum_total. now rewrite is_despesa_filter.
  - intros H. rewrite <- is_despesa_filter in H.
    now rewrite (sql_sum_no_row _ _ H).
  - intros H. rewrite <- is_despesa_filter in H.
    now rewrite (sql_sum_no_row _ _ H).
  - intros H. rewrite <- is_receita_filter in H.
    now rewrite (sql_sum_no_row _ _ H).
Qed.

Lemma paid_expenses_are_summed_witness :
  (320 == sum_of_amounts (expenses_with_status "alice" "Pago" (rows db0)))%Q
  /\ or_zero (sql_sum (is_despesa "carol" "Pago") (rows db0)) = 0%Q.
Proof.
  split.
  - exact (proj1 (paid_expenses_are_summed "alice" db0 1000 320 70 eq_refl)).
  - exact (proj1 (proj2 (paid_expenses_are_summed "carol" db0 0 0 0 eq_refl))
                 eq_refl).
Defined.

(** C9. An expense whose status is neither ['Pago'] nor ['A Pagar'], NULL
    for instance, is in none of the three totals: the summary, and with
    it the projected balance, is what it would be without the row. *)
Theorem expense_of_no_status_is_in_no_total
  (user : string) (before after : list transacao) (r : transacao) (n : Z) :
  tipo r = "despesa"%string ->
  status r <> Some "Pago"%string ->
  status r <> Some "A Pagar"%string ->
  get_summary user (Database (before ++ r :: after) n)
  = get_summary user (Database (before ++ after) n)
  /\ saldo_projetado user (Database (before ++ r :: after) n)
     = saldo_projetado user (Database (before ++ after) n).
Proof.
  intros Ht Hp Ha.
  assert (Hskip : forall where_, where_ r = false ->
            sql_sum where_ (before ++ r :: after) = sql_sum where_ (before ++ after)).
  { intros where_ Hw. unfold sql_sum. rewrite !fold_left_app. simpl.
    now rewrite Hw. }
  assert (Hs : forall st, status r <> Some st -> eq_str (status r) st = false).
  { intros st Hne. unfold eq_str. destruct (status r) as [s|]; [|reflexivity].
    destruct (String.eqb_spec s st) as [->|]; [now elim Hne | reflexivity]. }
  assert (Hsum : get_summary user (Database (before ++ r :: after) n)
                 = get_summary user (Database (before ++ after) n)).
  { unfold get_summary; simpl.
    rewrite (Hskip (is_receita user)), (Hskip (is_despesa user "Pago")),
      (Hskip (is_despesa user "A Pagar")); try reflexivity;
      unfold is_despesa, is_receita; rewrite ?Hs by assumption;
      rewrite ?Ht; simpl; now rewrite ?andb_false_r. }
  split; [exact Hsum|]. unfold saldo_projetado. now rewrite Hsum.
Qed.

Lemma expense_of_no_status_is_in_no_total_witness :
  saldo_projetado "alice"
    (Database (rows db0 ++ [linha_de 6 "alice" "despesa" 999 None]) 6)
  = saldo_projetado "alice" (Database (rows db0 ++ []) 6).
Proof.
  apply (expense_of_no_status_is_in_no_total
           "alice" (rows db0) [] (linha_de 6 "alice" "despesa" 999 None) 6);
    [reflexivity | discriminate | discriminate].
Defined.

(** *** Creating a row *)

Lemma incomplete_iff w :
  incomplete w = true <-> w_descricao w = EmptyString \/ (w_valor w == 0)%Q.
Proof.
  unfold incomplete. rewrite orb_true_iff, String.eqb_eq, Qeq_bool_iff.
  reflexivity.
Qed.

(** C5, as the code has it.  [add_transaction] checks nothing itself: a
    description or an amount of [None] is refused by the [NOT NULL] column
    and no row is stored, and every call that returns has appended exactly
    one row, the fields as they were given.  The check on the description
    and on the amount is made by the form before it calls
    [add_transaction]: with an empty description or an amount of zero it
    reports the error and leaves the table as it was, and with anything
    else it stores exactly one row. *)
Theorem validation_is_made_by_the_form
  (user : string) (w : widgets) (args : campos) (db : database) :
  (w_descricao w = EmptyString \/ (w_valor w == 0)%Q ->
   submitted user w db = (preencha_descricao_e_valor, db))
  /\ (~ (w_descricao w = EmptyString \/ (w_valor w == 0)%Q) ->
      exists row,
        submitted user w db
        = (adicionada_com_sucesso, Database (rows db ++ [row]) (next_id db))
        /\ username row = user
        /\ descricao row = w_descricao w
        /\ valor row = w_valor w
        /\ tipo row = lower (w_type w))
  /\ (a_descricao args = None \/ a_valor args = None ->
      add_transaction args db = Raise IntegrityError)
  /\ (forall db', add_transaction args db = Ok db' ->
      exists row,
        rows db' = rows db ++ [row]
        /\ Some (descricao row) = a_descricao args
        /\ Some (valor row) = a_valor args).
Proof.
  repeat split.
  - intros H. apply incomplete_iff in H. unfold submitted. now rewrite H.
  - intros H. unfold submitted.
    destruct (incomplete w) eqn:E; [elim H; now apply incomplete_iff|].
    unfold add_transaction; simpl. eexists. repeat split.
  - intros [H|H]; unfold add_transaction; rewrite H;
      destruct (a_username args), (a_data args), (a_descricao args),
        (a_valor args); reflexivity.
  - unfold add_transaction. intros db' H.
    destruct (a_username args), (a_data args), (a_descricao args),
      (a_valor args), (a_tipo args); try discriminate.
    injection H as <-. simpl. eexists. repeat split.
Qed.

Lemma validation_is_made_by_the_form_witness :
  submitted "alice" (formulario "" 300) db0 = (preencha_descricao_e_valor, db0)
  /\ (exists row,
        submitted "alice" (formulario "Aluguel" 300) db0
        = (adicionada_com_sucesso, Database (rows db0 ++ [row]) 6)
        /\ username row = "alice"%string
        /\ descricao row = "Aluguel"%string
        /\ valor row = 300%Q
        /\ tipo row = "despesa"%string).
Proof.
  split.
  - apply (proj1 (validation_is_made_by_the_form
                    "alice" (formulario "" 300) sem_descricao db0)).
    now left.
  - apply (proj1 (proj2 (validation_is_made_by_the_form
                           "alice" (formulario "Aluguel" 300) sem_descricao db0))).
    intros [H|H]; discriminate.
Defined.

(** C5, as the claim has it, fails on the code: called with an empty
    description and a negative amount, [add_transaction] raises nothing and
    stores the row. *)
Lemma add_transaction_stores_what_it_is_given :
  a_descricao sem_descricao = Some EmptyString
  /\ a_valor sem_descricao = Some (-5)%Q
  /\ exists row,
       add_transaction sem_descricao empty_db = Ok (Database [row] 1)
       /\ descricao row = EmptyString
       /\ valor row = (-5)%Q.
Proof.
  repeat split. eexists. repeat split.
Qed.

End StoreFacts.

(** ** Credentials *)

Module CredentialFacts.

(** The digests of the test vectors of FIPS 180-4. *)
Example make_hashes_abc :
  make_hashes "abc"
  = "ba7816bf8f01cfea414140de5dae2223b00361a396177a9cb410ff61f20015ad"%string.
Proof. vm_compute. reflexivity. Qed.

Example make_hashes_two_blocks :
  make_hashes "abcdbcdecdefdefgefghfghighijhijkijkljklmklmnlmnomnopnopq"
  = "248d6a61d20638b8e5c026930c3e6039a33ce45964ff2167f6ecedd419db06c1"%string.
Proof. vm_compute. reflexivity. Qed.

(** The digest has eight words whatever the message, and its text
    sixty-four characters. *)
Lemma round_length st kw : List.length (SHA256.round st kw) = List.length st.
Proof.
  do 9 (destruct st as [|? st]; [reflexivity|]). reflexivity.
Qed.

Lemma rounds_length l h :
  List.length (fold_left SHA256.round l h) = List.length h.
Proof.
  revert h; induction l as [|kw l IH]; intros h; simpl; [reflexivity|].
  now rewrite IH, round_length.
Qed.

Lemma compress_length h block :
  List.length (SHA256.compress h block) = List.length h.
Proof.
  unfold SHA256.compress.
  now rewrite length_map, length_combine, rounds_length, Nat.min_id.
Qed.

Lemma digest_length msg : List.length (SHA256.digest msg) = 8%nat.
Proof.
  unfold SHA256.digest.
  generalize (SHA256.blocks_of
                (List.length (SHA256.words_of (List.length (SHA256.pad msg))
                                              (SHA256.pad msg)))
                (SHA256.words_of (List.length (SHA256.pad msg)) (SHA256.pad msg))).
  intros blocks.
  assert (H : forall h, List.length (fold_left SHA256.compress blocks h)
                        = List.length h).
  { induction blocks as [|b blocks IH]; intros h; simpl; [reflexivity|].
    now rewrite IH, compress_length. }
  now rewrite H.
Qed.

Lemma length_of_append (a b : string) :
  String.length (a ++ b) = (String.length a + String.length b)%nat.
Proof. induction a as [|c a IH]; simpl; [reflexivity | now rewrite IH]. Qed.

Lemma hex_words_length ws :
  String.length (fold_right (fun w s => (SHA256.hex_word w ++ s)%string)
                            EmptyString ws)
  = (8 * List.length ws)%nat.
Proof.
  induction ws as [|w ws IH]; [reflexivity|].
  cbn [fold_right List.length]. rewrite length_of_append, IH.
  change (String.length (SHA256.hex_word w)) with 8%nat. lia.
Qed.

Lemma make_hashes_length p : String.length (make_hashes p) = 64%nat.
Proof.
  unfold make_hashes, SHA256.hexdigest.
  now rewrite hex_words_length, digest_length.
Qed.

(** C10. A password checks against its own hash; and a password checks
    against the hash of another exactly when the two have the same SHA-256
    digest in hexadecimal.  The digest is the one of FIPS 180-4: it has
    sixty-four characters for every password, it is the published digest
    on the empty text and on the two test vectors of the standard, and
    the password [wrong] does not check against the hash of [right]. *)
Theorem check_hashes_round_trip :
  (forall p : string, check_hashes p (make_hashes p) = true)
  /\ (forall p q : string,
        check_hashes q (make_hashes p) = true
        <-> SHA256.hexdigest (SHA256.encode q) = SHA256.hexdigest (SHA256.encode p))
  /\ (forall p : string, String.length (make_hashes p) = 64%nat)
  /\ make_hashes EmptyString
     = "e3b0c44298fc1c149afbf4c8996fb92427ae41e4649b934ca495991b7852b855"%string
  /\ make_hashes "abc"
     = "ba7816bf8f01cfea414140de5dae2223b00361a396177a9cb410ff61f20015ad"%string
  /\ make_hashes "abcdbcdecdefdefgefghfghighijhijkijkljklmklmnlmnomnopnopq"
     = "248d6a61d20638b8e5c026930c3e6039a33ce45964ff2167f6ecedd419db06c1"%string
  /\ check_hashes "wrong" (make_hashes "right") = false
  /\ check_hashes "right" (make_hashes "right") = true.
Proof.
  split; [|split; [|split; [|split; [|split; [|split; [|split]]]]]].
  - intros p. unfold check_hashes. apply String.eqb_refl.
  - intros p q. unfold check_hashes, make_hashes. apply String.eqb_eq.
  - exact make_hashes_length.
  - vm_compute. reflexivity.
  - exact make_hashes_abc.
  - exact make_hashes_two_blocks.
  - vm_compute. reflexivity.
  - vm_compute. reflexivity.
Qed.

End CredentialFacts.

(** ** Accounts *)

Module UserFacts.

Import Users.

Lemma find_app_none {A : Type} (f : A -> bool) (l : list A) (x : A) :
  existsb f l = false -> find f (l ++ [x]) = (if f x then Some x else None).
Proof.
  induction l as [|y l IH]; simpl; [reflexivity|].
  destruct (f y); simpl; [discriminate | exact IH].
Qed.

Lemma find_app_other {A : Type} (f : A -> bool) (l : list A) (x : A) :
  f x = false -> find f (l ++ [x]) = find f l.
Proof.
  intros Hx. induction l as [|y l IH]; simpl; [now rewrite Hx|].
  now destruct (f y).
Qed.

Lemma find_existsb {A : Type} (f : A -> bool) (l : list A) :
  existsb f l = match find f l with Some _ => true | None => false end.
Proof.
  induction l as [|y l IH]; simpl; [reflexivity|]. now destruct (f y).
Qed.

Lemma add_user_created username password t t' :
  add_user username password t = (t', true) ->
  existsb (named username) t = false
  /\ t' = t ++ [(username, make_hashes password)].
Proof.
  unfold add_user, insert_user.
  destruct (existsb (named username) t); intros [= <-]; auto.
Qed.

Lemma verify_after_add username password t t' :
  add_user username password t = (t', true) ->
  forall q, verify_user username q t'
            = String.eqb (make_hashes q) (make_hashes password).
Proof.
  intros H. apply add_user_created in H. destruct H as [Hnew ->].
  intros q. unfold verify_user, select_password.
  rewrite (find_app_none _ _ _ Hnew). unfold named at 1; simpl.
  now rewrite String.eqb_refl.
Qed.

(** X1. Register, then log in: once [add_user] has answered [True] for a
    name and a password, [verify_user] accepts that name with that
    password, and with another password exactly when the two have the
    same hash. *)
Theorem registered_user_is_verified
  (username password : string) (t t' : tabela) :
  add_user username password t = (t', true) ->
  verify_user username password t' = true
  /\ forall q, verify_user username q t'
               = String.eqb (make_hashes q) (make_hashes password).
Proof.
  intros H. pose proof (verify_after_add _ _ _ _ H) as Hq.
  split; [|exact Hq]. rewrite Hq. apply String.eqb_refl.
Qed.

Lemma registered_user_is_verified_witness :
  verify_user "ana" "segredo" (contas0 ++ [("ana"%string, make_hashes "segredo")])
  = true.
Proof.
  exact (proj1 (registered_user_is_verified
                  "ana" "segredo" contas0
                  (contas0 ++ [("ana"%string, make_hashes "segredo")]) eq_refl)).
Defined.

(** X2. A name that is taken is refused: [add_user] answers [False] and
    the table is as it was, so the password stored under the name is not
    replaced. *)
Theorem taken_name_is_refused
  (username password hashed : string) (t : tabela) :
  select_password username t = Some hashed ->
  add_user username password t = (t, false)
  /\ select_password username (fst (add_user username password t)) = Some hashed.
Proof.
  intros H.
  assert (Ha : add_user username password t = (t, false)).
  { unfold add_user, insert_user. rewrite find_existsb.
    unfold select_password in H.
    destruct (find (named username) t); [reflexivity | discriminate]. }
  split; [exact Ha|]. now rewrite Ha.
Qed.

Lemma taken_name_is_refused_witness :
  add_user "bob" "outra" contas0 = (contas0, false).
Proof.
  exact (proj1 (taken_name_is_refused "bob" "outra" _ contas0 eq_refl)).
Defined.

(** X3. [add_user] touches no other account and keeps the names apart:
    whoever could log in before can log in after with the same password
    and no other, and a table without two rows of one name stays so. *)
Theorem add_user_keeps_the_other_accounts
  (username password : string) (t : tabela) :
  (forall other q, other <> username ->
     verify_user other q (fst (add_user username password t))
     = verify_user other q t)
  /\ (NoDup (map fst t) ->
      NoDup (map fst (fst (add_user username password t)))).
Proof.
  unfold add_user, insert_user.
  destruct (existsb (named username) t) eqn:E; simpl; [now split|].
  split.
  - intros other q Hne. unfold verify_user, select_password.
    rewrite find_app_other; [reflexivity|].
    unfold named; simpl. now apply String.eqb_neq, not_eq_sym.
  - intros Hnd. rewrite map_app; simpl.
    apply NoDup_app_remove_l with (l := []).
    apply Permutation_NoDup with (l := username :: map fst t).
    + simpl. apply Permutation_cons_append.
    + constructor; [|exact Hnd].
      intros Hin. apply in_map_iff in Hin. destruct Hin as (r & Hr & Hin).
      assert (Hex : existsb (named username) t = true).
      { apply existsb_exists. exists r. split; [exact Hin|].
        unfold named. rewrite Hr. apply String.eqb_refl. }
      congruence.
Qed.

Lemma add_user_keeps_the_other_accounts_witness :
  NoDup (map fst (fst (add_user "ana" "segredo" contas0))).
Proof.
  apply (proj2 (add_user_keeps_the_other_accounts "ana" "segredo" contas0)).
  unfold contas0. cbn [map fst].
  constructor; [intros [] | constructor].
Defined.

End UserFacts.

(** ** The login pages *)

Module PageFacts.

Import Users UserFacts.

(** X4. The register button of [login_page] stores an account only when it
    reports [conta_criada]; then no field was empty, the two passwords were
    the same, and the button [Entrar] with that name and password opens
    the session under that name. *)
Theorem registration_then_login
  (u p c : string) (t t' : tabela) (a : aviso) (s : session) :
  registrar u p c t = (a, t') ->
  (a <> conta_criada -> t' = t)
  /\ (a = conta_criada ->
      u <> EmptyString /\ p <> EmptyString /\ p = c
      /\ entrar u p t' s = (login_bem_sucedido, Session true (Some u))).
Proof.
  unfold registrar, vazio.
  destruct (String.eqb_spec u EmptyString) as [->|Hu]; simpl;
    [intros [= <- <-]; split; [reflexivity | discriminate]|].
  destruct (String.eqb_spec p EmptyString) as [->|Hp]; simpl;
    [intros [= <- <-]; split; [reflexivity | discriminate]|].
  destruct (String.eqb_spec c EmptyString) as [->|Hc]; simpl;
    [intros [= <- <-]; split; [reflexivity | discriminate]|].
  destruct (String.eqb_spec p c) as [->|Hpc]; simpl;
    [|intros [= <- <-]; split; [reflexivity | discriminate]].
  destruct (add_user u c t) as [t1 created] eqn:E.
  destruct created; intros [= <- <-].
  - split; [intros H; now elim H|]. intros _.
    repeat split; try assumption.
    unfold entrar.
    now rewrite (verify_after_add u c t t1 E), String.eqb_refl.
  - split; [|discriminate]. intros _.
    unfold add_user, insert_user in E.
    destruct (existsb (named u) t); now injection E as <-.
Qed.

Lemma registration_then_login_witness :
  entrar "ana" "segredo" (contas0 ++ [("ana"%string, make_hashes "segredo")])
         (Session false None)
  = (login_bem_sucedido, Session true (Some "ana"%string)).
Proof.
  exact (proj2 (proj2 (proj2 (proj2 (registration_then_login
           "ana" "segredo" "segredo" contas0
           (contas0 ++ [("ana"%string, make_hashes "segredo")])
           conta_criada (Session false None) eq_refl) eq_refl)))).
Defined.

(** X5. The page of [login.py] starts every run with an empty [users_db]:
    whatever is typed and pressed, a run never welcomes anybody and never
    finds a name taken; the [Login] button always answers that the name
    or the password is wrong. *)
Theorem login_py_never_logs_in (e : LoginPy.entrada) :
  (forall u, fst (LoginPy.script e) <> Some (LoginPy.bem_vindo u))
  /\ fst (LoginPy.script e) <> Some LoginPy.usuario_ja_existe
  /\ (LoginPy.choice e = LoginPy.Login -> LoginPy.botao e = true ->
      LoginPy.script e = (Some LoginPy.usuario_ou_senha_incorretos, [])).
Proof.
  unfold LoginPy.script, LoginPy.pagina.
  destruct e as [ch u p c b]; simpl.
  destruct ch, b; simpl; repeat split; try discriminate;
    destruct (vazio u || vazio p || vazio c); simpl; try discriminate;
    destruct (negb (String.eqb p c)); simpl; discriminate.
Qed.

Lemma login_py_never_logs_in_witness :
  LoginPy.script (LoginPy.Entrada LoginPy.Login "ana" "segredo" "" true)
  = (Some LoginPy.usuario_ou_senha_incorretos, []).
Proof.
  exact (proj2 (proj2 (login_py_never_logs_in
           (LoginPy.Entrada LoginPy.Login "ana" "segredo" "" true)))
           eq_refl eq_refl).
Defined.

Lemma contains_named u t : LoginPy.contains u t = existsb (named u) t.
Proof. reflexivity. Qed.

(** X6. On the same stored accounts the page of [login.py] and the login
    page of [financas8.py] decide alike: the same names get in with the
    same passwords, and a registration gets the same notice and leaves
    the same accounts. *)
Theorem the_two_login_pages_agree (u p c : string) (t : tabela) (s : session) :
  LoginPy.pagina t (LoginPy.Entrada LoginPy.Login u p c true)
  = (Some (Pages.notice u (fst (entrar u p t s))), t)
  /\ LoginPy.pagina t (LoginPy.Entrada LoginPy.Registrar u p c true)
     = (Some (Pages.notice u (fst (registrar u p c t))), snd (registrar u p c t)).
Proof.
  split.
  - unfold LoginPy.pagina, entrar, verify_user, select_password,
      LoginPy.getitem, LoginPy.contains; simpl.
    change (fun e : string * string => String.eqb (fst e) u) with (named u).
    rewrite find_existsb.
    destruct (find (named u) t) as [r|]; [|reflexivity].
    now destruct (check_hashes p (snd r)).
  - unfold LoginPy.pagina, registrar; simpl.
    destruct (vazio u || vazio p || vazio c); [reflexivity|].
    destruct (negb (String.eqb p c)); [reflexivity|].
    unfold add_user, insert_user, LoginPy.setitem.
    rewrite contains_named.
    now destruct (existsb (named u) t).
Qed.

End PageFacts.

(** ** Listing and loading *)

Module ListingFacts.

Import Store Form Listing TextFacts.

Lemma insert_desc_Permutation r l : Permutation (insert_desc r l) (r :: l).
Proof.
  induction l as [|x l IH]; simpl; [reflexivity|].
  destruct (String.leb (data x) (data r)); [reflexivity|].
  rewrite IH. apply perm_swap.
Qed.

Lemma order_Permutation l : Permutation (order_by_data_desc l) l.
Proof.
  induction l as [|x l IH]; simpl; [reflexivity|].
  rewrite insert_desc_Permutation. now constructor.
Qed.

Lemma insert_desc_Sorted r l :
  Sorted later_first l -> Sorted later_first (insert_desc r l).
Proof.
  induction l as [|x l IH]; intros Hs; simpl.
  - repeat constructor.
  - destruct (String.leb (data x) (data r)) eqn:E.
    + constructor; [exact Hs | now constructor].
    + inversion Hs as [|? ? Hs' Hhd]; subst.
      constructor; [now apply IH|].
      assert (Hxr : later_first x r).
      { unfold later_first.
        destruct (String.leb_total (data x) (data r)); congruence. }
      destruct l as [|y l]; simpl.
      * now constructor.
      * destruct (String.leb (data y) (data r)); constructor;
          [exact Hxr | now inversion Hhd].
Qed.

Lemma order_Sorted l : Sorted later_first (order_by_data_desc l).
Proof.
  induction l as [|x l IH]; simpl; [constructor | now apply insert_desc_Sorted].
Qed.

(** X7. [get_transactions] lists the rows of the owner, each of them once
    and no row of anybody else, the later dates first. *)
Theorem listing_is_the_owners_rows_by_date (user : string) (db : database) :
  Permutation (get_transactions user db) (filter (owned_by user) (rows db))
  /\ (forall r, In r (get_transactions user db)
                <-> In r (rows db) /\ username r = user)
  /\ Sorted later_first (get_transactions user db).
Proof.
  unfold get_transactions.
  pose proof (order_Permutation (filter (owned_by user) (rows db))) as Hp.
  split; [exact Hp|]. split; [|apply order_Sorted].
  intros r. split.
  - intros Hin. apply (Permutation_in _ Hp) in Hin.
    apply filter_In in Hin. destruct Hin as [Hin Ho].
    split; [exact Hin | now apply String.eqb_eq].
  - intros [Hin Hu]. apply (Permutation_in _ (Permutation_sym Hp)).
    apply filter_In. split; [exact Hin | now apply String.eqb_eq].
Qed.

Lemma added_row args db db' :
  add_transaction args db = Ok db' ->
  exists u d de v t,
    a_username args = Some u /\ a_data args = Some d
    /\ a_descricao args = Some de /\ a_valor args = Some v
    /\ a_tipo args = Some t
    /\ db' = Database
               (rows db ++
                [Transacao (next_id db) d de v t (a_categoria args) u
                   (a_responsavel args) (a_banco args) (a_forma_recebimento args)
                   (a_datas_parcelas_receita args) (a_recorrente args)
                   (a_vezes_recorrencia args) (a_status args)])
               (next_id db).
Proof.
  unfold add_transaction.
  destruct (a_username args) as [u|], (a_data args) as [d|],
    (a_descricao args) as [de|], (a_valor args) as [v|], (a_tipo args) as [t|];
    try discriminate.
  intros [= <-]. now exists u, d, de, v, t.
Qed.

(** X8. Create, then list: after [add_transaction] has returned, the
    listing of the owner is its listing of before with one row more, which
    carries the fields as they were given and a new id; the listing of any
    other owner is unchanged. *)
Theorem created_row_is_listed (args : campos) (db db' : database) (u : string) :
  add_transaction args db = Ok db' ->
  a_username args = Some u ->
  (exists row,
     Permutation (get_transactions u db') (row :: get_transactions u db)
     /\ id row = next_id db
     /\ Some (data row) = a_data args
     /\ Some (descricao row) = a_descricao args
     /\ Some (valor row) = a_valor args
     /\ Some (tipo row) = a_tipo args
     /\ categoria row = a_categoria args
     /\ status row = a_status args)
  /\ (forall other, other <> u ->
        get_transactions other db' = get_transactions other db).
Proof.
  intros H Hu. apply added_row in H.
  destruct H as (u' & d & de & v & t & Hu' & Hd & Hde & Hv & Ht & ->).
  rewrite Hu in Hu'. injection Hu' as <-.
  split.
  - exists (Transacao (next_id db) d de v t (a_categoria args) u
              (a_responsavel args) (a_banco args) (a_forma_recebimento args)
              (a_datas_parcelas_receita args) (a_recorrente args)
              (a_vezes_recorrencia args) (a_status args)).
    rewrite Hd, Hde, Hv, Ht. repeat split.
    unfold get_transactions; simpl rows.
    rewrite filter_app; simpl. unfold owned_by at 2; simpl.
    rewrite String.eqb_refl.
    rewrite order_Permutation, order_Permutation.
    rewrite <- Permutation_cons_append. reflexivity.
  - intros other Hne. unfold get_transactions; simpl rows.
    rewrite filter_app; simpl. unfold owned_by at 2; simpl.
    replace (String.eqb u other) with false
      by (symmetry; apply String.eqb_neq; congruence).
    now rewrite app_nil_r.
Qed.

Lemma created_row_is_listed_witness :
  match add_transaction Samples.sem_descricao Samples.db0 with
  | Ok db' =>
      exists row,
        Permutation (get_transactions "alice" db')
                    (row :: get_transactions "alice" Samples.db0)
        /\ Some (descricao row) = Some EmptyString
  | Raise _ => False
  end.
Proof.
  destruct (add_transaction Samples.sem_descricao Samples.db0) as [db'|e] eqn:E;
    [|discriminate E].
  destruct (created_row_is_listed Samples.sem_descricao Samples.db0 db' "alice"
              E eq_refl) as [(row & Hp & Hid & Hd & Hde & _) _].
  exists row. split; [exact Hp | exact Hde].
Defined.

End ListingFacts.

(** ** From the form to the frame *)

Module FrameFacts.

Import Store Form Listing TextFacts ListingFacts.

Lemma to_datetime_strftime d :
  valid_date d = true -> in_ns_bounds d = true ->
  to_datetime (strftime_Ymd d) = Ok d.
Proof.
  intros Hv Hb. unfold to_datetime.
  rewrite (strptime_strftime d Hv). cbn [Py.bind].
  now rewrite String.eqb_refl, Hb.
Qed.

Lemma data_frame_Permutation l l' df :
  Permutation l l' -> data_frame l = Ok df ->
  exists df', data_frame l' = Ok df' /\ Permutation df df'.
Proof.
  intros H; revert df.
  induction H as [|x l l' _ IH|x y l|l l' l'' _ IH1 _ IH2]; intros df Hdf.
  - exists df. now split.
  - simpl in *. destruct (to_linha x) as [a|]; simpl in *; [|discriminate].
    destruct (data_frame l) as [df0|]; simpl in *; [|discriminate].
    injection Hdf as <-.
    destruct (IH df0 eq_refl) as (df1 & -> & Hp).
    exists (a :: df1). split; [reflexivity | now constructor].
  - simpl in *.
    destruct (to_linha y) as [b|]; simpl in *; [|discriminate].
    destruct (to_linha x) as [a|]; simpl in *; [|discriminate].
    destruct (data_frame l) as [df0|]; simpl in *; [|discriminate].
    injection Hdf as <-.
    exists (a :: b :: df0). split; [reflexivity | apply perm_swap].
  - destruct (IH1 df Hdf) as (df1 & H1 & Hp1).
    destruct (IH2 df1 H1) as (df2 & H2 & Hp2).
    exists df2. split; [exact H2 | now transitivity df1].
Qed.

(** X9. From the form to the frame: an entry with a description and an
    amount, dated within the dates a [Timestamp] holds, is stored, and the
    frame the pages work on is then the frame of before with one row more,
    which has the date, the amount, the kind and the other fields of the
    form. *)
Theorem form_entry_reaches_the_frame
  (u : string) (w : widgets) (db : database) (df : list linha) :
  incomplete w = false ->
  valid_date (data_transacao w) = true ->
  in_ns_bounds (data_transacao w) = true ->
  df_all_transactions u db = Ok df ->
  exists db' new df',
    submitted u w db = (adicionada_com_sucesso, db')
    /\ df_all_transactions u db' = Ok df'
    /\ Permutation (new :: df) df'
    /\ Data new = data_transacao w
    /\ Valor new = w_valor w
    /\ Tipo new = lower (w_type w)
    /\ Descricao new = w_descricao w
    /\ Forma_Recebimento new = w_forma_recebimento w
    /\ Datas_Parcelas_Receita new = datas_parcelas_receita_json w
    /\ Recorrente new = w_recorrente w
    /\ Vezes_Recorrencia new = w_vezes_recorrencia w
    /\ Status new = w_status w.
Proof.
  intros Hc Hv Hb Hdf.
  unfold submitted. rewrite Hc. unfold add_transaction; simpl.
  set (row := Transacao (next_id db) (strftime_Ymd (data_transacao w))
                (w_descricao w) (w_valor w) (lower (w_type w))
                (categoria_selecionada w) u (w_responsavel w) (w_banco w)
                (w_forma_recebimento w) (datas_parcelas_receita_json w)
                (w_recorrente w) (w_vezes_recorrencia w) (w_status w)).
  assert (Hrow : to_linha row
                 = Ok (Linha (next_id db) (data_transacao w) (w_descricao w)
                         (w_valor w) (lower (w_type w)) (categoria_selecionada w)
                         (w_responsavel w) (w_banco w) (w_forma_recebimento w)
                         (datas_parcelas_receita_json w) (w_recorrente w)
                         (w_vezes_recorrencia w) (w_status w))).
  { unfold to_linha, row; simpl. now rewrite to_datetime_strftime. }
  assert (Hp : Permutation (row :: get_transactions u db)
                 (get_transactions u (Database (rows db ++ [row]) (next_id db)))).
  { unfold get_transactions; simpl rows. rewrite filter_app; simpl.
    unfold owned_by at 3; simpl. rewrite String.eqb_refl.
    rewrite !order_Permutation. apply Permutation_cons_append. }
  assert (Hnew : data_frame (row :: get_transactions u db)
                 = Ok (Linha (next_id db) (data_transacao w) (w_descricao w)
                         (w_valor w) (lower (w_type w)) (categoria_selecionada w)
                         (w_responsavel w) (w_banco w) (w_forma_recebimento w)
                         (datas_parcelas_receita_json w) (w_recorrente w)
                         (w_vezes_recorrencia w) (w_status w) :: df)).
  { simpl. rewrite Hrow. unfold df_all_transactions in Hdf. now rewrite Hdf. }
  destruct (data_frame_Permutation _ _ _ Hp Hnew) as (df' & Hdf' & Hperm).
  eexists. eexists. exists df'.
  split; [reflexivity|]. split; [exact Hdf'|]. split; [exact Hperm|].
  repeat split.
Qed.

Lemma form_entry_reaches_the_frame_witness :
  exists db' new df',
    submitted "alice" (Samples.formulario "Aluguel" 300) Samples.empty_db
    = (adicionada_com_sucesso, db')
    /\ df_all_transactions "alice" db' = Ok df'
    /\ Permutation [new] df'
    /\ Data new = Samples.today0.
Proof.
  destruct (form_entry_reaches_the_frame
              "alice" (Samples.formulario "Aluguel" 300) Samples.empty_db []
              eq_refl eq_refl eq_refl eq_refl)
    as (db' & new & df' & H1 & H2 & H3 & H4 & _).
  exists db', new, df'. now repeat split.
Defined.

End FrameFacts.

(** ** The key of the table *)

Module KeyFacts.

Import Store Listing StoreFacts ListingFacts.



Lemma assign_id a r r' : sets_id a = false -> assign a r = Ok r' -> id r' = id r.
Proof.
  destruct r; destruct a as [v|v|v|v|v|v|v|v|v|v|v|v|v| |]; simpl;
    try discriminate; intros _;
    try destruct v; simpl; intros [= <-]; reflexivity.
Qed.

Lemma for_each_assign_id kwargs r r' :
  existsb sets_id kwargs = false ->
  for_each assign kwargs r = Ok r' -> id r' = id r.
Proof.
  revert r; induction kwargs as [|a kwargs IH]; intros r Hs; simpl.
  - now intros [= <-].
  - simpl in Hs. apply orb_false_elim in Hs. destruct Hs as [Ha Hs].
    destruct (assign a r) as [r1|] eqn:E; simpl; [|discriminate].
    intros H. rewrite (IH _ Hs H). exact (assign_id a r r1 Ha E).
Qed.


Lemma unique_NoDup ids : unique ids = true -> NoDup ids.
Proof.
  induction ids as [|i ids IH]; simpl; intros H; [constructor|].
  apply andb_prop in H. destruct H as [Hi Hu].
  constructor; [|now apply IH].
  intros Hin. apply negb_true_iff in Hi.
  assert (Hex : existsb (Z.eqb i) ids = true).
  { apply existsb_exists. exists i. split; [exact Hin | apply Z.eqb_refl]. }
  congruence.
Qed.

Lemma NoDup_unique ids : NoDup ids -> unique ids = true.
Proof.
  induction 1 as [|i ids Hi _ IH]; simpl; [reflexivity|].
  rewrite IH, andb_true_r. apply negb_true_iff.
  destruct (existsb (Z.eqb i) ids) eqn:E; [|reflexivity].
  apply existsb_exists in E. destruct E as (j & Hin & Hj).
  apply Z.eqb_eq in Hj. subst j. contradiction.
Qed.








Lemma db0_well_keyed : well_keyed Samples.db0.
Proof.
  split; simpl.
  - repeat (constructor; [simpl; intuition discriminate|]). constructor.
  - repeat (constructor; [simpl; lia|]). constructor.
Defined.




End KeyFacts.

(** ** Deleting and updating one's own row *)

Module OwnRowFacts.

Import Store Listing Totals StoreFacts KeyFacts.

(** With ids apart, the row of id [i] is the only one the clause finds. *)
Lemma only_match before r after i user :
  NoDup (map id (before ++ r :: after)) -> id r = i ->
  forall x, In x (before ++ after) -> matches i user x = false.
Proof.
  intros Hn Hi x Hx.
  rewrite map_app in Hn; simpl in Hn.
  apply NoDup_remove_2 in Hn.
  unfold matches. destruct (Z.eqb_spec (id x) i) as [E|]; [|reflexivity].
  exfalso. apply Hn. rewrite <- map_app. apply in_map_iff.
  exists x. split; [congruence | exact Hx].
Qed.

Lemma matches_own r i user :
  id r = i -> username r = user -> matches i user r = true.
Proof.
  intros <- <-. unfold matches. now rewrite Z.eqb_refl, String.eqb_refl.
Qed.

Lemma update_rows_app i user kwargs l1 l2 :
  update_rows i user kwargs (l1 ++ l2) =
  Py.bind (update_rows i user kwargs l1)
          (fun l1' => Py.bind (update_rows i user kwargs l2)
                              (fun l2' => Ok (l1' ++ l2'))).
Proof.
  induction l1 as [|x l1 IH]; simpl.
  - now destruct (update_rows i user kwargs l2).
  - destruct (if matches i user x then for_each assign kwargs x else Ok x);
      simpl; [|reflexivity].
    rewrite IH. destruct (update_rows i user kwargs l1); simpl; [|reflexivity].
    now destruct (update_rows i user kwargs l2).
Qed.

Section OneRow.

Variables (before after : list transacao) (r : transacao) (n : Z).
Variables (i : Z) (user : string).
Hypothesis Hkey : well_keyed (Database (before ++ r :: after) n).
Hypothesis Hid : id r = i.
Hypothesis Howner : username r = user.

Let others_unmatched : forall x, In x (before ++ after) -> matches i user x = false.
Proof. destruct Hkey as [Hn _]. now apply (only_match before r after). Qed.

Lemma before_unmatched : forall x, In x before -> matches i user x = false.
Proof. intros x Hx. apply others_unmatched. apply in_or_app. now left. Qed.

Lemma after_unmatched : forall x, In x after -> matches i user x = false.
Proof. intros x Hx. apply others_unmatched. apply in_or_app. now right. Qed.

Lemma rowcount_one : rowcount i user (Database (before ++ r :: after) n) = 1.
Proof.
  unfold rowcount; simpl. rewrite filter_app; simpl.
  rewrite (matches_own r i user Hid Howner).
  rewrite (filter_none _ _ before_unmatched), (filter_none _ _ after_unmatched). reflexivity.
Qed.

Lemma delete_own :
  delete_transaction i user (Database (before ++ r :: after) n)
  = (Database (before ++ after) n, true).
Proof.
  unfold delete_transaction. rewrite rowcount_one. simpl.
  rewrite filter_app; simpl. rewrite (matches_own r i user Hid Howner). simpl.
  rewrite !filter_all; [reflexivity| |].
  - intros x Hx. now rewrite (after_unmatched x Hx).
  - intros x Hx. now rewrite (before_unmatched x Hx).
Qed.

Lemma update_rows_own kwargs :
  update_rows i user kwargs (before ++ r :: after) =
  Py.bind (for_each assign kwargs r) (fun r' => Ok (before ++ r' :: after)).
Proof.
  rewrite update_rows_app. rewrite (update_rows_no_match _ _ _ _ before_unmatched).
  simpl. rewrite (matches_own r i user Hid Howner).
  destruct (for_each assign kwargs r); simpl; [|reflexivity].
  now rewrite (update_rows_no_match _ _ _ _ after_unmatched).
Qed.

Lemma unique_replaced r' :
  unique (map id (before ++ r' :: after))
  = negb (existsb (Z.eqb (id r')) (map id (before ++ after))).
Proof.
  destruct Hkey as [Hn _]. cbn [rows] in Hn.
  rewrite map_app in Hn; cbn [map] in Hn. apply NoDup_remove_1 in Hn.
  rewrite <- map_app in Hn.
  destruct (existsb (Z.eqb (id r')) (map id (before ++ after))) eqn:E; cbn [negb].
  - destruct (unique (map id (before ++ r' :: after))) eqn:Eu; [|reflexivity].
    apply unique_NoDup in Eu. rewrite map_app in Eu; cbn [map] in Eu.
    apply NoDup_remove_2 in Eu. exfalso. apply Eu. rewrite <- map_app.
    apply existsb_exists in E. destruct E as (j & Hin & Hj).
    apply Z.eqb_eq in Hj. now subst j.
  - apply NoDup_unique. rewrite map_app; cbn [map].
    apply (Permutation_NoDup (Permutation_middle _ _ _)).
    constructor; [|now rewrite <- map_app].
    rewrite <- map_app. intros Hin.
    assert (Hex : existsb (Z.eqb (id r')) (map id (before ++ after)) = true).
    { apply existsb_exists. exists (id r'). split; [exact Hin | apply Z.eqb_refl]. }
    congruence.
Qed.

Lemma update_own kwargs :
  kwargs <> [] -> existsb is_parameter kwargs = false ->
  update_transaction i user kwargs (Database (before ++ r :: after) n) =
  match (if forallb binds kwargs then for_each assign kwargs r
         else Raise OverflowError) with
  | Ok r' =>
      if existsb sets_id kwargs
         && existsb (Z.eqb (id r')) (map id (before ++ after))
      then (Database (before ++ r :: after) n, Ok false)
      else (Database (before ++ r' :: after) n, Ok true)
  | Raise _ => (Database (before ++ r :: after) n, Ok false)
  end.
Proof.
  intros Hne Hpar. unfold update_transaction, execute_update. rewrite Hpar.
  destruct kwargs as [|a kwargs]; [now elim Hne|].
  destruct (forallb binds (a :: kwargs)); [|reflexivity].
  cbn [rows]. rewrite update_rows_own.
  destruct (for_each assign (a :: kwargs) r) as [r'|]; cbn [Py.bind]; [|reflexivity].
  rewrite unique_replaced, negb_involutive.
  destruct (existsb sets_id (a :: kwargs)
            && existsb (Z.eqb (id r')) (map id (before ++ after))); [reflexivity|].
  now rewrite rowcount_one.
Qed.

End OneRow.

(** X12. Deleting one's own row: with the ids of the table apart,
    [delete_transaction] with the id and the owner of a row answers
    [True] and removes that row and no other. *)
Theorem own_row_is_deleted
  (before after : list transacao) (r : transacao) (n : Z) :
  well_keyed (Database (before ++ r :: after) n) ->
  delete_transaction (id r) (username r) (Database (before ++ r :: after) n)
  = (Database (before ++ after) n, true).
Proof. intros Hk. now apply delete_own. Qed.

Lemma own_row_is_deleted_witness :
  delete_transaction 2 "alice" Samples.db0
  = (Database [Samples.linha_de 1 "alice" "receita" 1000 None;
               Samples.linha_de 3 "bob" "despesa" 50 (Some "Pago"%string);
               Samples.linha_de 4 "alice" "despesa" 70 (Some "A Pagar"%string);
               Samples.linha_de 5 "alice" "despesa" 20 (Some "Pago"%string)] 5,
     true).
Proof.
  exact (own_row_is_deleted
           [Samples.linha_de 1 "alice" "receita" 1000 None]
           [Samples.linha_de 3 "bob" "despesa" 50 (Some "Pago"%string);
            Samples.linha_de 4 "alice" "despesa" 70 (Some "A Pagar"%string);
            Samples.linha_de 5 "alice" "despesa" 20 (Some "Pago"%string)]
           (Samples.linha_de 2 "alice" "despesa" 300 (Some "Pago"%string)) 5
           db0_well_keyed).
Defined.

Lemma assign_username a r r' : assign a r = Ok r' -> username r' = username r.
Proof.
  destruct r; destruct a as [v|v|v|v|v|v|v|v|v|v|v|v|v| |]; simpl;
    try destruct v; simpl; try discriminate; intros [= <-]; reflexivity.
Qed.

Lemma for_each_assign_username kwargs r r' :
  for_each assign kwargs r = Ok r' -> username r' = username r.
Proof.
  revert r; induction kwargs as [|a kwargs IH]; intros r; simpl.
  - now intros [= <-].
  - destruct (assign a r) as [r1|] eqn:E; simpl; [|discriminate].
    intros H. rewrite (IH _ H). exact (assign_username a r r1 E).
Qed.

Lemma existsb_eqb_In (i : Z) (l : list Z) : existsb (Z.eqb i) l = true <-> In i l.
Proof.
  rewrite existsb_exists. split.
  - intros (j & Hin & Hj). apply Z.eqb_eq in Hj. now subst j.
  - intros Hin. exists i. split; [exact Hin | apply Z.eqb_refl].
Qed.

(** X13. Updating one's own row is all or nothing: with the ids apart and
    keywords that name columns, [update_transaction] with the id and the
    owner of a row either makes every assignment on that row, leaves its
    owner and every other row as they were (and its id, when no keyword
    is [id]) and answers [True]; or it changes nothing at all and answers
    [False]: when an integer does not fit 64 bits, when a [NOT NULL]
    column or the id would get NULL, and when the new id is the id of
    another row. *)
Theorem own_row_is_updated_all_or_nothing
  (before after : list transacao) (r : transacao) (n : Z)
  (kwargs : list atribuicao) :
  well_keyed (Database (before ++ r :: after) n) ->
  kwargs <> [] ->
  existsb is_parameter kwargs = false ->
  (forall r', forallb binds kwargs = true ->
     for_each assign kwargs r = Ok r' ->
     ~ In (id r') (map id (before ++ after)) ->
     update_transaction (id r) (username r) kwargs (Database (before ++ r :: after) n)
     = (Database (before ++ r' :: after) n, Ok true)
     /\ username r' = username r
     /\ (existsb sets_id kwargs = false -> id r' = id r))
  /\ (forallb binds kwargs = false
      \/ (exists e, for_each assign kwargs r = Raise e)
      \/ (exists r', for_each assign kwargs r = Ok r'
                     /\ In (id r') (map id (before ++ after))) ->
      update_transaction (id r) (username r) kwargs
        (Database (before ++ r :: after) n)
      = (Database (before ++ r :: after) n, Ok false)).
Proof.
  intros Hk Hne Hpar.
  pose proof (update_own before after r n (id r) (username r) Hk eq_refl eq_refl
                kwargs Hne Hpar) as H.
  split.
  - intros r' Hb Hr Hfree. rewrite Hb, Hr in H.
    assert (Hex : existsb (Z.eqb (id r')) (map id (before ++ after)) = false).
    { destruct (existsb (Z.eqb (id r')) (map id (before ++ after))) eqn:E;
        [|reflexivity].
      apply existsb_eqb_In in E. contradiction. }
    rewrite Hex, andb_false_r in H. split; [exact H|].
    split; [now apply for_each_assign_username in Hr|].
    intros Hs. now apply (for_each_assign_id kwargs).
  - intros [Hb|[[e He]|(r' & Hr & Hin)]].
    + now rewrite Hb in H.
    + rewrite He in H. now destruct (forallb binds kwargs).
    + destruct (forallb binds kwargs); [|exact H]. rewrite Hr in H.
      apply existsb_eqb_In in Hin. rewrite Hin, andb_true_r in H.
      destruct (existsb sets_id kwargs) eqn:Es; [exact H|].
      exfalso. apply (for_each_assign_id kwargs r r' Es) in Hr.
      destruct Hk as [Hn _]. cbn [rows] in Hn.
      rewrite map_app in Hn; cbn [map] in Hn. apply NoDup_remove_2 in Hn.
      apply Hn. rewrite <- map_app, <- Hr. now apply existsb_eqb_In.
Qed.

Lemma own_row_is_updated_all_or_nothing_witness :
  update_transaction 2 "alice" [set_valor (Some 1%Q); set_descricao None] Samples.db0
  = (Samples.db0, Ok false)
  /\ update_transaction 2 "alice" [set_id (Some 3)] Samples.db0
     = (Samples.db0, Ok false).
Proof.
  split.
  - exact (proj2 (own_row_is_updated_all_or_nothing
                    [Samples.linha_de 1 "alice" "receita" 1000 None]
                    [Samples.linha_de 3 "bob" "despesa" 50 (Some "Pago"%string);
                     Samples.linha_de 4 "alice" "despesa" 70 (Some "A Pagar"%string);
                     Samples.linha_de 5 "alice" "despesa" 20 (Some "Pago"%string)]
                    (Samples.linha_de 2 "alice" "despesa" 300 (Some "Pago"%string)) 5
                    [set_valor (Some 1%Q); set_descricao None]
                    db0_well_keyed ltac:(discriminate) eq_refl)
                 (or_intror (or_introl (ex_intro _ IntegrityError eq_refl)))).
  - refine (proj2 (own_row_is_updated_all_or_nothing
                    [Samples.linha_de 1 "alice" "receita" 1000 None]
                    [Samples.linha_de 3 "bob" "despesa" 50 (Some "Pago"%string);
                     Samples.linha_de 4 "alice" "despesa" 70 (Some "A Pagar"%string);
                     Samples.linha_de 5 "alice" "despesa" 20 (Some "Pago"%string)]
                    (Samples.linha_de 2 "alice" "despesa" 300 (Some "Pago"%string)) 5
                    [set_id (Some 3)]
                    db0_well_keyed ltac:(discriminate) eq_refl)
                 (or_intror (or_intror (ex_intro _ _ (conj eq_refl _))))).
    simpl. tauto.
Defined.

End OwnRowFacts.

(** ** The summary after a write *)

Module SummaryFacts.

Import Store Listing Totals StoreFacts ListingFacts KeyFacts OwnRowFacts.

Lemma sum_of_amounts_app l1 l2 :
  (sum_of_amounts (l1 ++ l2) == sum_of_amounts l1 + sum_of_amounts l2)%Q.
Proof.
  induction l1 as [|x l1 IH]; simpl; [ring|]. rewrite IH. ring.
Qed.

(** What one row more, anywhere in the table, adds to a total. *)
Lemma total_with_row where_ before r after :
  (or_zero (sql_sum where_ (before ++ r :: after))
   == or_zero (sql_sum where_ (before ++ after))
      + (if where_ r : bool then valor r else 0))%Q.
Proof.
  rewrite !sql_sum_total, !filter_app. simpl.
  destruct (where_ r); rewrite !sum_of_amounts_app; simpl; ring.
Qed.

Lemma total_without_row where_ before r after :
  where_ r = false ->
  sql_sum where_ (before ++ r :: after) = sql_sum where_ (before ++ after).
Proof.
  intros Hw. unfold sql_sum. rewrite !fold_left_app. simpl. now rewrite Hw.
Qed.

Lemma total_with_last where_ l r :
  (or_zero (sql_sum where_ (l ++ [r]))
   == or_zero (sql_sum where_ l) + (if where_ r : bool then valor r else 0))%Q.
Proof. rewrite total_with_row. now rewrite app_nil_r. Qed.

Lemma total_without_last where_ l r :
  where_ r = false -> sql_sum where_ (l ++ [r]) = sql_sum where_ l.
Proof. intros H. rewrite total_without_row by exact H. now rewrite app_nil_r. Qed.

Lemma total_of_filter where_ keep l :
  (forall r, keep r = false -> where_ r = false) ->
  sql_sum where_ (filter keep l) = sql_sum where_ l.
Proof.
  intros H. unfold sql_sum. generalize (@None Q).
  induction l as [|r l IH]; intros acc; simpl; [reflexivity|].
  destruct (keep r) eqn:E; simpl; [apply IH|].
  rewrite (H r E). apply IH.
Qed.

(** X14. What a new row does to the summary of its owner: after
    [add_transaction] has returned, the total of incomes has grown by the
    amount when the row is an income, the total of paid (of unpaid)
    expenses when it is an expense of status ['Pago'] (['A Pagar']), and
    each of the three totals is otherwise the same number as before. *)
Theorem summary_after_add
  (args : campos) (db db' : database) (u t : string) (v : Q) :
  add_transaction args db = Ok db' ->
  a_username args = Some u -> a_valor args = Some v -> a_tipo args = Some t ->
  let '(r0, p0, a0) := get_summary u db in
  let '(r1, p1, a1) := get_summary u db' in
  (r1 == r0 + (if String.eqb t "receita" then v else 0))%Q
  /\ (p1 == p0 + (if String.eqb t "despesa" && eq_str (a_status args) "Pago"
                  then v else 0))%Q
  /\ (a1 == a0 + (if String.eqb t "despesa" && eq_str (a_status args) "A Pagar"
                  then v else 0))%Q.
Proof.
  intros H Hu Hv Ht. apply added_row in H.
  destruct H as (u' & d & de & v' & t' & Hu' & _ & _ & Hv' & Ht' & ->).
  rewrite Hu in Hu'; injection Hu' as <-.
  rewrite Hv in Hv'; injection Hv' as <-.
  rewrite Ht in Ht'; injection Ht' as <-.
  unfold get_summary; simpl rows.
  repeat split; rewrite total_with_last;
    unfold is_receita, is_despesa; simpl; rewrite String.eqb_refl; reflexivity.
Qed.

Lemma summary_after_add_witness :
  match add_transaction Samples.sem_descricao Samples.db0 with
  | Ok db' =>
      (snd (fst (get_summary "alice" db'))
       == snd (fst (get_summary "alice" Samples.db0)) + -5)%Q
  | Raise _ => False
  end.
Proof.
  destruct (add_transaction Samples.sem_descricao Samples.db0) as [db'|e] eqn:E;
    [|discriminate E].
  pose proof (summary_after_add Samples.sem_descricao Samples.db0 db'
                "alice" "despesa" (-5) E eq_refl eq_refl eq_refl) as H.
  destruct (get_summary "alice" Samples.db0) as [[r0 p0] a0].
  destruct (get_summary "alice" db') as [[r1 p1] a1].
  exact (proj1 (proj2 H)).
Defined.

(** X15. The summary of an owner is closed to the others: a row that
    somebody else adds, and whatever somebody else deletes, leaves each of
    the owner's three totals as it was. *)
Theorem summary_ignores_other_owners
  (u other : string) (args : campos) (db : database) (i : Z) :
  other <> u ->
  (forall db', add_transaction args db = Ok db' ->
     a_username args = Some other ->
     get_summary u db' = get_summary u db)
  /\ get_summary u (fst (delete_transaction i other db)) = get_summary u db.
Proof.
  intros Hne. split.
  - intros db' H Ho. apply added_row in H.
    destruct H as (u' & d & de & v & t & Hu' & _ & _ & _ & _ & ->).
    rewrite Ho in Hu'; injection Hu' as <-.
    assert (Hn : String.eqb other u = false) by now apply String.eqb_neq.
    unfold get_summary; simpl rows.
    rewrite !total_without_last; try reflexivity;
      unfold is_despesa, is_receita; simpl; now rewrite Hn.
  - unfold get_summary, delete_transaction; simpl rows.
    assert (Hk : forall where_,
               (forall r, where_ r = true -> username r = u) ->
               sql_sum where_ (filter (fun r => negb (matches i other r)) (rows db))
               = sql_sum where_ (rows db)).
    { intros where_ Hw. apply total_of_filter. intros r Hr.
      apply negb_false_iff in Hr. unfold matches in Hr.
      apply andb_prop in Hr. destruct Hr as [_ Hr]. apply String.eqb_eq in Hr.
      destruct (where_ r) eqn:E; [|reflexivity].
      apply Hw in E. congruence. }
    rewrite !Hk; try reflexivity; intros r Hr;
      unfold is_despesa, is_receita in Hr;
      repeat (apply andb_prop in Hr; destruct Hr as [Hr ?]);
      now apply String.eqb_eq.
Qed.

Lemma summary_ignores_other_owners_witness :
  get_summary "alice" (fst (delete_transaction 3 "bob" Samples.db0))
  = get_summary "alice" Samples.db0.
Proof.
  apply (proj2 (summary_ignores_other_owners
                  "alice" "bob" Samples.sem_descricao Samples.db0 3
                  ltac:(discriminate))).
Defined.

(** The scan of [SUM] reads the amounts of the rows it selects, in the
    order of the table. *)
Lemma sql_sum_in_order where_ l :
  or_zero (sql_sum where_ l) = total (map valor (filter where_ l)).
Proof.
  unfold sql_sum, total. generalize (@None Q).
  induction l as [|r l IH]; intros acc; simpl; [reflexivity|].
  destruct (where_ r); simpl; apply IH.
Qed.

Lemma filter_middle {A : Type} (f : A -> bool) (l1 l2 : list A) (x : A) :
  filter f (l1 ++ x :: l2)
  = filter f l1 ++ (if f x then [x] else []) ++ filter f l2.
Proof. rewrite filter_app. simpl. now destruct (f x). Qed.

(** X16. Paying an expense: [update_transaction] with [status='Pago'] on
    one's own expense of status ['A Pagar'] answers [True]; the amount
    leaves the sum of the unpaid expenses and enters the sum of the paid
    ones at the place of the row in the table, every other amount stays
    in its sum at its place, and the total of incomes is the same
    number. *)
Theorem paying_an_expense_moves_its_amount
  (before after : list transacao) (r : transacao) (n : Z) :
  well_keyed (Database (before ++ r :: after) n) ->
  tipo r = "despesa"%string ->
  status r = Some "A Pagar"%string ->
  let db := Database (before ++ r :: after) n in
  let res := update_transaction (id r) (username r)
                                [set_status (Some "Pago"%string)] db in
  let paid l := map valor (filter (is_despesa (username r) "Pago") l) in
  let unpaid l := map valor (filter (is_despesa (username r) "A Pagar") l) in
  snd res = Ok true
  /\ let '(r0, p0, a0) := get_summary (username r) db in
     let '(r1, p1, a1) := get_summary (username r) (fst res) in
     r1 = r0
     /\ p0 = total (paid before ++ paid after)
     /\ p1 = total (paid before ++ valor r :: paid after)
     /\ a0 = total (unpaid before ++ valor r :: unpaid after)
     /\ a1 = total (unpaid before ++ unpaid after).
Proof.
  intros Hk Ht Hs db res paid unpaid.
  set (r' := Transacao (id r) (data r) (descricao r) (valor r) (tipo r)
               (categoria r) (username r) (responsavel r) (banco r)
               (forma_recebimento r) (datas_parcelas_receita r) (recorrente r)
               (vezes_recorrencia r) (Some "Pago"%string)).
  assert (Hr' : for_each assign [set_status (Some "Pago"%string)] r = Ok r')
    by now destruct r.
  assert (Hres : res = (Database (before ++ r' :: after) n, Ok true)).
  { unfold res, db.
    rewrite (update_own before after r n (id r) (username r) Hk eq_refl eq_refl
               [set_status (Some "Pago"%string)] ltac:(discriminate) eq_refl).
    cbn [forallb binds andb]. rewrite Hr'. reflexivity. }
  rewrite Hres. split; [reflexivity|].
  unfold get_summary, db; cbn [rows fst].
  rewrite !sql_sum_in_order, !filter_middle, !map_app.
  unfold is_receita, is_despesa; cbn [username tipo status r'].
  rewrite Ht, Hs, String.eqb_refl. cbn [String.eqb Ascii.eqb Bool.eqb andb eq_str].
  repeat split.
Qed.

Lemma paying_an_expense_moves_its_amount_witness :
  snd (update_transaction 4 "alice" [set_status (Some "Pago"%string)] Samples.db0)
  = Ok true.
Proof.
  exact (proj1 (paying_an_expense_moves_its_amount
                  [Samples.linha_de 1 "alice" "receita" 1000 None;
                   Samples.linha_de 2 "alice" "despesa" 300 (Some "Pago"%string);
                   Samples.linha_de 3 "bob" "despesa" 50 (Some "Pago"%string)]
                  [Samples.linha_de 5 "alice" "despesa" 20 (Some "Pago"%string)]
                  (Samples.linha_de 4 "alice" "despesa" 70 (Some "A Pagar"%string)) 5
                  db0_well_keyed eq_refl eq_refl)).
Defined.

End SummaryFacts.

(** ** More on the projection *)

Module WindowFacts.

Import PyFacts DictFacts RowFacts ProjectionFacts TextFacts Window.

Lemma keys_compute_saldos d : keys (compute_saldos d) = keys d.
Proof.
  rewrite compute_saldos_map. unfold keys. rewrite map_map. now apply map_ext.
Qed.

Lemma keys_for_each today ty df d d' :
  for_each (process_row today ty) df d = Ok d' -> keys d' = keys d.
Proof.
  revert d; induction df as [|row df IH]; intros d; simpl.
  - now intros [= <-].
  - rewrite process_row_expand.
    destruct (expand today ty (keys d) row) as [cs|]; simpl; [|discriminate].
    intros H. rewrite (IH _ H). apply keys_post_all.
Qed.

Lemma next_month_add_months today j :
  valid_date today = true ->
  strftime_Ym (add_months today (j + 1))
  = next_month (strftime_Ym (add_months today j)).
Proof.
  intros _. unfold next_month, strftime_Ym, add_months; simpl.
  set (t := year today * 12 + (month today - 1)).
  replace (t + (j + 1)) with (t + j + 1) by ring.
  destruct (Z.eqb_spec ((t + j) mod 12 + 1) 12) as [E|E]; f_equal;
    Z.div_mod_to_equations; lia.
Qed.

(** X17. The shape of the series: whatever the rows, a projection that
    returns has four buckets, the month of today and the three months
    that follow it, in this order. *)
Theorem series_is_the_four_months (today : date) (df : list linha) (series : dict) :
  valid_date today = true ->
  projection today df = Ok series ->
  let k0 := strftime_Ym today in
  keys series
  = [k0; next_month k0; next_month (next_month k0);
     next_month (next_month (next_month k0))].
Proof.
  intros Hv H k0. unfold projection in H.
  apply bind_Ok in H. destruct H as (d & Hd & H). injection H as <-.
  rewrite keys_compute_saldos, (keys_for_each _ _ _ _ _ Hd), initial_window.
  unfold keys; cbn [map fst].
  pose proof (next_month_add_months today 0 Hv) as E1.
  pose proof (next_month_add_months today 1 Hv) as E2.
  pose proof (next_month_add_months today 2 Hv) as E3.
  cbn [Z.add Pos.add] in E1, E2, E3.
  rewrite E3, E2, E1.
  now rewrite <- (strftime_Ym_this_month today today Hv eq_refl eq_refl).
Qed.

Lemma series_is_the_four_months_witness :
  exists series,
    projection (Date 2024 11 30) [Samples.salario] = Ok series
    /\ keys series = [(2024, 11); (2024, 12); (2025, 1); (2025, 2)].
Proof.
  eexists. split; [vm_compute; reflexivity|].
  exact (series_is_the_four_months (Date 2024 11 30) [Samples.salario] _
           eq_refl eq_refl).
Defined.

(** Whatever is in the window is not before the first of this month. *)
Lemma in_window_not_before today d :
  valid_date today = true -> valid_date d = true ->
  in_window (keys (initial today)) (strftime_Ym d) = true ->
  date_leb (replace_day today 1) d = true.
Proof.
  intros Hv Hd Hin.
  unfold valid_date in Hv, Hd.
  repeat (apply andb_prop in Hv; destruct Hv as [Hv ?]).
  repeat (apply andb_prop in Hd; destruct Hd as [Hd ?]).
  repeat match goal with
         | Hl : (_ <=? _) = true |- _ => apply Z.leb_le in Hl
         end.
  rewrite initial_window in Hin. unfold in_window, keys in Hin.
  cbn [map fst existsb] in Hin.
  assert (Hj : exists j, 0 <= j <= 3
                 /\ month_key_eqb (strftime_Ym d) (strftime_Ym (add_months today j))
                    = true).
  { repeat (apply orb_prop in Hin; destruct Hin as [Hin|Hin];
            [eexists; split; [|exact Hin]; lia|]).
    discriminate. }
  destruct Hj as (j & Hj & Hk).
  unfold month_key_eqb, strftime_Ym, add_months in Hk; simpl in Hk.
  apply andb_prop in Hk. destruct Hk as [Hy Hm].
  apply Z.eqb_eq in Hy, Hm.
  unfold date_leb, date_ltb, replace_day; simpl.
  apply negb_true_iff.
  set (t := year today * 12 + (month today - 1)) in *.
  assert (Ht : year d * 12 + (month d - 1) = t + j)
    by (Z.div_mod_to_equations; lia).
  apply orb_false_intro.
  - apply Z.ltb_ge. subst t. lia.
  - destruct (Z.eqb_spec (year d) (year today)) as [E|]; [|reflexivity]. simpl.
    apply orb_false_intro.
    + apply Z.ltb_ge. subst t. lia.
    + apply andb_false_intro2. apply Z.ltb_ge. lia.
Qed.

(** X18. Paid or not: in the projection of [financas8.py] the test on the
    date of a paid expense never decides.  In a dict that has the months
    of the window, an expense of status ['Pago'] posts exactly what the
    same expense with status ['A Pagar'] posts. *)
Theorem paid_expense_posts_like_unpaid
  (today : date) (ty : dtype) (row : linha) (d : dict) :
  valid_date today = true ->
  valid_date (Data row) = true ->
  keys d = keys (initial today) ->
  Tipo row = "despesa"%string ->
  Status row = Some "Pago"%string ->
  process_row today ty row d
  = process_row today ty (with_status (Some "A Pagar"%string) row) d.
Proof.
  intros Hv Hd Hk Ht Hs.
  rewrite !process_row_expand.
  unfold expand, installments, occurrences, own_month, with_status; simpl.
  rewrite Ht, Hs; simpl.
  destruct (in_window (keys d) (strftime_Ym (Data row))) eqn:E.
  - rewrite Hk in E. now rewrite (in_window_not_before today (Data row) Hv Hd E).
  - now rewrite andb_false_r.
Qed.

Lemma paid_expense_posts_like_unpaid_witness :
  process_row Samples.today0 object Samples.aluguel (initial Samples.today0)
  = process_row Samples.today0 object
      (with_status (Some "A Pagar"%string) Samples.aluguel)
      (initial Samples.today0).
Proof.
  exact (paid_expense_posts_like_unpaid Samples.today0 object Samples.aluguel
           (initial Samples.today0) eq_refl eq_refl eq_refl eq_refl eq_refl).
Defined.

(** X19. A count of one: an expense marked ['Sim'] whose count is one or
    less is projected like an expense that does not repeat; it posts its
    own month at most and raises nothing, whatever the column of the
    counts was read as. *)
Theorem count_of_one_does_not_repeat
  (today : date) (ty : dtype) (row : linha) (n : Z) (d : dict) :
  Tipo row = "despesa"%string ->
  Recorrente row = Some "Sim"%string ->
  Vezes_Recorrencia row = Some n ->
  n <= 1 ->
  process_row today ty row d
  = Ok (if (eq_str (Status row) "A Pagar"
            || eq_str (Status row) "Pago"
               && date_leb (replace_day today 1) (Data row))
           && contains (strftime_Ym (Data row)) d
        then iadd_Despesas (strftime_Ym (Data row)) (Valor row) d
        else d).
Proof.
  intros Ht Hr Hv Hn.
  rewrite process_row_expand.
  unfold expand, installments, occurrences, own_month.
  rewrite Ht, Hr, Hv. simpl.
  assert (Hgt : (1 <? n) = false) by now apply Z.ltb_ge.
  change (contains (strftime_Ym (Data row)) d)
    with (in_window (keys d) (strftime_Ym (Data row))).
  destruct ty; simpl; rewrite Hgt; simpl; rewrite app_nil_r;
    now destruct ((eq_str (Status row) "A Pagar"
                   || eq_str (Status row) "Pago"
                      && date_leb (replace_day today 1) (Data row))
                  && in_window (keys d) (strftime_Ym (Data row))).
Qed.

Lemma count_of_one_does_not_repeat_witness :
  exists d',
    process_row Samples.today0 int64
      (Samples.despesa_de (Date 2024 1 10) 100 "Sim" (Some 1) "A Pagar")
      (initial Samples.today0) = Ok d'.
Proof.
  eexists.
  exact (count_of_one_does_not_repeat Samples.today0 int64
           (Samples.despesa_de (Date 2024 1 10) 100 "Sim" (Some 1) "A Pagar")
           1 (initial Samples.today0) eq_refl eq_refl eq_refl ltac:(lia)).
Defined.

End WindowFacts.

(** ** Rows of the form are always projected *)

Module FormRowFacts.

Import PyFacts DictFacts RowFacts ProjectionFacts TextFacts Window WindowFacts.

Lemma parse_dates_strftime dates :
  Forall (fun d => valid_date d = true) dates ->
  parse_dates (map strftime_Ymd dates) = Ok dates.
Proof.
  induction 1 as [|d dates Hd _ IH]; simpl; [reflexivity|].
  now rewrite (strptime_strftime d Hd), IH.
Qed.

Lemma dumped_dates_plain dates :
  forallb Json.plain (map strftime_Ymd dates) = true.
Proof.
  apply forallb_forall. intros s Hs. apply in_map_iff in Hs.
  destruct Hs as (d & <- & _). apply strftime_Ymd_plain.
Qed.

Lemma form_income_expands today ty window row :
  form_income row -> exists cs, expand today ty window row = Ok cs.
Proof.
  intros [Ht Hd]. unfold expand, installments, occurrences.
  rewrite Ht. simpl String.eqb. cbn [andb].
  destruct Hd as [Hd | (dates & Hv & Hd)]; rewrite Hd.
  - simpl. rewrite andb_false_r. simpl. eauto.
  - destruct (not_in (Forma_Recebimento row) ["Parcela Única"; "Mais de 6x"]%string
              && truthy (Some (Json.dumps (map strftime_Ymd dates))));
      [|simpl; eauto].
    cbn [text_of]. rewrite (loads_dumps _ (dumped_dates_plain dates)).
    cbn [Py.bind]. rewrite (parse_dates_strftime dates Hv). simpl. eauto.
Qed.

Lemma single_expense_expands today ty window row :
  single_expense row -> exists cs, expand today ty window row = Ok cs.
Proof.
  intros [Ht Hr]. unfold expand, installments, occurrences.
  rewrite Ht. simpl String.eqb. cbn [andb Py.bind].
  destruct Hr as [Hr | (n & Hn & Hle)].
  - rewrite Hr. simpl. eauto.
  - rewrite Hn. assert (Hgt : (1 <? n) = false) by now apply Z.ltb_ge.
    destruct (eq_str (Recorrente row) "Sim"); [|simpl; eauto].
    destruct ty; simpl; rewrite Hgt; simpl; eauto.
Qed.

Lemma no_row_raises today ty window df :
  Forall (fun row => form_income row \/ single_expense row) df ->
  existsb (raises today ty window) df = false.
Proof.
  induction 1 as [|row l Hrow _ IH]; simpl; [reflexivity|].
  rewrite IH, orb_false_r. unfold raises.
  destruct Hrow as [Hi | He].
  - now destruct (form_income_expands today ty window row Hi) as (cs & ->).
  - now destruct (single_expense_expands today ty window row He) as (cs & ->).
Qed.

(** X20. Rows of the form are always projected: a frame in which every
    income has no dates or the dates its date inputs wrote, and every
    expense is not recurring or recurs once, is projected without an
    exception, and so is shown. *)
Theorem form_rows_are_projected (today : date) (df : list linha) :
  Forall (fun row => form_income row \/ single_expense row) df ->
  (exists series, projection today df = Ok series)
  /\ (exists s, render_detailed_analysis_section today df = Ok s).
Proof.
  intros H.
  assert (Hp : exists series, projection today df = Ok series).
  { pose proof (returned_projection today df) as Hr.
    rewrite (no_row_raises _ _ _ _ H) in Hr.
    destruct (projection today df) as [series|]; [eauto | discriminate]. }
  split; [exact Hp|].
  destruct Hp as (series & Hs). unfold render_detailed_analysis_section.
  destruct df; [eauto|]. rewrite Hs. simpl. eauto.
Qed.

Lemma form_rows_are_projected_witness :
  exists series,
    projection Samples.today0 [Samples.venda; Samples.aluguel] = Ok series.
Proof.
  apply (form_rows_are_projected Samples.today0
           [Samples.venda; Samples.aluguel]).
  constructor; [|constructor; [|constructor]].
  - left. split; [reflexivity|]. right.
    exists [Date 2024 2 5; Date 2024 3 5].
    split; [|reflexivity].
    constructor; [reflexivity | constructor; [reflexivity | constructor]].
  - right. split; [reflexivity|]. left. reflexivity.
Defined.

End FormRowFacts.

(** ** What a series adds up to *)

Module TotalFacts.

Import PyFacts DictFacts RowFacts ProjectionFacts TextFacts Window WindowFacts.




Lemma total_iadd_Despesas k v d :
  total_Receitas (iadd_Despesas k v d) = total_Receitas d.
Proof.
  unfold iadd_Despesas, update.
  induction d as [|[k' b] d IH]; simpl; [reflexivity|].
  rewrite IH. now destruct (month_key_eqb k k').
Qed.





End TotalFacts.

(** ** The two versions of the projection, and the form read back *)

Module VersionFacts.

Import PyFacts DictFacts RowFacts ProjectionFacts TextFacts Window Versions.

Lemma keys_process_row today ty row d d' :
  process_row today ty row d = Ok d' -> keys d' = keys d.
Proof.
  rewrite process_row_expand.
  destruct (expand today ty (keys d) row) as [cs|]; [|discriminate].
  intros [= <-]. apply keys_post_all.
Qed.

Lemma plan_in_both (o : option string) :
  Projection5.in_list o ["2x"; "3x"; "Parcela Única"; "Mais de 6x"]%string = true ->
  Projection5.in_list o ["2x"; "3x"]%string
  = not_in o ["Parcela Única"; "Mais de 6x"]%string.
Proof.
  destruct o as [f|]; [|discriminate].
  unfold Projection5.in_list, not_in, eq_str; cbn [existsb].
  destruct (String.eqb_spec f "2x") as [->|_]; [reflexivity|].
  destruct (String.eqb_spec f "3x") as [->|_]; [reflexivity|].
  destruct (String.eqb_spec f "Parcela Única") as [->|_]; [reflexivity|].
  destruct (String.eqb_spec f "Mais de 6x") as [->|_]; [reflexivity|].
  discriminate.
Qed.

Lemma process_row_common today ty row d :
  valid_date today = true ->
  keys d = keys (initial today) ->
  common row = true ->
  Projection5.process_row today ty row d = process_row today ty row d.
Proof.
  intros Hv Hk Hc. unfold common in Hc.
  apply andb_prop in Hc. destruct Hc as [Hd Hc].
  unfold Projection5.process_row, process_row.
  destruct (String.eqb (Tipo row) "receita").
  - unfold Projection5.receita, receita, trans_month_key, trans_date.
    destruct (truthy (Datas_Parcelas_Receita row)).
    + simpl in Hc. now rewrite (plan_in_both _ Hc).
    + now rewrite !andb_false_r.
  - destruct (String.eqb (Tipo row) "despesa"); [|reflexivity].
    unfold Projection5.despesa, despesa, trans_month_key, trans_date.
    cbv zeta.
    replace (if eq_str (Status row) "A Pagar"
                && contains (strftime_Ym (Data row)) d
             then iadd_Despesas (strftime_Ym (Data row)) (Valor row) d
             else if eq_str (Status row) "Pago"
                     && date_leb (replace_day today 1) (Data row)
                     && contains (strftime_Ym (Data row)) d
             then iadd_Despesas (strftime_Ym (Data row)) (Valor row) d
             else d)
      with (if contains (strftime_Ym (Data row)) d
            then iadd_Despesas (strftime_Ym (Data row)) (Valor row) d
            else d); [reflexivity|].
    destruct (contains (strftime_Ym (Data row)) d) eqn:E.
    + unfold contains in E. rewrite Hk in E.
      rewrite (WindowFacts.in_window_not_before today (Data row) Hv Hd E).
      rewrite !andb_true_r.
      destruct (eq_str (Status row) "A Pagar"); [reflexivity|].
      simpl in Hc. now rewrite Hc.
    + now rewrite !andb_false_r.
Qed.

Lemma for_each_common today ty df d :
  valid_date today = true ->
  keys d = keys (initial today) ->
  forallb common df = true ->
  for_each (Projection5.process_row today ty) df d
  = for_each (process_row today ty) df d.
Proof.
  intros Hv. revert d. induction df as [|row df IH]; intros d Hk Hc; [reflexivity|].
  simpl in Hc. apply andb_prop in Hc. destruct Hc as [Hr Hc].
  simpl. rewrite (process_row_common today ty row d Hv Hk Hr).
  destruct (process_row today ty row d) as [d'|e] eqn:E; [|reflexivity].
  simpl. apply IH; [|exact Hc].
  now rewrite (keys_process_row _ _ _ _ _ E).
Qed.

(** X22. The two versions project alike: on a frame whose incomes have no
    dates or one of the plans ['2x'], ['3x'], ['Parcela Única'],
    ['Mais de 6x'], and whose expenses have the status ['A Pagar'] or
    ['Pago'], the loop of [financas5.py] and the loop of [financas8.py]
    give the same series, or raise the same exception. *)
Theorem the_two_projections_agree (today : date) (df : list linha) :
  valid_date today = true ->
  forallb common df = true ->
  Projection5.projection today df = projection today df.
Proof.
  intros Hv Hc. unfold Projection5.projection, projection.
  now rewrite (for_each_common today (vezes_dtype df) df (initial today) Hv eq_refl Hc).
Qed.

Lemma the_two_projections_agree_witness :
  Projection5.projection Samples.today0
    [Samples.salario; Samples.aluguel; Samples.venda]
  = projection Samples.today0 [Samples.salario; Samples.aluguel; Samples.venda].
Proof.
  exact (the_two_projections_agree Samples.today0
           [Samples.salario; Samples.aluguel; Samples.venda] eq_refl eq_refl).
Defined.

(** A count read off a plan is not negative. *)
Lemma number_of_nonneg s : forall acc n,
  0 <= acc -> number_of acc s = Some n -> 0 <= n.
Proof.
  induction s as [|c s IH]; intros acc n Ha; simpl.
  - now intros [= <-].
  - destruct (digit_of c) as [k|] eqn:Ek; [|discriminate].
    apply IH. unfold digit_of in Ek.
    destruct (_ && _) eqn:Eb in Ek; [|discriminate].
    injection Ek as <-. apply andb_prop in Eb. destruct Eb as [E1 E2].
    apply Z.leb_le in E1. lia.
Qed.

Lemma num_parcelas_nonneg forma n : Form.num_parcelas forma = Ok n -> 0 <= n.
Proof.
  unfold Form.num_parcelas, Form.int.
  destruct (Form.replace_x forma) as [|c s] eqn:E; [discriminate|].
  destruct (number_of 0 (String c s)) as [k|] eqn:Ek; [|discriminate].
  intros [= <-]. now apply (number_of_nonneg (String c s) 0 k).
Qed.

(** X23. What the form writes, the projection reads: an income stored with
    a plan that counts [n] installments and with the dates column of the
    [n] date inputs is read back without an exception.  The months of
    the series stay, and the bucket of a month [k] has afterwards the
    income it had, plus the amount when [k] is the month of the date of
    the row, plus the [n]-th part of the amount once for every date
    input of the month [k] that lies after today; its expenses and its
    balance are as they were. *)
Theorem form_dates_are_projected
  (today : date) (ty : dtype) (row : linha) (forma : string) (n : Z)
  (parcel_date : Z -> date) (d : dict) :
  Tipo row = "receita"%string ->
  Forma_Recebimento row = Some forma ->
  Form.num_parcelas forma = Ok n ->
  (forall i, valid_date (parcel_date i) = true) ->
  Datas_Parcelas_Receita row = Form.datas_parcelas_json forma parcel_date ->
  let inputs := map (fun i => parcel_date (Z.of_nat i)) (List.seq 1 (Z.to_nat n)) in
  exists d',
    process_row today ty row d = Ok d'
    /\ d' = post_all
              (own_month today (keys d) row
               ++ map (installment row n) (filter (to_come today (keys d)) inputs))
              d
    /\ keys d' = keys d
    /\ forall k b,
         getitem k d = Some b ->
         getitem k d'
         = Some (Bucket
                   (add_times (List.length (due_in today k inputs))
                              (Valor row / inject_Z n)
                              (if month_key_eqb (strftime_Ym (Data row)) k
                               then (Receitas b + Valor row)%Q else Receitas b))
                   (Despesas b) (Saldo b)).
Proof.
  intros Ht Hf Hn Hv Hd inputs.
  destruct (form_dates_are_read_back forma parcel_date n Hn Hv)
    as (s & strs & Hs & Hl & Hp & Hlen).
  assert (Hcount : Z.of_nat (List.length inputs) = n).
  { unfold inputs. rewrite length_map, length_seq.
    apply Z2Nat.id. exact (num_parcelas_nonneg forma n Hn). }
  rewrite Hs in Hd.
  eexists. split;
    [exact (process_row_installments today ty row forma n s strs inputs d
              Ht Hf Hn Hd Hl Hp Hcount)|].
  split; [reflexivity|]. split; [apply keys_post_all|].
  intros k b Hb.
  exact (BucketFacts.getitem_income today row n inputs d k b Ht Hb).
Qed.

Lemma form_dates_are_projected_witness :
  exists d',
    process_row Samples.today0 object
      (form_receita (Date 2024 1 8) 900 "3x" monthly)
      (initial Samples.today0) = Ok d'
    /\ getitem (2024, 1) d' = Some (Bucket (900 + 900 / 3) 0 0)
    /\ getitem (2024, 2) d' = Some (Bucket (900 / 3) 0 0)
    /\ getitem (2024, 3) d' = Some (Bucket (900 / 3) 0 0)
    /\ getitem (2024, 4) d' = Some (Bucket 0 0 0).
Proof.
  assert (Hv : forall i, valid_date (monthly i) = true).
  { intros i. unfold monthly.
    destruct (i =? 1); [reflexivity|]. destruct (i =? 2); reflexivity. }
  destruct (form_dates_are_projected Samples.today0 object
              (form_receita (Date 2024 1 8) 900 "3x" monthly)
              "3x" 3 monthly (initial Samples.today0)
              eq_refl eq_refl eq_refl Hv eq_refl)
    as (d' & Hrun & _ & _ & Hb).
  exists d'. split; [exact Hrun|].
  split; [exact (Hb (2024, 1) (Bucket 0 0 0) eq_refl)|].
  split; [exact (Hb (2024, 2) (Bucket 0 0 0) eq_refl)|].
  split; [exact (Hb (2024, 3) (Bucket 0 0 0) eq_refl)|].
  exact (Hb (2024, 4) (Bucket 0 0 0) eq_refl).
Defined.

End VersionFacts.

(** ** A deleted row is gone *)

Module DeleteFacts.

Import Store Listing.




End DeleteFacts.

(** ** The order of the frame *)

Module OrderFacts.

Import Store Listing TextFacts.

Lemma append_nil_r s : (s ++ "")%string = s.
Proof. induction s as [|c s IH]; simpl; [reflexivity | now rewrite IH]. Qed.

Lemma digit_compare a b :
  0 <= a <= 9 -> 0 <= b <= 9 ->
  Ascii.compare (digit_char a) (digit_char b) = (a ?= b).
Proof.
  intros Ha. revert b. revert a Ha.
  apply (each_digit (fun a => forall b, 0 <= b <= 9 ->
           Ascii.compare (digit_char a) (digit_char b) = (a ?= b))).
  intros j Hj.
  apply (each_digit (fun b =>
           Ascii.compare (digit_char (Z.of_nat j)) (digit_char b) = (Z.of_nat j ?= b))).
  intros k Hk.
  do 10 (destruct j as [|j];
         [do 10 (destruct k as [|k]; [reflexivity|]); lia|]).
  lia.
Qed.

Lemma two_digits_mod n : 0 <= n -> two_digits n = two_digits (n mod 100).
Proof.
  intros Hn. unfold two_digits. f_equal; [|f_equal]; f_equal;
    Z.div_mod_to_equations; lia.
Qed.

Lemma two_digits_compare a b r1 r2 :
  0 <= a <= 99 -> 0 <= b <= 99 ->
  String.compare (two_digits a ++ r1) (two_digits b ++ r2)
  = match a ?= b with
    | Eq => String.compare r1 r2
    | c => c
    end.
Proof.
  intros Ha Hb. unfold two_digits. cbn [append String.compare].
  rewrite !digit_compare by (Z.div_mod_to_equations; lia).
  destruct (Z.compare_spec (a / 10 mod 10) (b / 10 mod 10)) as [E1|E1|E1];
    destruct (Z.compare_spec (a mod 10) (b mod 10)) as [E2|E2|E2];
    destruct (Z.compare_spec a b) as [E|E|E];
    try reflexivity; exfalso; Z.div_mod_to_equations; lia.
Qed.

Lemma days_in_month_le y m : days_in_month y m <= 31.
Proof.
  unfold days_in_month.
  destruct (m =? 2); [destruct (is_leap y); lia|].
  destruct ((m =? 4) || (m =? 6) || (m =? 9) || (m =? 11)); lia.
Qed.

Lemma dash_compare r1 r2 :
  String.compare ("-" ++ r1) ("-" ++ r2) = String.compare r1 r2.
Proof. reflexivity. Qed.

Lemma strftime_Ymd_order a b :
  valid_date a = true -> valid_date b = true ->
  String.leb (strftime_Ymd a) (strftime_Ymd b) = date_leb a b.
Proof.
  intros Ha Hb. unfold valid_date in Ha, Hb.
  repeat (apply andb_prop in Ha; destruct Ha as [Ha ?]).
  repeat (apply andb_prop in Hb; destruct Hb as [Hb ?]).
  repeat match goal with
         | Hl : (_ <=? _) = true |- _ => apply Z.leb_le in Hl
         end.
  assert (Hda : day a <= 31).
  { pose proof (days_in_month_le (year a) (month a)). lia. }
  assert (Hdb : day b <= 31).
  { pose proof (days_in_month_le (year b) (month b)). lia. }
  unfold String.leb, strftime_Ymd.
  rewrite (two_digits_mod (year a)), (two_digits_mod (year b)) by lia.
  rewrite two_digits_compare by (Z.div_mod_to_equations; lia).
  rewrite two_digits_compare by (Z.div_mod_to_equations; lia).
  rewrite dash_compare.
  rewrite two_digits_compare by lia.
  rewrite dash_compare.
  rewrite <- (append_nil_r (two_digits (day a))), <- (append_nil_r (two_digits (day b))).
  rewrite two_digits_compare by lia.
  cbn [String.compare].
  unfold date_leb, date_ltb.
  destruct (Z.compare_spec (year a / 100) (year b / 100)) as [E1|E1|E1];
    [destruct (Z.compare_spec (year a mod 100) (year b mod 100)) as [E2|E2|E2];
     [destruct (Z.compare_spec (month a) (month b)) as [E3|E3|E3];
      [destruct (Z.compare_spec (day a) (day b)) as [E4|E4|E4]|..]|..]|..];
    symmetry;
    repeat match goal with
           | |- context [?x <? ?y] => destruct (Z.ltb_spec x y)
           | |- context [?x =? ?y] => destruct (Z.eqb_spec x y)
           end; simpl; try reflexivity; exfalso; Z.div_mod_to_equations; lia.
Qed.

Lemma to_datetime_Ok s d :
  to_datetime s = Ok d -> valid_date d = true /\ strftime_Ymd d = s.
Proof.
  unfold to_datetime, strptime_Ymd.
  destruct (split_dash EmptyString s) as [|fy [|fm [|fd [|? ?]]]];
    try discriminate.
  destruct (field_Y fy) as [y|]; [|discriminate].
  destruct (field_m fm) as [m|]; [|discriminate].
  destruct (field_d fd) as [d0|]; [|discriminate].
  destruct (valid_date (Date y m d0)) eqn:Ev; [|discriminate].
  cbn [Py.bind].
  destruct (String.eqb_spec (strftime_Ymd (Date y m d0)) s) as [E|];
    [|discriminate].
  destruct (in_ns_bounds (Date y m d0)); [|discriminate].
  intros [= <-]. now split.
Qed.

Lemma to_linha_Ok r x :
  to_linha r = Ok x -> valid_date (Data x) = true /\ strftime_Ymd (Data x) = data r.
Proof.
  unfold to_linha. destruct (to_datetime (data r)) as [d|] eqn:E; [|discriminate].
  intros [= <-]. exact (to_datetime_Ok _ _ E).
Qed.

Lemma data_frame_Sorted l : forall df,
  Sorted later_first l -> data_frame l = Ok df -> Sorted newer_first df.
Proof.
  induction l as [|r l IH]; intros df Hs; simpl.
  - intros [= <-]. constructor.
  - destruct (to_linha r) as [x|] eqn:Ex; [|discriminate].
    destruct (data_frame l) as [df'|] eqn:El; [|discriminate].
    intros [= <-]. inversion Hs as [|? ? Hs' Hhd]; subst.
    constructor; [now apply IH|].
    destruct l as [|r2 l]; simpl in El.
    + injection El as <-. constructor.
    + destruct (to_linha r2) as [x2|] eqn:Ex2; [|discriminate].
      destruct (data_frame l) as [df2|]; [|discriminate].
      injection El as <-. constructor.
      inversion Hhd as [|? ? Hlt]; subst. unfold later_first in Hlt.
      apply to_linha_Ok in Ex, Ex2.
      destruct Ex as [Hv E], Ex2 as [Hv2 E2].
      unfold newer_first. rewrite <- (strftime_Ymd_order _ _ Hv2 Hv).
      now rewrite E, E2.
Qed.

Lemma date_ltb_lt a b :
  date_ltb a b = true
  <-> year a < year b
      \/ (year a = year b
          /\ (month a < month b \/ (month a = month b /\ day a < day b))).
Proof.
  unfold date_ltb.
  repeat (rewrite orb_true_iff || rewrite andb_true_iff).
  rewrite !Z.ltb_lt, !Z.eqb_eq. tauto.
Qed.

Lemma newer_first_trans a b c :
  newer_first a b -> newer_first b c -> newer_first a c.
Proof.
  unfold newer_first, date_leb. rewrite !negb_true_iff, <- !not_true_iff_false.
  rewrite !date_ltb_lt. lia.
Qed.

Lemma head_before_rest {A : Type} (R : A -> A -> Prop) (l : list A) :
  StronglySorted R l ->
  forall n x y, In x (firstn n l) -> In y (skipn n l) -> R x y.
Proof.
  induction 1 as [|a l Hs IH Ha]; intros n x y Hx Hy.
  - destruct n; destruct Hx.
  - destruct n as [|n]; [destruct Hx|].
    simpl in Hx, Hy. destruct Hx as [<-|Hx].
    + rewrite Forall_forall in Ha. apply Ha.
      rewrite <- (firstn_skipn n l). apply in_or_app. now right.
    + now apply (IH n).
Qed.

(** X25. Latest first: in the frame the pages work on every row is dated
    on or after every row that follows it, so the ten rows under
    [Últimas Transações] are dated on or after every row that is not
    shown there. *)
Theorem latest_rows_come_first (u : string) (db : database) (df : list linha) :
  df_all_transactions u db = Ok df ->
  StronglySorted newer_first df
  /\ forall x y, In x (ultimas df) -> In y (skipn 10 df) ->
                 date_leb (Data y) (Data x) = true.
Proof.
  intros H. unfold df_all_transactions in H.
  assert (Hs : StronglySorted newer_first df).
  { apply Sorted_StronglySorted.
    - intros a b c. apply newer_first_trans.
    - apply (data_frame_Sorted (get_transactions u db)); [|exact H].
      apply ListingFacts.order_Sorted. }
  split; [exact Hs|].
  intros x y Hx Hy. exact (head_before_rest newer_first df Hs 10 x y Hx Hy).
Qed.

Lemma latest_rows_come_first_witness :
  match df_all_transactions "alice" Samples.agenda with
  | Ok df => StronglySorted newer_first df
  | Raise _ => False
  end.
Proof.
  destruct (df_all_transactions "alice" Samples.agenda) as [df|e] eqn:E;
    [|discriminate E].
  exact (proj1 (latest_rows_come_first "alice" Samples.agenda df E)).
Defined.

End OrderFacts.

(** ** The projection on Python floats *)

Module Binary64Facts.

Import PyFacts Binary64.

Lemma keys_update_b64 k f d : keys (update k f d) = keys d.
Proof.
  unfold keys, update. rewrite map_map. apply map_ext.
  intros [k' b]; simpl. now destruct (month_key_eqb k k').
Qed.

Lemma keys_post_b64 c d : keys (post c d) = keys d.
Proof.
  unfold post, iadd_Receitas, iadd_Despesas.
  destruct (side c); apply keys_update_b64.
Qed.

Lemma keys_post_all_b64 cs d : keys (post_all cs d) = keys d.
Proof.
  revert d; induction cs as [|c cs IH]; intros d; [reflexivity|].
  change (post_all (c :: cs) d) with (post_all cs (post c d)).
  rewrite IH. apply keys_post_b64.
Qed.

Lemma post_all_app_b64 cs1 cs2 d :
  post_all (cs1 ++ cs2) d = post_all cs2 (post_all cs1 d).
Proof. unfold post_all. apply fold_left_app. Qed.

Section Row.

Variable today : date.
Variable ty : dtype.
Variable row : linha.

Lemma for_each_parcela_b64 n strs d :
  for_each (parcela today row n) strs d =
  match parse_dates strs with
  | Ok ps => Ok (post_all (map (installment row n)
                               (filter (to_come today (keys d)) ps)) d)
  | Raise e => Raise e
  end.
Proof.
  revert d; induction strs as [|s strs IH]; intros d; simpl; [reflexivity|].
  unfold parcela at 1.
  destruct (strptime_Ymd s) as [p|e]; simpl; [|reflexivity].
  assert (Hc : contains (strftime_Ym p) d && date_ltb today p
               = to_come today (keys d) p) by reflexivity.
  rewrite Hc; clear Hc.
  destruct (to_come today (keys d) p) eqn:Ep; simpl; rewrite IH.
  - unfold iadd_Receitas at 1. rewrite keys_update_b64.
    destruct (parse_dates strs) as [ps|e]; simpl; [|reflexivity].
    now rewrite Ep.
  - destruct (parse_dates strs) as [ps|e]; simpl; [|reflexivity].
    now rewrite Ep.
Qed.

Lemma own_month_posted_b64 d :
  post_all (own_month today (keys d) row) d =
  if String.eqb (Tipo row) "receita" then
    if contains (trans_month_key row) d
    then iadd_Receitas (trans_month_key row) (Valor row) d else d
  else if String.eqb (Tipo row) "despesa" then
    if eq_str (Status row) "A Pagar" && contains (trans_month_key row) d
    then iadd_Despesas (trans_month_key row) (Valor row) d
    else if eq_str (Status row) "Pago"
            && date_leb (replace_day today 1) (trans_date row)
            && contains (trans_month_key row) d
    then iadd_Despesas (trans_month_key row) (Valor row) d
    else d
  else d.
Proof.
  unfold own_month, trans_month_key, trans_date.
  change (contains (strftime_Ym (Data row)) d)
    with (in_window (keys d) (strftime_Ym (Data row))).
  destruct (String.eqb (Tipo row) "receita").
  - destruct (in_window (keys d) (strftime_Ym (Data row))); reflexivity.
  - destruct (String.eqb (Tipo row) "despesa"); [|reflexivity].
    destruct (eq_str (Status row) "A Pagar"), (eq_str (Status row) "Pago"),
      (date_leb (replace_day today 1) (Data row)),
      (in_window (keys d) (strftime_Ym (Data row))); reflexivity.
Qed.

(** The body of the loop and the contributions of the row agree, also on
    the exception that leaves the loop. *)
Lemma process_row_expand_b64 d :
  process_row today ty row d =
  match expand today ty (keys d) row with
  | Ok cs => Ok (post_all cs d)
  | Raise e => Raise e
  end.
Proof.
  unfold process_row, expand, installments, occurrences.
  pose proof (own_month_posted_b64 d) as Hown.
  destruct (String.eqb (Tipo row) "receita") eqn:Er; simpl.
  - unfold receita. rewrite <- Hown.
    destruct (not_in (Forma_Recebimento row) ["Parcela Única"; "Mais de 6x"]%string
              && truthy (Datas_Parcelas_Receita row)); simpl.
    + destruct (Json.loads (text_of (Datas_Parcelas_Receita row))) as [strs|e];
        simpl; [|reflexivity].
      rewrite for_each_parcela_b64, keys_post_all_b64.
      destruct (parse_dates strs) as [ps|e]; simpl; [|reflexivity].
      now rewrite app_nil_r, post_all_app_b64.
    + now rewrite app_nil_r.
  - destruct (String.eqb (Tipo row) "despesa") eqn:Ed; simpl.
    + unfold despesa. rewrite <- Hown.
      destruct (if eq_str (Recorrente row) "Sim"
                then gt_one (vezes_cell ty (Vezes_Recorrencia row))
                else Ok false) as [[|]|e]; simpl.
      * destruct (range_from_1 (vezes_cell ty (Vezes_Recorrencia row))) as [r|e];
          simpl; [|reflexivity].
        destruct r; [|reflexivity].
        simpl. now rewrite app_nil_r.
      * now rewrite app_nil_r.
      * reflexivity.
    + now rewrite app_nil_r, Hown.
Qed.

End Row.

(** The whole loop: it returns when no row raises, and then it has posted
    the contributions of every row, one row after the other. *)
Lemma for_each_process_row_b64 today ty df d :
  returned (for_each (process_row today ty) df d) =
  if existsb (raises today ty (keys d)) df then None
  else Some (post_all (contributions today ty (keys d) df) d).
Proof.
  revert d; induction df as [|row df IH]; intros d; simpl; [reflexivity|].
  rewrite process_row_expand_b64. unfold raises at 1, contributions. simpl.
  destruct (expand today ty (keys d) row) as [cs|e]; simpl; [|reflexivity].
  rewrite IH, keys_post_all_b64, post_all_app_b64. reflexivity.
Qed.

Lemma returned_projection_b64 today df :
  returned (projection today df) =
  if existsb (raises today (vezes_dtype df) (keys (initial today))) df then None
  else Some (compute_saldos
               (post_all (contributions today (vezes_dtype df)
                                        (keys (initial today)) df)
                         (initial today))).
Proof.
  unfold projection.
  pose proof (for_each_process_row_b64 today (vezes_dtype df) df (initial today)) as H.
  destruct (for_each (process_row today (vezes_dtype df)) df (initial today));
    simpl in *;
    destruct (existsb (raises today (vezes_dtype df) (keys (initial today))) df);
    congruence.
Qed.

Lemma vezes_dtype_Permutation_b64 df df' :
  Permutation df df' -> vezes_dtype df = vezes_dtype df'.
Proof.
  intros H. unfold vezes_dtype.
  rewrite (forallb_Permutation is_null df df' H).
  now rewrite (forallb_Permutation (fun r => negb (is_null r)) df df' H).
Qed.

(** *** The value of a bucket *)

Lemma getitem_update_b64 k k' f d :
  getitem k (update k' f d)
  = if month_key_eqb k' k then option_map f (getitem k d) else getitem k d.
Proof.
  unfold getitem, update.
  induction d as [|[k0 b] d IH]; simpl; [now destruct (month_key_eqb k' k)|].
  destruct (month_key_eqb k' k0) eqn:E0; simpl.
  - destruct (month_key_eqb k k0) eqn:E; simpl.
    + apply BucketFacts.month_key_eqb_true in E0, E. subst.
      now rewrite BucketFacts.month_key_eqb_same.
    + exact IH.
  - destruct (month_key_eqb k k0) eqn:E; simpl; [|exact IH].
    apply BucketFacts.month_key_eqb_true in E. subst k0. now rewrite E0.
Qed.

Lemma getitem_post_b64 k c d :
  getitem k (post c d)
  = if month_key_eqb (month_of c) k
    then option_map (fun b => credit b c) (getitem k d)
    else getitem k d.
Proof.
  unfold post, credit, iadd_Receitas, iadd_Despesas.
  destruct (side c); apply getitem_update_b64.
Qed.

Lemma getitem_post_all_b64 k cs d :
  getitem k (post_all cs d)
  = option_map
      (fun b => fold_left credit (filter (fun c => month_key_eqb (month_of c) k) cs) b)
      (getitem k d).
Proof.
  revert d; induction cs as [|c cs IH]; intros d.
  - simpl. now destruct (getitem k d).
  - change (post_all (c :: cs) d) with (post_all cs (post c d)).
    rewrite IH, getitem_post_b64. simpl.
    destruct (month_key_eqb (month_of c) k); [|reflexivity].
    now destruct (getitem k d).
Qed.

(** The postings of a month, side by side. *)
Lemma credit_by_side k cs : forall r d s,
  fold_left credit (filter (fun c => month_key_eqb (month_of c) k) cs)
            (Bucket r d s)
  = Bucket (fold_left PrimFloat.add (amounts em_Receitas k cs) r)
           (fold_left PrimFloat.add (amounts em_Despesas k cs) d) s.
Proof.
  unfold amounts.
  induction cs as [|c cs IH]; intros r d s; simpl; [reflexivity|].
  destruct (month_key_eqb (month_of c) k); simpl.
  - unfold credit at 2. destruct (side c); simpl;
      rewrite ?andb_true_r, ?andb_false_r; simpl; apply IH.
  - rewrite !andb_false_r. apply IH.
Qed.

Lemma set_Saldo_fold_b64 ks d :
  fold_left (fun d k => set_Saldo k d) ks d =
  map (fun e => if existsb (fun k => month_key_eqb k (fst e)) ks
                then (fst e, Bucket (Receitas (snd e)) (Despesas (snd e))
                                    (Receitas (snd e) - Despesas (snd e))%float)
                else e) d.
Proof.
  revert d; induction ks as [|k ks IH]; intros d; simpl.
  - rewrite <- (map_id d) at 1. apply map_ext. now intros [k b].
  - rewrite IH. unfold set_Saldo, update. rewrite map_map. apply map_ext.
    intros [k' b]; simpl.
    destruct (month_key_eqb k k'); simpl; [|reflexivity].
    now destruct (existsb (fun k0 => month_key_eqb k0 k') ks).
Qed.

Lemma compute_saldos_map_b64 d :
  compute_saldos d =
  map (fun e => (fst e, Bucket (Receitas (snd e)) (Despesas (snd e))
                               (Receitas (snd e) - Despesas (snd e))%float)) d.
Proof.
  unfold compute_saldos. rewrite set_Saldo_fold_b64.
  apply map_ext_in. intros [k b] Hin; simpl.
  replace (existsb (fun k0 => month_key_eqb k0 k) (keys d)) with true; [reflexivity|].
  symmetry. apply existsb_exists. exists k. split.
  - unfold keys. now apply (in_map fst) in Hin.
  - apply BucketFacts.month_key_eqb_same.
Qed.

Lemma getitem_compute_saldos k d :
  getitem k (compute_saldos d)
  = option_map (fun b => Bucket (Receitas b) (Despesas b)
                                (Receitas b - Despesas b)%float)
               (getitem k d).
Proof.
  rewrite compute_saldos_map_b64. unfold getitem.
  induction d as [|[k0 b] d IH]; simpl; [reflexivity|].
  destruct (month_key_eqb k k0); [reflexivity | exact IH].
Qed.

Lemma initial_window_b64 today :
  initial today =
  map (fun j => (strftime_Ym (add_months today j), Bucket 0 0 0)) [0; 1; 2; 3].
Proof.
  unfold initial, future_months, setitem, contains, keys, update.
  repeat first
    [ rewrite !ProjectionFacts.month_key_eqb_add_months
    | progress cbn [map fold_left existsb fst snd app orb Z.eqb Pos.eqb] ].
  reflexivity.
Qed.

Lemma getitem_initial today k :
  In k (keys (initial today)) -> getitem k (initial today) = Some (Bucket 0 0 0).
Proof.
  rewrite initial_window_b64. unfold getitem, keys.
  generalize [0; 1; 2; 3]. intros js.
  induction js as [|j js IH]; simpl; [contradiction|].
  intros [<-|Hin].
  - now rewrite BucketFacts.month_key_eqb_same.
  - destruct (month_key_eqb k (strftime_Ym (add_months today j))); [reflexivity|].
    now apply IH.
Qed.

(** The series of a projection that returns, bucket by bucket. *)
Lemma bucket_of_the_series today df s k :
  projection today df = Ok s ->
  In k (keys (initial today)) ->
  let cs := contributions today (vezes_dtype df) (keys (initial today)) df in
  getitem k s
  = Some (Bucket (sum (amounts em_Receitas k cs)) (sum (amounts em_Despesas k cs))
                 (sum (amounts em_Receitas k cs)
                  - sum (amounts em_Despesas k cs))%float).
Proof.
  intros H Hk cs. pose proof (returned_projection_b64 today df) as Hr.
  rewrite H in Hr. simpl in Hr.
  destruct (existsb _ df); [discriminate|]. injection Hr as ->.
  rewrite getitem_compute_saldos, getitem_post_all_b64, (getitem_initial today k Hk).
  cbn [option_map]. rewrite credit_by_side. reflexivity.
Qed.

Lemma keys_compute_saldos_b64 d : keys (compute_saldos d) = keys d.
Proof.
  rewrite compute_saldos_map_b64. unfold keys. rewrite map_map. now apply map_ext.
Qed.

Lemma keys_of_the_series today df s :
  projection today df = Ok s -> keys s = keys (initial today).
Proof.
  intros H. pose proof (returned_projection_b64 today df) as Hr.
  rewrite H in Hr. simpl in Hr.
  destruct (existsb _ df); [discriminate|]. injection Hr as ->.
  now rewrite keys_compute_saldos_b64, keys_post_all_b64.
Qed.

Lemma raises_exactly today df :
  (exists e, projection today df = Raise e)
  <-> existsb (raises today (vezes_dtype df) (keys (initial today))) df = true.
Proof.
  pose proof (returned_projection_b64 today df) as Hr.
  destruct (projection today df) as [s|e]; simpl in Hr;
    destruct (existsb _ df); try discriminate; split;
    try (intros [e0 H0]); try discriminate; eauto.
Qed.

(** The amounts of one side of one month, out of contributions taken in
    another order. *)
Lemma amounts_Permutation sd k cs cs' :
  Permutation cs cs' -> Permutation (amounts sd k cs) (amounts sd k cs').
Proof.
  intros H. unfold amounts. apply Permutation_map.
  induction H as [|c l l' _ IH|c1 c2 l|l l' l'' _ IH1 _ IH2].
  - constructor.
  - simpl. destruct (same_side (side c) sd && month_key_eqb (month_of c) k);
      [now constructor | exact IH].
  - simpl.
    destruct (same_side (side c1) sd && month_key_eqb (month_of c1) k),
             (same_side (side c2) sd && month_key_eqb (month_of c2) k);
      try reflexivity. apply perm_swap.
  - now transitivity (filter (fun c => same_side (side c) sd
                                       && month_key_eqb (month_of c) k) l').
Qed.

(** C6, as amended.  With [today] and the window fixed, the order of the
    rows decides nothing but the order of the additions.  The projection
    of a permutation of the frame raises exactly when the projection of
    the frame does, and the contributions of the rows are the same ones
    in another order.  When both return, the two series have the same
    months, and the bucket of each month holds, in both, the sum of its
    income amounts, the sum of its expense amounts and their
    difference, where the amounts of the one are a permutation of the
    amounts of the other and each sum is taken on binary64 from [0.0]
    in the order of the rows. *)
Theorem same_contributions_in_every_order
  (today : date) (df df' : list linha) :
  Permutation df df' ->
  let window := keys (initial today) in
  let cs := contributions today (vezes_dtype df) window df in
  let cs' := contributions today (vezes_dtype df') window df' in
  ((exists e, projection today df = Raise e)
   <-> (exists e, projection today df' = Raise e))
  /\ Permutation cs cs'
  /\ forall s s',
       projection today df = Ok s -> projection today df' = Ok s' ->
       keys s = window /\ keys s' = window
       /\ forall k, In k window ->
            Permutation (amounts em_Receitas k cs) (amounts em_Receitas k cs')
            /\ Permutation (amounts em_Despesas k cs) (amounts em_Despesas k cs')
            /\ getitem k s
               = Some (Bucket (sum (amounts em_Receitas k cs))
                              (sum (amounts em_Despesas k cs))
                              (sum (amounts em_Receitas k cs)
                               - sum (amounts em_Despesas k cs))%float)
            /\ getitem k s'
               = Some (Bucket (sum (amounts em_Receitas k cs'))
                              (sum (amounts em_Despesas k cs'))
                              (sum (amounts em_Receitas k cs')
                               - sum (amounts em_Despesas k cs'))%float).
Proof.
  intros H window cs cs'.
  pose proof (vezes_dtype_Permutation_b64 df df' H) as Hty.
  assert (Hcs : Permutation cs cs').
  { unfold cs, cs', contributions. rewrite <- Hty. now apply Permutation_flat_map. }
  split; [|split; [exact Hcs|]].
  - rewrite !raises_exactly, <- Hty.
    now rewrite (existsb_Permutation _ df df' H).
  - intros s s' Hs Hs'.
    split; [exact (keys_of_the_series today df s Hs)|].
    split; [exact (keys_of_the_series today df' s' Hs')|].
    intros k Hk.
    split; [now apply amounts_Permutation|].
    split; [now apply amounts_Permutation|].
    split.
    + exact (bucket_of_the_series today df s k Hs Hk).
    + exact (bucket_of_the_series today df' s' k Hs' Hk).
Qed.

Lemma crescente_decrescente : Permutation crescente decrescente.
Proof.
  unfold crescente, decrescente.
  apply Permutation_sym.
  apply (Permutation_cons_app [entrada 1 f0_1; entrada 2 f0_2] []).
  apply perm_swap.
Defined.

Lemma same_contributions_in_every_order_witness :
  Permutation crescente decrescente
  /\ Permutation
       (contributions Samples.today0 (vezes_dtype crescente)
                      (keys (initial Samples.today0)) crescente)
       (contributions Samples.today0 (vezes_dtype decrescente)
                      (keys (initial Samples.today0)) decrescente).
Proof.
  split; [exact crescente_decrescente|].
  exact (proj1 (proj2 (same_contributions_in_every_order
                         Samples.today0 crescente decrescente
                         crescente_decrescente))).
Defined.

(** The claim as the spec words it fails on Python floats: the incomes
    0.1, 0.2 and 0.3 of one month give 0.6000000000000001 in this order
    and 0.6 in the other, and the two series are not the same. *)
Lemma float_sums_depend_on_the_order :
  Permutation crescente decrescente
  /\ projection Samples.today0 crescente
     = Ok [((2024, 1), Bucket 0x1.3333333333334p-1 0 0x1.3333333333334p-1);
           ((2024, 2), Bucket 0 0 0);
           ((2024, 3), Bucket 0 0 0);
           ((2024, 4), Bucket 0 0 0)]
  /\ projection Samples.today0 decrescente
     = Ok [((2024, 1), Bucket 0x1.3333333333333p-1 0 0x1.3333333333333p-1);
           ((2024, 2), Bucket 0 0 0);
           ((2024, 3), Bucket 0 0 0);
           ((2024, 4), Bucket 0 0 0)]
  /\ PrimFloat.eqb 0x1.3333333333334p-1 0x1.3333333333333p-1 = false
  /\ returned (projection Samples.today0 crescente)
     <> returned (projection Samples.today0 decrescente).
Proof.
  assert (Ha : projection Samples.today0 crescente
     = Ok [((2024, 1), Bucket 0x1.3333333333334p-1 0 0x1.3333333333334p-1);
           ((2024, 2), Bucket 0 0 0);
           ((2024, 3), Bucket 0 0 0);
           ((2024, 4), Bucket 0 0 0)]) by (vm_compute; reflexivity).
  assert (Hb : projection Samples.today0 decrescente
     = Ok [((2024, 1), Bucket 0x1.3333333333333p-1 0 0x1.3333333333333p-1);
           ((2024, 2), Bucket 0 0 0);
           ((2024, 3), Bucket 0 0 0);
           ((2024, 4), Bucket 0 0 0)]) by (vm_compute; reflexivity).
  split; [exact crescente_decrescente|].
  split; [exact Ha|]. split; [exact Hb|]. split; [reflexivity|].
  rewrite Ha, Hb. cbn [returned]. intros H.
  pose proof (f_equal (fun o => match o with
                               | Some ((_, b) :: _) => Receitas b
                               | _ => 0%float
                               end) H) as E0.
  cbn in E0.
  assert (E : PrimFloat.eqb 0x1.3333333333334p-1 0x1.3333333333333p-1 = true).
  { rewrite E0. reflexivity. }
  discriminate E.
Qed.

End Binary64Facts.
